(** * SheetFlow: the large-file spreadsheet processing engine

    A shallow embedding of the conversion worker ([lib/excelWorkerThread.js]),
    the conversion request handler ([lib/ipcHandlers.js]), the CSV cell
    escaping helper and the streaming paginated reader
    ([StreamingFileReader]), with the properties of the design document
    stated and settled against them.

    Conventions of the embedding.
    - A JavaScript string is a [string]: the sequence of the bytes of its
      UTF-8 encoding.  The characters the code inspects (comma, double quote,
      line feed) are single bytes that never occur inside a multi-byte
      sequence, so [includes], [replace] and the character loop of
      [parseCsvLine] act on this representation as they do on the original;
      [Buffer.byteLength(s, 'utf8')] is the length of the representation.
    - A JavaScript number that holds a count, an index or a percentage is a
      [Z].
    - A value that may be [null] or [undefined] is a [JsVal] or an [option].
    - Exceptions are the [Err] results of [Result]. *)

From Stdlib Require Import ZArith Lia Ascii String.
From stdpp Require Import base option list strings gmap pretty.

Local Open Scope string_scope.
Local Open Scope list_scope.
Local Open Scope Z_scope.

(** ** JavaScript values and the library functions the code relies on *)

Module Js.

(** The values a spreadsheet cell can hold when it reaches the converters. *)
Inductive JsVal : Type :=
| JUndefined
| JNull
| JBool (b : bool)
| JNum (n : Z)
| JStr (s : string).

Definition dquote : ascii := "034"%char.
Definition comma : ascii := ","%char.
Definition newline : ascii := "010"%char.

Definition isEmptyString (s : string) : bool :=
  match s with EmptyString => true | String _ _ => false end.

(** ToBoolean. *)
Definition truthy (v : JsVal) : bool :=
  match v with
  | JUndefined | JNull => false
  | JBool b => b
  | JNum n => negb (n =? 0)
  | JStr s => negb (isEmptyString s)
  end.

(** [a || b]. *)
Definition or (a b : JsVal) : JsVal := if truthy a then a else b.

(** [String(v)]. *)
Definition String_ (v : JsVal) : string :=
  match v with
  | JUndefined => "undefined"
  | JNull => "null"
  | JBool true => "true"
  | JBool false => "false"
  | JNum n => pretty n
  | JStr s => s
  end.

(** [typeof v === 'string']. *)
Definition isString (v : JsVal) : bool :=
  match v with JStr _ => true | _ => false end.

(** [s.includes(c)] for a one-character needle. *)
Fixpoint includes (c : ascii) (s : string) : bool :=
  match s with
  | EmptyString => false
  | String a rest => Ascii.eqb a c || includes c rest
  end.

(** The global [replace] of the escaping code: every double quote becomes
    two double quotes. *)
Fixpoint doubleQuotes (s : string) : string :=
  match s with
  | EmptyString => EmptyString
  | String a rest =>
      if Ascii.eqb a dquote
      then String dquote (String dquote (doubleQuotes rest))
      else String a (doubleQuotes rest)
  end.

(** The text an array element contributes to [Array.prototype.join]:
    [null] and [undefined] contribute nothing. *)
Definition joinText (v : JsVal) : string :=
  match v with
  | JUndefined | JNull => EmptyString
  | _ => String_ v
  end.

(** [parts.join(sep)] on an array of strings. *)
Fixpoint join (sep : string) (parts : list string) : string :=
  match parts with
  | [] => EmptyString
  | [p] => p
  | p :: rest => p +:+ sep +:+ join sep rest
  end.

(** A string between double quotes. *)
Definition quoted (s : string) : string :=
  String dquote (s +:+ String dquote EmptyString).

(** [Buffer.byteLength(s, 'utf8')]. *)
Definition byteLength (s : string) : Z := Z.of_nat (String.length s).

(** A number used as a condition: [0] is falsy. *)
Definition truthyNum (n : Z) : bool := negb (n =? 0).

(** An optional number used as a condition: [null], [undefined] and [0]
    are falsy. *)
Definition truthyOpt (o : option Z) : bool :=
  match o with Some n => truthyNum n | None => false end.

End Js.

(** Results of code that can throw. *)
Inductive Result (A : Type) : Type :=
| Ok (a : A)
| Err (message : string).
Arguments Ok {A} a.
Arguments Err {A} message.

(** ** CSV text: escaping and the line parser *)

Module Csv.
Import Js.

(** [escapeCSVCell(cell)]. *)
Definition escapeCSVCell (cell : JsVal) : string :=
  let cellStr := String_ (or cell (JStr EmptyString)) in
  if includes comma cellStr || includes dquote cellStr || includes newline cellStr
  then String dquote (doubleQuotes cellStr +:+ String dquote EmptyString)
  else cellStr.


(** The [while] loop of [parseCsvLine]; [line] is the part of the line
    from index [i] on. *)
Fixpoint parseLoop (line : string) (result : list string)
    (current : string) (inQuotes : bool) : list string :=
  match line with
  | EmptyString => result ++ [current]
  | String char rest =>
      if Ascii.eqb char dquote then
        match inQuotes, rest with
        | true, String next rest' =>
            if Ascii.eqb next dquote
            then parseLoop rest' result (current +:+ String dquote EmptyString) inQuotes
            else parseLoop rest result current (negb inQuotes)
        | _, _ => parseLoop rest result current (negb inQuotes)
        end
      else if Ascii.eqb char comma && negb inQuotes then
        parseLoop rest (result ++ [current]) EmptyString inQuotes
      else
        parseLoop rest result (current +:+ String char EmptyString) inQuotes
  end.

(** [parseCsvLine(line)]. *)
Definition parseCsvLine (line : string) : list string :=
  parseLoop line [] EmptyString false.

End Csv.

(** ** The row-limited / size-limited writer of the conversion worker *)

Module Writer.
Import Js.

(** An output path, held in the three parts that [path.dirname],
    [path.basename(p, ext)] and [path.extname] return for it. *)
Record Path : Type := MkPath { dir : string; name : string; ext : string }.

#[export] Instance Path_eq_dec : EqDecision Path.
Proof. solve_decision. Defined.

(** The entries of the [files] list of a conversion result. *)
Record FileRecord : Type := MkFile { path : Path; rows : Z }.

Record ConversionResult : Type :=
  MkResult { totalRows : Z; files : list FileRecord }.

(** The calls of [fs.writeFileSync], oldest first. *)
Definition Disk : Type := list (Path * string).

Definition lf : string := String newline EmptyString.

Definition len {A} (l : list A) : Z := Z.of_nat (length l).

Definition strOf (cell : JsVal) : string :=
  match cell with JStr s => s | _ => EmptyString end.

(** The cell mapping written inline in [writeCSVSingle] and
    [writeCSVWithSplitting]. *)
Definition csvCell (cell : JsVal) : JsVal :=
  if isString cell
     && (includes comma (strOf cell) || includes dquote (strOf cell)
         || includes newline (strOf cell))
  then JStr (String dquote (doubleQuotes (strOf cell) +:+ String dquote EmptyString))
  else or cell (JStr EmptyString).

(** [row.map(cell => ...).join(',')]. *)
Definition csvRow (row : list JsVal) : string :=
  join "," (map (fun cell => joinText (csvCell cell)) row).

(** [getChunkFilePath(originalPath, index)]. *)
Definition getChunkFilePath (originalPath : Path) (index : Z) : Path :=
  {| dir := dir originalPath;
     name := name originalPath +:+ "_part" +:+ pretty index;
     ext := ext originalPath |}.

(** [writeCSVSingle(rows, outputPath)]. *)
Definition writeCSVSingle (rows : list (list JsVal)) (outputPath : Path)
    : ConversionResult * Disk :=
  let csv := join lf (map csvRow rows) in
  ({| totalRows := len rows;
      files := [ {| path := outputPath; rows := len rows |} ] |},
   [ (outputPath, csv) ]).

(** The variables of [writeCSVWithSplitting] that the loop updates. *)
Record SplitState : Type := MkSplit {
  st_files : list FileRecord;
  st_fileIndex : Z;
  st_currentRows : list string;
  st_currentSize : Z;
  st_disk : Disk
}.

Definition splitInit : SplitState :=
  {| st_files := []; st_fileIndex := 1; st_currentRows := [];
     st_currentSize := 0; st_disk := [] |}.

(** Write the rows collected so far to [filePath] and record the file. *)
Definition writeChunk (filePath : Path) (st : SplitState) : SplitState :=
  {| st_files := st_files st
       ++ [ {| path := filePath; rows := len (st_currentRows st) |} ];
     st_fileIndex := st_fileIndex st;
     st_currentRows := st_currentRows st;
     st_currentSize := st_currentSize st;
     st_disk := st_disk st ++ [ (filePath, join lf (st_currentRows st)) ] |}.

(** One iteration of the [for] loop. *)
Definition splitStep (outputPath : Path) (maxRows maxSizeBytes : option Z)
    (st : SplitState) (row : list JsVal) : SplitState :=
  let csvRow := csvRow row in
  let rowSize := byteLength (csvRow +:+ lf) in
  let wouldExceedRows :=
    match maxRows with
    | Some m => truthyNum m && (m <=? len (st_currentRows st))
    | None => false
    end in
  let wouldExceedSize :=
    match maxSizeBytes with
    | Some m => truthyNum m && (m <? st_currentSize st + rowSize)
    | None => false
    end in
  let st1 :=
    if (0 <? len (st_currentRows st)) && (wouldExceedRows || wouldExceedSize)
    then
      let w := writeChunk (getChunkFilePath outputPath (st_fileIndex st)) st in
      {| st_files := st_files w;
         st_fileIndex := st_fileIndex st + 1;
         st_currentRows := [];
         st_currentSize := 0;
         st_disk := st_disk w |}
    else st in
  {| st_files := st_files st1;
     st_fileIndex := st_fileIndex st1;
     st_currentRows := st_currentRows st1 ++ [csvRow];
     st_currentSize := st_currentSize st1 + rowSize;
     st_disk := st_disk st1 |}.

(** The state after the loop. *)
Definition splitLoop (rows : list (list JsVal)) (outputPath : Path)
    (maxRows maxSizeBytes : option Z) : SplitState :=
  foldl (splitStep outputPath maxRows maxSizeBytes) splitInit rows.

(** [writeCSVWithSplitting(rows, outputPath, maxRows, maxFileSize)]. *)
Definition writeCSVWithSplitting (rows : list (list JsVal)) (outputPath : Path)
    (maxRows maxFileSize : option Z) : ConversionResult * Disk :=
  let maxSizeBytes :=
    match maxFileSize with
    | Some m => if truthyNum m then Some (m * 1024 * 1024) else None
    | None => None
    end in
  let st := splitLoop rows outputPath maxRows maxSizeBytes in
  let st' :=
    if 0 <? len (st_currentRows st)
    then writeChunk (if st_fileIndex st =? 1 then outputPath
                     else getChunkFilePath outputPath (st_fileIndex st)) st
    else st in
  ({| totalRows := len rows; files := st_files st' |}, st_disk st').

(** The row counts recorded in a list of files. *)
Definition rowCounts (fs : list FileRecord) : list Z := map rows fs.

Definition sumZ (l : list Z) : Z := foldr Z.add 0 l.

End Writer.

(** ** The conversion worker: [ExcelProcessor] *)

Module Worker.
Import Js Writer.

(** A decoded cell range: start row and column, end row and column. *)
Record Range : Type := MkRange { s_r : Z; s_c : Z; e_r : Z; e_c : Z }.

(** The range of the address [A1:A1]. *)
Definition A1A1 : Range := {| s_r := 0; s_c := 0; e_r := 0; e_c := 0 |}.

(** A worksheet as the XLSX library materializes it: [sheetRef] is the
    decoded range of its [!ref] entry when it has one, [sheetCells] gives the
    value [cell.v] of the cell stored at a row and column, and [sheetRows] is
    the array of arrays that [XLSX.utils.sheet_to_json] returns for it with
    the options [header: 1] and [defval] the empty string. *)
Record XlsxSheet : Type := MkXlsxSheet {
  sheetRef : option Range;
  sheetCells : gmap (Z * Z) JsVal;
  sheetRows : list (list JsVal)
}.

Record XlsxWorkbook : Type := MkXlsxWorkbook {
  SheetNames : list string;
  Sheets : gmap string XlsxSheet
}.

(** A worksheet as ExcelJS loads it: [rowValues] lists [row.values] for the
    rows that [eachRow] visits, in order; the first entry of each is the
    unused slot of index 0. *)
Record ExcelJsSheet : Type := MkExcelJsSheet {
  wsName : string;
  rowCount : option Z;
  columnCount : option Z;
  rowValues : list (list JsVal)
}.

Record ExcelJsWorkbook : Type := MkExcelJsWorkbook {
  worksheets : list ExcelJsSheet
}.

(** What the worker finds when it runs: which libraries could be loaded,
    the file status, and what each library makes of the file. *)
Record Env : Type := MkEnv {
  hasXLSX : bool;
  hasExcelJS : bool;
  fileExists : bool;
  isFile : bool;
  extensionAllowed : bool;
  fileSizeText : string;
  xlsxReadFile : Result XlsxWorkbook;
  exceljsReadFile : Result ExcelJsWorkbook
}.

Inductive Complexity : Type := small | medium | large.

#[export] Instance Complexity_eq_dec : EqDecision Complexity.
Proof. solve_decision. Defined.

(** The entries of a [worksheets] message. *)
Record WorksheetInfo : Type := MkInfo {
  infoName : string;
  accessible : bool;
  size : option string;
  estimatedRows : option Z;
  estimatedCols : option Z;
  complexity : option Complexity
}.

(** The messages posted to the parent port. *)
Inductive Message : Type :=
| MProgress (progress : Z) (message : string)
| MWorksheets (infos : list WorksheetInfo)
| MSuccess (sheets : list string) (infos : option (list WorksheetInfo))
| MError (error : string).

(** Worker code posts messages and may throw: a computation maps the
    messages posted so far to its outcome and the messages posted after it. *)
Definition M (A : Type) : Type := list Message -> Result A * list Message.

Definition ret {A} (a : A) : M A := fun log => (Ok a, log).

Definition bind {A B} (m : M A) (k : A -> M B) : M B :=
  fun log =>
    match m log with
    | (Ok a, log') => k a log'
    | (Err e, log') => (Err e, log')
    end.

Definition throw {A} (e : string) : M A := fun log => (Err e, log).

Definition post (msg : Message) : M unit := fun log => (Ok tt, log ++ [msg]).

(** [try { m } catch (error) { handler(error) }]. *)
Definition tryCatch {A} (m : M A) (handler : string -> M A) : M A :=
  fun log =>
    match m log with
    | (Ok a, log') => (Ok a, log')
    | (Err e, log') => handler e log'
    end.

(** A library call that may throw. *)
Definition call {A} (r : Result A) : M A := fun log => (r, log).

Notation "x <- m ;; k" := (bind m (fun x => k))
  (at level 100, m at next level, right associativity).
Notation "m ;;; k" := (bind m (fun _ => k))
  (at level 100, right associativity).

Definition sendProgress (progress : Z) (message : string) : M unit :=
  post (MProgress progress message).

(** [sendWorksheets(worksheets)]. *)
Definition sendWorksheets (names : list string) : M unit :=
  post (MWorksheets
          (map (fun name => {| infoName := name; accessible := true;
                               size := Some "unknown"; estimatedRows := None;
                               estimatedCols := None; complexity := None |})
               names)).

(** The checks of [validateFile], without its messages. *)
Definition checkFile (env : Env) : Result unit :=
  if negb (fileExists env) then Err "File does not exist"
  else if negb (isFile env) then Err "Path is not a file"
  else if negb (extensionAllowed env)
  then Err "Invalid file type. Only Excel files are supported"
  else Ok tt.

(** [validateFile()]. *)
Definition validateFile (env : Env) : M unit :=
  sendProgress 5 "Validating file..." ;;;
  call (checkFile env) ;;;
  sendProgress 10 ("File size: " +:+ fileSizeText env +:+ " MB").

(** What [processWorksheets] returns. *)
Inductive Loaded : Type :=
| LoadedXLSX (workbook : XlsxWorkbook)
| LoadedExcelJS (workbook : ExcelJsWorkbook).

Record Analysis : Type := MkAnalysis {
  loaded : Loaded;
  sheetNames : list string;
  worksheetInfo : option (list WorksheetInfo)
}.

(** [tryExcelJS(previousError)]. *)
Definition tryExcelJS (env : Env) (previousError : option string) : M Analysis :=
  tryCatch
    (sendProgress 50 "Using ExcelJS library..." ;;;
     workbook <- call (exceljsReadFile env) ;;
     sendProgress 70 "Extracting worksheet information..." ;;;
     let sheets := map wsName (worksheets workbook) in
     sendProgress 90 ("Found " +:+ pretty (len sheets) +:+ " worksheets") ;;;
     sendWorksheets sheets ;;;
     sendProgress 100 "Worksheet analysis complete" ;;;
     ret {| loaded := LoadedExcelJS workbook; sheetNames := sheets;
            worksheetInfo := None |})
    (fun exceljsError =>
       throw (match previousError with
              | Some xlsxError =>
                  "Failed with both XLSX (" +:+ xlsxError +:+ ") and ExcelJS ("
                  +:+ exceljsError +:+ ")"
              | None => "Failed with ExcelJS: " +:+ exceljsError
              end)).

(** [processWorksheets()]. *)
Definition processWorksheets (env : Env) : M Analysis :=
  sendProgress 20 "Reading Excel file structure..." ;;;
  if hasXLSX env then
    tryCatch
      (sendProgress 30 "Using XLSX library..." ;;;
       workbook <- call (xlsxReadFile env) ;;
       sendProgress 60 "Extracting worksheet information..." ;;;
       let sheets := SheetNames workbook in
       sendProgress 80 ("Found " +:+ pretty (len sheets) +:+ " worksheets") ;;;
       sendWorksheets sheets ;;;
       sendProgress 100 "Worksheet analysis complete" ;;;
       ret {| loaded := LoadedXLSX workbook; sheetNames := sheets;
              worksheetInfo := None |})
      (fun xlsxError =>
         sendProgress 40 "XLSX failed, trying alternative method..." ;;;
         if hasExcelJS env then tryExcelJS env (Some xlsxError)
         else throw ("Unable to read Excel file with XLSX: " +:+ xlsxError))
  else if hasExcelJS env then tryExcelJS env None
  else throw "No Excel processing libraries available".

(** The conditional that assigns the complexity class. *)
Definition complexityOf (estimatedRows : Z) : Complexity :=
  if 10000 <? estimatedRows then large
  else if 1000 <? estimatedRows then medium
  else small.

Definition describe (name : string) (estimatedRows estimatedCols : Z)
    : WorksheetInfo :=
  {| infoName := name; accessible := true; size := None;
     estimatedRows := Some estimatedRows; estimatedCols := Some estimatedCols;
     complexity := Some (complexityOf estimatedRows) |}.

(** The body of the loop over the sheet names of an XLSX workbook; reading
    [!ref] off a sheet that was not materialized throws. *)
Definition describeXlsx (workbook : XlsxWorkbook) (sheetName : string)
    : Result WorksheetInfo :=
  match Sheets workbook !! sheetName with
  | None => Err "Cannot read properties of undefined"
  | Some worksheet =>
      let range := default A1A1 (sheetRef worksheet) in
      Ok (describe sheetName (e_r range - s_r range + 1)
                             (e_c range - s_c range + 1))
  end.

(** The body of the loop over the worksheets of an ExcelJS workbook. *)
Definition describeExcelJs (worksheet : ExcelJsSheet) : WorksheetInfo :=
  describe (wsName worksheet) (default 0 (rowCount worksheet))
           (default 0 (columnCount worksheet)).

(** Run a loop body that may throw over a list, collecting its results. *)
Fixpoint forEach {A B} (body : A -> Result B) (l : list A) : Result (list B) :=
  match l with
  | [] => Ok []
  | a :: rest =>
      match body a with
      | Err e => Err e
      | Ok b =>
          match forEach body rest with
          | Err e => Err e
          | Ok bs => Ok (b :: bs)
          end
      end
  end.

(** [analyzeWorksheets(result)]. *)
Definition analyzeWorksheets (result : Analysis) : M Analysis :=
  sendProgress 85 "Analyzing worksheet complexity..." ;;;
  tryCatch
    (infos <- call (match loaded result with
                    | LoadedXLSX workbook =>
                        forEach (describeXlsx workbook) (sheetNames result)
                    | LoadedExcelJS workbook =>
                        Ok (map describeExcelJs (worksheets workbook))
                    end) ;;
     post (MWorksheets infos) ;;;
     ret {| loaded := loaded result; sheetNames := sheetNames result;
            worksheetInfo := Some infos |})
    (fun _ => ret result).

(** [process()] for the operation [getWorksheets]: the analysis job. *)
Definition processGetWorksheets (env : Env) : M unit :=
  tryCatch
    (sendProgress 0 "Starting Excel file analysis..." ;;;
     validateFile env ;;;
     result <- processWorksheets env ;;
     finalResult <- analyzeWorksheets result ;;
     post (MSuccess (sheetNames finalResult) (worksheetInfo finalResult)))
    (fun error => post (MError error)).

(** The messages of one analysis job, in the order they are posted. *)
Definition analysisJob (env : Env) : list Message :=
  (processGetWorksheets env []).2.

(** The percent values of the progress messages of a job. *)
Definition progressValues (log : list Message) : list Z :=
  omap (fun msg => match msg with MProgress p _ => Some p | _ => None end) log.

(** The descriptors of the last [worksheets] message of a job. *)
Definition lastWorksheets (log : list Message) : option (list WorksheetInfo) :=
  last (omap (fun msg => match msg with MWorksheets ws => Some ws | _ => None end) log).

(** The test of the row filter: the cell is not [null], not [undefined] and
    not the empty string. *)
Definition cellHasContent (cell : JsVal) : bool :=
  match cell with
  | JNull | JUndefined => false
  | JStr s => negb (isEmptyString s)
  | _ => true
  end.

(** [rows.filter(row => row.some(cell => ...))]. *)
Definition nonEmptyRowsOf (data : list (list JsVal)) : list (list JsVal) :=
  filter (fun row => Is_true (existsb cellHasContent row)) data.

(** The end of both converters: choose the write function. *)
Definition writeRows (nonEmptyRows : list (list JsVal)) (outputPath : Path)
    (maxRows maxFileSize : option Z) : ConversionResult * Disk :=
  if truthyOpt maxRows || truthyOpt maxFileSize
  then writeCSVWithSplitting nonEmptyRows outputPath maxRows maxFileSize
  else writeCSVSingle nonEmptyRows outputPath.

(** [convertWithXLSX(sheetName, outputPath, maxRows, maxFileSize)]. *)
Definition convertWithXLSX (workbook : XlsxWorkbook) (sheetName : string)
    (outputPath : Path) (maxRows maxFileSize : option Z)
    : Result (ConversionResult * Disk) :=
  match Sheets workbook !! sheetName with
  | None => Err ("Worksheet " +:+ quoted sheetName +:+ " not found")
  | Some worksheet =>
      let data := sheetRows worksheet in
      if len data =? 0 then Err "No data found in worksheet"
      else
        let nonEmptyRows := nonEmptyRowsOf data in
        if len nonEmptyRows =? 0 then Err "No non-empty rows found"
        else Ok (writeRows nonEmptyRows outputPath maxRows maxFileSize)
  end.

(** [workbook.getWorksheet(sheetName)]. *)
Definition getWorksheet (workbook : ExcelJsWorkbook) (sheetName : string)
    : option ExcelJsSheet :=
  find (fun ws => bool_decide (wsName ws = sheetName)) (worksheets workbook).

(** [convertWithExcelJS(sheetName, outputPath, maxRows, maxFileSize)]. *)
Definition convertWithExcelJS (workbook : ExcelJsWorkbook) (sheetName : string)
    (outputPath : Path) (maxRows maxFileSize : option Z)
    : Result (ConversionResult * Disk) :=
  match getWorksheet workbook sheetName with
  | None => Err ("Worksheet " +:+ quoted sheetName +:+ " not found")
  | Some worksheet =>
      let rws := map (drop 1) (rowValues worksheet) in
      if len rws =? 0 then Err "No data found in worksheet"
      else
        let nonEmptyRows := nonEmptyRowsOf rws in
        Ok (writeRows nonEmptyRows outputPath maxRows maxFileSize)
  end.

(** [loadWorkbook()]. *)
Definition loadWorkbook (env : Env) : Result Loaded :=
  match (if hasXLSX env then xlsxReadFile env else Err "XLSX not available") with
  | Ok workbook => Ok (LoadedXLSX workbook)
  | Err _ =>
      if hasExcelJS env then
        match exceljsReadFile env with
        | Ok workbook => Ok (LoadedExcelJS workbook)
        | Err e => Err e
        end
      else Err "No Excel libraries available for conversion"
  end.

(** [convertToCSV(sheetName, outputPath, maxRows, maxFileSize)]. *)
Definition convertToCSV (env : Env) (sheetName : string) (outputPath : Path)
    (maxRows maxFileSize : option Z) : Result (ConversionResult * Disk) :=
  match
    match loadWorkbook env with
    | Err e => Err e
    | Ok (LoadedXLSX workbook) =>
        convertWithXLSX workbook sheetName outputPath maxRows maxFileSize
    | Ok (LoadedExcelJS workbook) =>
        convertWithExcelJS workbook sheetName outputPath maxRows maxFileSize
    end
  with
  | Ok r => Ok r
  | Err e => Err ("Failed to convert " +:+ sheetName +:+ ": " +:+ e)
  end.

(** [process()] for the operation [convertToCSV], as the worker manager
    settles its promise: resolved with the data of the [success] message or
    rejected with the text of the [error] message.  The progress messages of
    a conversion job are not part of this model. *)
Definition processConvertToCSV (env : Env) (sheetName : string)
    (outputPath : Path) (maxRows maxFileSize : option Z)
    : Result (ConversionResult * Disk) :=
  match checkFile env with
  | Err e => Err e
  | Ok _ => convertToCSV env sheetName outputPath maxRows maxFileSize
  end.

End Worker.

(** ** The converter module: [lib/converter.js] *)

Module Converter.
Import Js Writer.

(** [s.includes(needle)] for a needle of any length. *)
Fixpoint includesText (needle s : string) : bool :=
  String.prefix needle s
  || match s with
     | EmptyString => false
     | String _ rest => includesText needle rest
     end.

(** The separator this module writes between rows and looks for in cells:
    the two characters backslash and n of its string literal. *)
Definition backslashN : string := "\n".

(** The cell mapping of [convertWithXLSX]. *)
Definition csvCell (cell : JsVal) : JsVal :=
  if isString cell
     && (includes comma (strOf cell) || includes dquote (strOf cell)
         || includesText backslashN (strOf cell))
  then JStr (quoted (doubleQuotes (strOf cell)))
  else or cell (JStr EmptyString).

Definition csvRow (row : list JsVal) : string :=
  join "," (map (fun cell => joinText (csvCell cell)) row).

(** [convertWithXLSX(inputFile, sheetName, outputFile, maxRows, maxFileSize)];
    [workbook] is the outcome of [XLSX.readFile] on the input file.  The row
    filter is the one of the worker, character for character. *)
Definition convertWithXLSX (workbook : Result Worker.XlsxWorkbook)
    (sheetName : string) (outputFile : Path)
    : Result (ConversionResult * Disk) :=
  match workbook with
  | Err e => Err e
  | Ok wb =>
      match Worker.Sheets wb !! sheetName with
      | None => Err ("Worksheet " +:+ quoted sheetName +:+ " not found")
      | Some worksheet =>
          let data := Worker.sheetRows worksheet in
          if len data =? 0 then Err "No data found in worksheet"
          else
            let nonEmptyRows := Worker.nonEmptyRowsOf data in
            if len nonEmptyRows =? 0 then Err "No non-empty rows found"
            else
              let csv := join backslashN (map csvRow nonEmptyRows) in
              Ok ({| totalRows := len nonEmptyRows;
                     files := [ {| path := outputFile; rows := len nonEmptyRows |} ] |},
                  [ (outputFile, csv) ])
      end
  end.

End Converter.

(** ** The conversion request handler: [ipcMain.handle('convert-file')] *)

Module Ipc.
Import Js Writer.

(** An entry of the [worksheets] option: a bare name, an object with a
    string [name], or anything else. *)
Inductive WorksheetArg : Type :=
| ByName (name : string)
| ByObject (name : string)
| Malformed.

(** What the handler returns: [success: true] with the totals, the files
    and the errors ([None] is [null]), or [success: false] with an error. *)
Inductive Response : Type :=
| Success (totalRows : Z) (files : list FileRecord) (errors : option (list string))
| Failure (error : string).

Definition isSuccess (r : Response) : bool :=
  match r with Success _ _ _ => true | Failure _ => false end.

Definition responseErrors (r : Response) : list string :=
  match r with Success _ _ (Some errors) => errors | _ => [] end.

(** The three accumulators of the loop over the worksheets. *)
Record Acc : Type := MkAcc {
  allFilesCreated : list FileRecord;
  totalRowsAll : Z;
  errors : list string
}.

Definition accInit : Acc :=
  {| allFilesCreated := []; totalRowsAll := 0; errors := [] |}.

Section Handler.

(** The collaborators of the handler: the outcome of validating the input
    file and the output directory, the sheet-name sanitizer, and the
    conversion of one worksheet (the worker manager's
    [convertWorksheetToCSV] in one version of the handler, the converter
    module's [convertSingleWorksheet] in the other). *)
Variable validatePaths : Result unit.
Variable sanitizeSheetName : string -> Result string.
Variable convertWorksheet : string -> Result ConversionResult.

(** The callback of [worksheets.map]. *)
Definition validateWorksheet (sheet : WorksheetArg) : Result string :=
  match sheet with
  | ByName name => sanitizeSheetName name
  | ByObject name => sanitizeSheetName name
  | Malformed => Err "Invalid worksheet name format"
  end.

(** The body of the [for] loop with its [try] and [catch]. *)
Definition convertOne (acc : Acc) (sheetName : string) : Acc :=
  match convertWorksheet sheetName with
  | Ok result =>
      {| allFilesCreated := allFilesCreated acc ++ files result;
         totalRowsAll := totalRowsAll acc + totalRows result;
         errors := errors acc |}
  | Err message =>
      {| allFilesCreated := allFilesCreated acc;
         totalRowsAll := totalRowsAll acc;
         errors := errors acc ++ [sheetName +:+ ": " +:+ message] |}
  end.

Definition convertAll (validatedWorksheets : list string) : Acc :=
  foldl convertOne accInit validatedWorksheets.

(** The part of the handler that follows the loop. *)
Definition respond (acc : Acc) : Response :=
  if (0 <? len (errors acc)) && (len (allFilesCreated acc) =? 0)
  then Failure ("All worksheets failed to convert:\n" +:+ join "\n" (errors acc))
  else Success (totalRowsAll acc) (allFilesCreated acc)
               (if 0 <? len (errors acc) then Some (errors acc) else None).

(** The handler. *)
Definition convertFile (worksheets : option (list WorksheetArg)) : Response :=
  match validatePaths with
  | Err e => Failure e
  | Ok _ =>
      match worksheets with
      | None | Some [] => Failure "Please select at least one worksheet to convert"
      | Some sheets =>
          match Worker.forEach validateWorksheet sheets with
          | Err e => Failure e
          | Ok validatedWorksheets => respond (convertAll validatedWorksheets)
          end
      end
  end.

End Handler.

(** The conversion of one worksheet in the handler that uses the background
    worker: the output path is [baseName_sheetName.csv] in the output
    directory, and [envOf] is what the worker of that job finds. *)
Definition convertWorksheetToCSV (envOf : string -> Worker.Env)
    (outputDir baseName : string) (maxRows maxFileSize : option Z)
    (sheetName : string) : Result ConversionResult :=
  match Worker.processConvertToCSV (envOf sheetName) sheetName
          {| dir := outputDir; name := baseName +:+ "_" +:+ sheetName; ext := ".csv" |}
          maxRows maxFileSize with
  | Ok (result, _) => Ok result
  | Err e => Err e
  end.

End Ipc.

(** ** The streaming paginated reader: [StreamingFileReader] *)

Module Reader.
Import Js Csv.

Inductive FileType : Type := csv | excel.

Record Column : Type := MkColumn { index : Z; name : string; type : string }.

(** The fields of a reader. *)
Record StreamingFileReader : Type := MkReader {
  currentFile : option string;
  currentSheet : option string;
  fileType : option FileType;
  totalRows : Z;
  columns : list Column;
  defaultPageSize : Z
}.

(** The constructor. *)
Definition newReader : StreamingFileReader :=
  {| currentFile := None; currentSheet := None; fileType := None;
     totalRows := 0; columns := []; defaultPageSize := 100 |}.

(** One row of a page: its number and the values by column name. *)
Record PageRow : Type := MkPageRow { rowNumber : Z; data : gmap string string }.

Record Page : Type := MkPage {
  rows : list PageRow;
  startRow : Z;
  endRow : Z;
  pageTotalRows : Z;
  hasMore : bool
}.

Definition len {A} (l : list A) : Z := Z.of_nat (length l).

(** The white space that [trim] removes, within ASCII. *)
Definition isWhiteSpace (c : ascii) : bool :=
  let n := nat_of_ascii c in
  ((9 <=? n) && (n <=? 13) || (n =? 32))%nat.

Fixpoint isBlank (s : string) : bool :=
  match s with
  | EmptyString => true
  | String c rest => isWhiteSpace c && isBlank rest
  end.

(** [header || `Column N`]. *)
Definition orColumn (header : string) (n : Z) : string :=
  if isEmptyString header then "Column " +:+ pretty n else header.

(** The column descriptors made from the values of a header line. *)
Definition headerColumns (headers : list string) : list Column :=
  imap (fun i header =>
          {| index := Z.of_nat i; name := orColumn header (Z.of_nat i + 1);
             type := "text" |})
       headers.

(** The descriptors of the [catch] branch of the header parse. *)
Definition genericColumns (line : string) : list Column :=
  let commaCount := length (filter (fun c => c = comma) (list_ascii_of_string line)) in
  map (fun i => {| index := Z.of_nat i;
                   name := "Column " +:+ pretty (Z.of_nat i + 1);
                   type := "text" |})
      (seq 0 (commaCount + 1)).

(** A call of [parseCsvLine] inside a [try]: the parser has no [throw]
    and indexes only the string it is given, so the call always returns. *)
Definition tryParseCsvLine (line : string) : Result (list string) :=
  Ok (parseCsvLine line).

(** The header search of [analyzeCsvFile]: the columns come from the first
    line that is not blank. *)
Fixpoint findHeader (lines : list string) : option (list Column) :=
  match lines with
  | [] => None
  | line :: rest =>
      if negb (isBlank line)
      then Some (match tryParseCsvLine line with
                 | Ok headers => headerColumns headers
                 | Err _ => genericColumns line
                 end)
      else findHeader rest
  end.

(** [analyzeCsvFile()], on the lines that [readline] delivers. *)
Definition analyzeCsvFile (lines : list string) (r : StreamingFileReader)
    : StreamingFileReader :=
  let rowCount := len lines in
  {| currentFile := currentFile r;
     currentSheet := currentSheet r;
     fileType := fileType r;
     totalRows := Z.max 0 (rowCount - 1);
     columns := default (columns r) (findHeader lines);
     defaultPageSize := defaultPageSize r |}.

(** [initializeFile(filePath)] for a path with the extension [.csv]. *)
Definition initializeCsv (filePath : string) (lines : list string)
    : StreamingFileReader :=
  analyzeCsvFile lines
    {| currentFile := Some filePath; currentSheet := None;
       fileType := Some csv; totalRows := 0; columns := [];
       defaultPageSize := 100 |}.

(** [values[index] || ''] for every column, stored under the column name. *)
Definition csvRowData (cols : list Column) (values : list string)
    : gmap string string :=
  foldl (fun rowData '(i, col) =>
           <[ name col := default EmptyString (values !! i) ]> rowData)
        ∅ (imap (fun i col => (i, col)) cols).

(** The variables of [readCsvPage] that the line listener updates;
    [warnings] collects the row numbers of the warnings logged for skipped
    rows, [closed] records the call of [rl.close()]. *)
Record CsvScan : Type := MkScan {
  scanRows : list PageRow;
  currentRow : Z;
  foundRows : Z;
  warnings : list Z;
  closed : bool
}.

Definition scanInit : CsvScan :=
  {| scanRows := []; currentRow := -1; foundRows := 0; warnings := [];
     closed := false |}.

(** The listener of the [line] event. *)
Definition onLine (cols : list Column) (startRow pageSize : Z)
    (st : CsvScan) (line : string) : CsvScan :=
  let currentRow' := currentRow st + 1 in
  if currentRow' =? 0 then
    {| scanRows := scanRows st; currentRow := currentRow';
       foundRows := foundRows st; warnings := warnings st; closed := closed st |}
  else
    let dataRow := currentRow' - 1 in
    let st1 :=
      if (startRow <=? dataRow) && (foundRows st <? pageSize) then
        match tryParseCsvLine line with
        | Ok values =>
            {| scanRows := scanRows st
                 ++ [ {| rowNumber := dataRow + 1; data := csvRowData cols values |} ];
               currentRow := currentRow';
               foundRows := foundRows st + 1;
               warnings := warnings st; closed := closed st |}
        | Err _ =>
            {| scanRows := scanRows st; currentRow := currentRow';
               foundRows := foundRows st;
               warnings := warnings st ++ [currentRow']; closed := closed st |}
        end
      else
        {| scanRows := scanRows st; currentRow := currentRow';
           foundRows := foundRows st; warnings := warnings st;
           closed := closed st |} in
    {| scanRows := scanRows st1; currentRow := currentRow st1;
       foundRows := foundRows st1; warnings := warnings st1;
       closed := closed st1 || (pageSize <=? foundRows st1) |}.

(** The scan of [readCsvPage].  Lines that [readline] still delivers after
    [rl.close()] reach the listener too; its guard on [foundRows] keeps
    them out of the page. *)
Definition scanCsv (r : StreamingFileReader) (lines : list string)
    (startRow pageSize : Z) : CsvScan :=
  foldl (onLine (columns r) startRow pageSize) scanInit lines.

(** [readCsvPage(startRow, pageSize)]: the value the promise resolves to. *)
Definition readCsvPage (r : StreamingFileReader) (lines : list string)
    (startRow pageSize : Z) : Page :=
  let st := scanCsv r lines startRow pageSize in
  {| rows := scanRows st;
     startRow := startRow;
     endRow := startRow + foundRows st - 1;
     pageTotalRows := totalRows r;
     hasMore := startRow + foundRows st <? totalRows r |}.



(** The file behind a session: the lines of its text and what
    [XLSX.readFile] makes of it. *)
Record FileView : Type := MkView {
  viewLines : list string;
  viewWorkbook : Result Worker.XlsxWorkbook
}.


(** The header cells of a sheet: one column for every column index of the
    range. *)
Definition excelColumns (worksheet : Worker.XlsxSheet) (range : Worker.Range)
    : list Column :=
  map (fun col =>
         {| index := col;
            name := match Worker.sheetCells worksheet !! (Worker.s_r range, col) with
                    | Some v => String_ v
                    | None => "Column " +:+ pretty (col + 1)
                    end;
            type := "text" |})
      (seqZ (Worker.s_c range) (Worker.e_c range - Worker.s_c range + 1)).

(** What the external engine reports for a sheet: its name, its number of
    rows and its columns. *)
Record EngineSheet : Type := MkEngineSheet {
  engineSheetName : string;
  engineTotalRows : Z;
  engineColumns : list Column
}.

(** [setExcelSheetPython(sheetName)], given the outcome of the engine. *)
Definition setExcelSheetPython (engine : Result EngineSheet)
    (r : StreamingFileReader) : Result StreamingFileReader :=
  match engine with
  | Err e => Err e
  | Ok sheet =>
      Ok {| currentFile := currentFile r;
            currentSheet := Some (engineSheetName sheet);
            fileType := fileType r;
            totalRows := engineTotalRows sheet;
            columns := engineColumns sheet;
            defaultPageSize := defaultPageSize r |}
  end.

(** The part of [setExcelSheet(sheetName)] that uses the XLSX library. *)
Definition setExcelSheetXLSX (workbook : Result Worker.XlsxWorkbook)
    (sheetName : string) (r : StreamingFileReader) : Result StreamingFileReader :=
  match workbook with
  | Err e => Err e
  | Ok wb =>
      match Worker.Sheets wb !! sheetName with
      | None => Err ("Worksheet '" +:+ sheetName +:+ "' not found")
      | Some worksheet =>
          let range := default Worker.A1A1 (Worker.sheetRef worksheet) in
          Ok {| currentFile := currentFile r;
                currentSheet := Some sheetName;
                fileType := fileType r;
                totalRows := Z.max 0 (Worker.e_r range - Worker.s_r range);
                columns := excelColumns worksheet range;
                defaultPageSize := defaultPageSize r |}
      end
  end.

(** [setExcelSheet(sheetName)]: [isLarge] says that the file is over 200 MB,
    [engine] is the outcome of the external engine for the sheet. *)
Definition setExcelSheet (isLarge : bool) (workbook : Result Worker.XlsxWorkbook)
    (engine : Result EngineSheet) (sheetName : string)
    (r : StreamingFileReader) : Result StreamingFileReader :=
  if isLarge then
    match setExcelSheetPython engine r with
    | Ok r' => Ok r'
    | Err pythonError =>
        Err ("Failed to set Excel sheet: " +:+ pythonError
             +:+ ". Python fallback also failed: " +:+ pythonError)
    end
  else
    match setExcelSheetXLSX workbook sheetName r with
    | Ok r' => Ok r'
    | Err error =>
        match setExcelSheetPython engine r with
        | Ok r' => Ok r'
        | Err pythonError =>
            Err ("Failed to set Excel sheet: " +:+ error
                 +:+ ". Python fallback also failed: " +:+ pythonError)
        end
    end.

(** The sessions a page can be read from: a CSV session set up by
    [initializeFile] on the file, or a spreadsheet session on the file whose
    current sheet the XLSX library materializes, whichever way the sheet was
    selected. *)
Inductive Initialized (file : FileView) : StreamingFileReader -> Prop :=
| Initialized_csv (path : string) :
    Initialized file (initializeCsv path (viewLines file))
| Initialized_sheet (r : StreamingFileReader) (path sheetName : string)
    (workbook : Worker.XlsxWorkbook) (worksheet : Worker.XlsxSheet) :
    currentFile r = Some path ->
    fileType r = Some excel ->
    currentSheet r = Some sheetName ->
    viewWorkbook file = Ok workbook ->
    Worker.Sheets workbook !! sheetName = Some worksheet ->
    Initialized file r.

(** [close()]. *)
Definition close (r : StreamingFileReader) : StreamingFileReader :=
  {| currentFile := None; currentSheet := None; fileType := None;
     totalRows := 0; columns := []; defaultPageSize := defaultPageSize r |}.

End Reader.

(** ** The vocabulary of the writer properties *)

Module WriterSpec.
Import Js Writer.


(** The paths [getChunkFilePath outputPath 1], ..., [getChunkFilePath outputPath n]. *)
Definition partPaths (outputPath : Path) (n : Z) : list Path :=
  map (getChunkFilePath outputPath) (seqZ 1 n).


(** The files recorded and the texts written are those of a list of chunks
    of serialized rows. *)
Record Chunked (fs : list FileRecord) (disk : Disk) (chunks : list (list string)) : Prop :=
  MkChunked {
    chunked_counts : rowCounts fs = map len chunks;
    chunked_texts : map snd disk = map (join lf) chunks;
    chunked_paths : map fst disk = map path fs;
    chunked_nonempty : Forall (fun chunk => chunk <> []) chunks
  }.

(** The result and the disk of a write hold exactly the given rows: the
    total and the sum of the recorded counts are their number, one text was
    written per recorded file, and the texts, put together line after line,
    are the serialized rows in their order. *)
Definition Written (out : Writer.ConversionResult * Writer.Disk)
    (rws : list (list Js.JsVal)) : Prop :=
  Writer.totalRows out.1 = Writer.len rws
  /\ Writer.sumZ (Writer.rowCounts (Writer.files out.1)) = Writer.len rws
  /\ map fst out.2 = map Writer.path (Writer.files out.1)
  /\ Js.join Writer.lf (map snd out.2) = Js.join Writer.lf (map Writer.csvRow rws).

End WriterSpec.

(** ** The vocabulary of the worker properties *)

Module WorkerSpec.
Import Js Writer Worker.

(** A list of percent values never decreases. *)
Fixpoint nonDecreasing (l : list Z) : bool :=
  match l with
  | a :: ((b :: _) as rest) => (a <=? b) && nonDecreasing rest
  | _ => true
  end.

(** The job of a one-sheet workbook. *)
Definition oneSheetEnv (rowsInRange : Z) : Env :=
  {| hasXLSX := true; hasExcelJS := true; fileExists := true; isFile := true;
     extensionAllowed := true; fileSizeText := "1.00";
     xlsxReadFile :=
       Ok {| SheetNames := ["Data"];
             Sheets := {[ "Data" :=
               {| sheetRef := Some {| s_r := 0; s_c := 0; e_r := rowsInRange - 1; e_c := 2 |};
                  sheetCells := ∅; sheetRows := [] |} ]} |};
     exceljsReadFile := Err "not tried" |}.

(** The ladder as the design document words it: below 1,000 rows small,
    below 10,000 rows medium, large otherwise. *)
Definition spec_complexity (estimatedRows : Z) : Complexity :=
  if estimatedRows <? 1000 then small
  else if estimatedRows <? 10000 then medium
  else large.

(** The descriptors that [analyzeWorksheets] builds. *)
Inductive analyzed : WorksheetInfo -> Prop :=
| analyzed_xlsx (workbook : XlsxWorkbook) (sheetName : string) (info : WorksheetInfo) :
    describeXlsx workbook sheetName = Ok info -> analyzed info
| analyzed_exceljs (worksheet : ExcelJsSheet) :
    analyzed (describeExcelJs worksheet).

(** A cell the converters count as empty: [null], [undefined] or the empty
    string.  A cell of white space is not empty. *)
Definition cellIsEmpty (cell : JsVal) : Prop :=
  cell = JNull \/ cell = JUndefined \/ cell = JStr EmptyString.

Definition rowIsEmpty (row : list JsVal) : Prop := Forall cellIsEmpty row.

#[export] Instance JsVal_eq_dec : EqDecision JsVal.
Proof. solve_decision. Defined.

#[export] Instance cellIsEmpty_dec (cell : JsVal) : Decision (cellIsEmpty cell).
Proof. unfold cellIsEmpty. apply _. Defined.

#[export] Instance rowIsEmpty_dec (row : list JsVal) : Decision (rowIsEmpty row).
Proof. unfold rowIsEmpty. apply _. Defined.



(** A workbook whose sheet holds a row of empty cells, a row with a cell of
    two spaces, and a row with a value. *)
Definition notesBook : XlsxWorkbook :=
  {| SheetNames := ["Notes"];
     Sheets := {[ "Notes" :=
       {| sheetRef := Some {| s_r := 0; s_c := 0; e_r := 2; e_c := 1 |};
          sheetCells := ∅;
          sheetRows := [ [JStr EmptyString; JNull];
                         [JStr "  "; JStr EmptyString];
                         [JStr "total"; JNum 7] ] |} ]} |}.

End WorkerSpec.

(** ** The vocabulary of the request properties *)

Module IpcSpec.
Import Js Writer Ipc.

Definition failed (convertWorksheet : string -> Result ConversionResult)
    (sheetName : string) : Prop :=
  exists message, convertWorksheet sheetName = Err message.

(** The error entry of a worksheet that failed. *)
Definition errorOf (convertWorksheet : string -> Result ConversionResult)
    (sheetName : string) : option string :=
  match convertWorksheet sheetName with
  | Ok _ => None
  | Err message => Some (sheetName +:+ ": " +:+ message)
  end.

(** The files of a worksheet that was converted. *)
Definition filesOf (convertWorksheet : string -> Result ConversionResult)
    (sheetName : string) : list FileRecord :=
  match convertWorksheet sheetName with
  | Ok result => files result
  | Err _ => []
  end.

(** What a worker finds for a file that the XLSX library cannot read and
    ExcelJS can: one sheet, [Blank], whose only row holds an empty string
    (and the unused slot of index 0). *)
Definition blankEnv : Worker.Env :=
  {| Worker.hasXLSX := true; Worker.hasExcelJS := true;
     Worker.fileExists := true; Worker.isFile := true;
     Worker.extensionAllowed := true; Worker.fileSizeText := "0.01";
     Worker.xlsxReadFile := Err "Unsupported file";
     Worker.exceljsReadFile :=
       Ok {| Worker.worksheets :=
               [ {| Worker.wsName := "Blank"; Worker.rowCount := Some 1;
                    Worker.columnCount := Some 1;
                    Worker.rowValues := [ [JUndefined; JStr EmptyString] ] |} ] |} |}.

End IpcSpec.

(** ** The vocabulary of the CSV and reader properties *)

Module ReaderSpec.
Import Js Csv Reader.

(** The text a cell is written as: [String(cell || '')]. *)
Definition cellText (cell : JsVal) : string := String_ (or cell (JStr EmptyString)).

(** The quoting rule on the text of a cell. *)
Definition escapeText (s : string) : string :=
  if includes comma s || includes dquote s || includes newline s
  then String dquote (doubleQuotes s +:+ String dquote EmptyString)
  else s.









End ReaderSpec.

(** ** The vocabulary of the limits of the writer *)

Module WriterLimits.
Import Js Writer.

(** The size the loop of [writeCSVWithSplitting] counts for a serialized
    row: its bytes and one line feed. *)
Definition rowBytes (csvRow : string) : Z := byteLength (csvRow +:+ lf).

(** The size it has counted for a chunk of rows. *)
Definition chunkBytes (chunk : list string) : Z := sumZ (map rowBytes chunk).

(** The limit in bytes it derives from the limit in megabytes. *)
Definition sizeLimit (maxFileSize : option Z) : option Z :=
  match maxFileSize with
  | Some m => if truthyNum m then Some (m * 1024 * 1024) else None
  | None => None
  end.

(** A chunk of rows that keeps both limits: no more rows than a positive
    row limit allows, and no more counted bytes than the size limit, unless
    it is a single row. *)
Definition withinLimits (maxRows maxSizeBytes : option Z) (chunk : list string)
    : Prop :=
  (forall R, maxRows = Some R -> 0 < R -> len chunk <= R)
  /\ (forall B, maxSizeBytes = Some B -> B <> 0 ->
        len chunk = 1 \/ chunkBytes chunk <= B).

End WriterLimits.

(** ** The vocabulary of the line parser and of the pages *)

Module PageSpec.
Import Js Csv Reader.

(** The number of commas of a line. *)
Fixpoint commaCount (line : string) : nat :=
  match line with
  | EmptyString => 0
  | String c rest => (if Ascii.eqb c comma then 1 else 0) + commaCount rest
  end.

(** The rows of the data lines of a CSV file, the first line being the
    header: data line number [i], counted from 0, gives the row numbered
    [i + 1]. *)
Definition dataRows (cols : list Column) (lines : list string) : list PageRow :=
  imap (fun i line =>
          {| rowNumber := Z.of_nat i + 1;
             data := csvRowData cols (parseCsvLine line) |})
       (tail lines).

(** The window of a list that starts at [startRow] and holds at most
    [pageSize] entries. *)
Definition window {A} (startRow pageSize : Z) (l : list A) : list A :=
  take (Z.to_nat pageSize) (drop (Z.to_nat startRow) l).

(** What holds of the scan of [readCsvPage] once the lines [seen] were
    delivered. *)
Record WindowInv (cols : list Column) (startRow pageSize : Z)
    (seen : list string) (st : CsvScan) : Prop := MkWindowInv {
  window_rows : scanRows st = window startRow pageSize (dataRows cols seen);
  window_current : currentRow st = Reader.len seen - 1;
  window_found : foundRows st = Reader.len (scanRows st)
}.

End PageSpec.

(** ** The vocabulary of the job properties *)

Module JobSpec.
Import Worker.

(** The messages that end a job: [success] and [error]. *)
Definition isTerminal (msg : Message) : bool :=
  match msg with
  | MSuccess _ _ | MError _ => true
  | _ => false
  end.

Fixpoint terminalCount (log : list Message) : nat :=
  match log with
  | [] => 0
  | msg :: rest => (if isTerminal msg then 1 else 0) + terminalCount rest
  end.

Definition isOk {A} (r : Result A) : bool :=
  match r with Ok _ => true | Err _ => false end.

(** One of the two libraries is loaded and reads the file. *)
Definition readable (env : Env) : bool :=
  (hasXLSX env && isOk (xlsxReadFile env))
  || (hasExcelJS env && isOk (exceljsReadFile env)).

(** Every declared sheet name has a materialized sheet. *)
Definition allMaterialized (workbook : XlsxWorkbook) : Prop :=
  Forall (fun sheetName => is_Some (Sheets workbook !! sheetName))
         (SheetNames workbook).

End JobSpec.

(** ** The vocabulary of the request totals *)

Module RequestSpec.
Import Js Writer Ipc.

(** The rows a worksheet adds to the total of the request. *)
Definition rowsOf (convertWorksheet : string -> Result ConversionResult)
    (sheetName : string) : Z :=
  match convertWorksheet sheetName with
  | Ok result => totalRows result
  | Err _ => 0
  end.

(** A conversion that knows one worksheet. *)
Definition onlySales (sheetName : string) : Result ConversionResult :=
  if bool_decide (sheetName = "Sales")
  then Ok {| totalRows := 3;
             files := [ {| path := MkPath "out" "Book_Sales" ".csv"; rows := 3 |} ] |}
  else Err "not found".

End RequestSpec.

(** ** The worker manager ([lib/excelWorker.js])

    [ExcelWorkerManager] keeps the running workers in a [Map] from worker
    id to worker and hands out the ids from a counter.  The [Map] is a list
    of entries in insertion order, the order in which [cancelAllWorkers]
    walks it.  What the manager does to the outside is recorded in the
    state: the events it emits, the workers it terminates and the promises
    of [processExcelFile] it settles (a promise keeps its first
    settlement).  [Job] is the [workerData] a worker is started with and
    [Data] the payload of a worker message. *)

Module Manager.

Section Types.
Variables Job Data : Type.

(** A message of a worker, by its [type]. *)
Inductive WorkerMessage : Type :=
| MsgProgress (data : Data)
| MsgWorksheets (data : Data)
| MsgSuccess (data : Data)
| MsgError (error : string)
| MsgOther (type : string).

(** The events of the manager, an [EventEmitter]. *)
Inductive Event : Type :=
| EvProgress (workerId : Z) (data : Data)
| EvWorksheets (workerId : Z) (data : Data)
| EvCancelled (workerId : Z).

(** How the promise of a job was settled. *)
Inductive Outcome : Type :=
| Resolved (workerId : Z) (data : Data)
| Rejected (error : string).

Record ExcelWorkerManager : Type := MkManager {
  workers : list (Z * Job);
  currentWorkerId : Z;
  emitted : list Event;
  terminated : list Z;
  promises : gmap Z Outcome
}.

(** What happens to a manager: a job is submitted, a worker posts a
    message, fails, or exits, or a caller cancels. *)
Inductive Input : Type :=
| Start (job : Job)
| Posted (workerId : Z) (message : WorkerMessage)
| Crashed (workerId : Z) (error : string)
| Exited (workerId : Z) (code : Z)
| Cancel (workerId : Z)
| CancelAll
| Shutdown.

End Types.

Arguments MsgProgress {Data} data.
Arguments MsgWorksheets {Data} data.
Arguments MsgSuccess {Data} data.
Arguments MsgError {Data} error.
Arguments MsgOther {Data} type.
Arguments EvProgress {Data} workerId data.
Arguments EvWorksheets {Data} workerId data.
Arguments EvCancelled {Data} workerId.
Arguments Resolved {Data} workerId data.
Arguments Rejected {Data} error.
Arguments MkManager {Job Data} workers currentWorkerId emitted terminated promises.
Arguments workers {Job Data} e.
Arguments currentWorkerId {Job Data} e.
Arguments emitted {Job Data} e.
Arguments terminated {Job Data} e.
Arguments promises {Job Data} e.
Arguments Start {Job Data} job.
Arguments Posted {Job Data} workerId message.
Arguments Crashed {Job Data} workerId error.
Arguments Exited {Job Data} workerId code.
Arguments Cancel {Job Data} workerId.
Arguments CancelAll {Job Data}.
Arguments Shutdown {Job Data}.

(** [Map.prototype.get], [set], [delete] and [keys] on the entries. *)
Fixpoint get {Job} (workerId : Z) (entries : list (Z * Job)) : option Job :=
  match entries with
  | [] => None
  | (key, worker) :: rest =>
      if key =? workerId then Some worker else get workerId rest
  end.

Definition set {Job} (workerId : Z) (worker : Job) (entries : list (Z * Job))
    : list (Z * Job) :=
  match get workerId entries with
  | Some _ =>
      map (fun entry => if entry.1 =? workerId then (workerId, worker) else entry)
          entries
  | None => entries ++ [(workerId, worker)]
  end.

Definition delete {Job} (workerId : Z) (entries : list (Z * Job)) : list (Z * Job) :=
  filter (fun entry => entry.1 <> workerId) entries.

Definition keys {Job} (entries : list (Z * Job)) : list Z := map fst entries.

Section Methods.
Context {Job Data : Type}.

(** The [constructor]. *)
Definition newManager : ExcelWorkerManager Job Data :=
  MkManager [] 0 [] [] ∅.

Definition emit (event : Event Data) (m : ExcelWorkerManager Job Data) : ExcelWorkerManager Job Data :=
  MkManager (workers m) (currentWorkerId m) (emitted m ++ [event])
            (terminated m) (promises m).

(** [worker.terminate()]. *)
Definition terminate (workerId : Z) (m : ExcelWorkerManager Job Data) : ExcelWorkerManager Job Data :=
  MkManager (workers m) (currentWorkerId m) (emitted m)
            (terminated m ++ [workerId]) (promises m).

(** [resolve] and [reject] of the promise of job [workerId]: only the first
    call settles it. *)
Definition settle (workerId : Z) (outcome : Outcome Data) (m : ExcelWorkerManager Job Data) : ExcelWorkerManager Job Data :=
  MkManager (workers m) (currentWorkerId m) (emitted m) (terminated m)
            (match promises m !! workerId with
             | Some _ => promises m
             | None => <[workerId := outcome]> (promises m)
             end).

Definition cleanup (workerId : Z) (m : ExcelWorkerManager Job Data) : ExcelWorkerManager Job Data :=
  match get workerId (workers m) with
  | Some _ =>
      MkManager (delete workerId (workers m)) (currentWorkerId m) (emitted m)
                (terminated m) (promises m)
  | None => m
  end.

(** [processExcelFile] up to the start of the worker: the id it takes and
    the manager with the worker stored. *)
Definition processExcelFile (job : Job) (m : ExcelWorkerManager Job Data) : Z * ExcelWorkerManager Job Data :=
  let workerId := currentWorkerId m + 1 in
  (workerId,
   MkManager (set workerId job (workers m)) workerId (emitted m)
             (terminated m) (promises m)).

(** The [message] handler of the worker of job [workerId]; [msgWorkerId]
    is the id the message carries. *)
Definition onMessage (workerId msgWorkerId : Z) (message : WorkerMessage Data)
    (m : ExcelWorkerManager Job Data) : ExcelWorkerManager Job Data :=
  match message with
  | MsgProgress data => emit (EvProgress msgWorkerId data) m
  | MsgWorksheets data => emit (EvWorksheets msgWorkerId data) m
  | MsgSuccess data => settle workerId (Resolved msgWorkerId data) (cleanup workerId m)
  | MsgError error => settle workerId (Rejected error) (cleanup workerId m)
  | MsgOther _ => m
  end.

(** The [error] handler. *)
Definition onError (workerId : Z) (error : string) (m : ExcelWorkerManager Job Data) : ExcelWorkerManager Job Data :=
  settle workerId (Rejected error) (cleanup workerId m).

(** The [exit] handler. *)
Definition onExit (workerId : Z) (code : Z) (m : ExcelWorkerManager Job Data) : ExcelWorkerManager Job Data :=
  if code =? 0 then m
  else settle workerId (Rejected ("Worker exited with code " +:+ pretty code))
              (cleanup workerId m).

Definition cancelWorker (workerId : Z) (m : ExcelWorkerManager Job Data) : ExcelWorkerManager Job Data :=
  match get workerId (workers m) with
  | Some _ => emit (EvCancelled workerId) (cleanup workerId (terminate workerId m))
  | None => m
  end.

(** The loop over the entries of the [Map]: cancelling a worker deletes
    its own entry only, so the loop visits every entry present at its
    start. *)
Definition cancelAllWorkers (m : ExcelWorkerManager Job Data) : ExcelWorkerManager Job Data :=
  foldl (fun m workerId => cancelWorker workerId m) m (keys (workers m)).

Definition getWorkersStatus (m : ExcelWorkerManager Job Data) : list (Z * string) :=
  map (fun workerId => (workerId, "running")) (keys (workers m)).

Definition shutdown (m : ExcelWorkerManager Job Data) : ExcelWorkerManager Job Data := cancelAllWorkers m.

(** A worker with this id was created: only such a worker has handlers
    that can run.  A worker posts its messages under its own id
    ([workerData.workerId]). *)
Definition created (workerId : Z) (m : ExcelWorkerManager Job Data) : bool :=
  (1 <=? workerId) && (workerId <=? currentWorkerId m).

Definition step (m : ExcelWorkerManager Job Data) (input : Input Job Data) : ExcelWorkerManager Job Data :=
  match input with
  | Start job => (processExcelFile job m).2
  | Posted workerId message =>
      if created workerId m then onMessage workerId workerId message m else m
  | Crashed workerId error =>
      if created workerId m then onError workerId error m else m
  | Exited workerId code =>
      if created workerId m then onExit workerId code m else m
  | Cancel workerId => cancelWorker workerId m
  | CancelAll => cancelAllWorkers m
  | Shutdown => shutdown m
  end.

(** The manager after a history, from its construction. *)
Definition run (inputs : list (Input Job Data)) : ExcelWorkerManager Job Data :=
  foldl step newManager inputs.

End Methods.

End Manager.

(** ** The vocabulary of the manager's histories *)

Module ManagerSpec.
Import Manager.

(** The ids of the [cancelled] events. *)
Definition cancelledIds {Data} (events : list (Event Data)) : list Z :=
  omap (fun event =>
          match event with
          | EvCancelled workerId => Some workerId
          | _ => None
          end) events.

(** The number of jobs submitted in a history. *)
Fixpoint submitted {Job Data} (inputs : list (Input Job Data)) : Z :=
  match inputs with
  | [] => 0
  | Start _ :: rest => 1 + submitted rest
  | _ :: rest => submitted rest
  end.

Record ManagerInv {Job Data} (m : ExcelWorkerManager Job Data) : Prop := MkManagerInv {
  inv_distinct : NoDup (keys (workers m));
  inv_keys : Forall (fun key => 1 <= key <= currentWorkerId m) (keys (workers m));
  inv_counter : 0 <= currentWorkerId m;
  inv_terminated : terminated m = cancelledIds (emitted m);
  inv_cancelled_once : NoDup (cancelledIds (emitted m));
  inv_cancelled :
    Forall (fun key => 1 <= key <= currentWorkerId m /\ key ∉ keys (workers m))
           (cancelledIds (emitted m));
  inv_settled :
    forall key outcome, promises m !! key = Some outcome ->
      1 <= key <= currentWorkerId m /\ key ∉ keys (workers m)
}.

(** A short history: three jobs, one of them cancelled, one finished. *)
Definition threeJobs : list (Input string Z) :=
  [Start "a.xlsx"; Start "b.xlsx"; Posted 1 (MsgProgress 40); Cancel 2;
   Start "c.xlsx"; Posted 1 (MsgSuccess 7)].

End ManagerSpec.

(** ** [String.prototype.trim]

    The white space and line terminators of ECMAScript in their UTF-8
    encoding: the one-byte characters U+0009..U+000D and U+0020, the
    two-byte U+00A0, and the three-byte U+1680, U+2000..U+200A, U+2028,
    U+2029, U+202F, U+205F, U+3000 and U+FEFF.  None of these sequences
    begins inside another character of a well-formed text. *)

Module JsText.

Definition isWs1 (a : ascii) : bool :=
  let n := nat_of_ascii a in
  ((9 <=? n) && (n <=? 13) || (n =? 32))%nat.

Definition isWs2 (a b : ascii) : bool :=
  ((nat_of_ascii a =? 194) && (nat_of_ascii b =? 160))%nat.

Definition isWs3 (a b c : ascii) : bool :=
  let x := nat_of_ascii a in
  let y := nat_of_ascii b in
  let z := nat_of_ascii c in
  ((x =? 225) && (y =? 154) && (z =? 128)
   || (x =? 226) && (y =? 128)
      && ((128 <=? z) && (z <=? 138) || (z =? 168) || (z =? 169) || (z =? 175))
   || (x =? 226) && (y =? 129) && (z =? 159)
   || (x =? 227) && (y =? 128) && (z =? 128)
   || (x =? 239) && (y =? 187) && (z =? 191))%nat.

(** [s.trimStart()]. *)
Fixpoint trimStart (s : string) : string :=
  match s with
  | EmptyString => s
  | String a rest =>
      if isWs1 a then trimStart rest
      else
        match rest with
        | EmptyString => s
        | String b rest2 =>
            if isWs2 a b then trimStart rest2
            else
              match rest2 with
              | EmptyString => s
              | String c rest3 => if isWs3 a b c then trimStart rest3 else s
              end
        end
  end.

(** The text is white space throughout. *)
Fixpoint blank (s : string) : bool :=
  match s with
  | EmptyString => true
  | String a rest =>
      if isWs1 a then blank rest
      else
        match rest with
        | EmptyString => false
        | String b rest2 =>
            if isWs2 a b then blank rest2
            else
              match rest2 with
              | EmptyString => false
              | String c rest3 => isWs3 a b c && blank rest3
              end
        end
  end.

(** [s.trimEnd()]: the text up to its longest ending of white space. *)
Fixpoint trimEnd (s : string) : string :=
  match s with
  | EmptyString => EmptyString
  | String a rest => if blank s then EmptyString else String a (trimEnd rest)
  end.

(** [s.trim()]. *)
Definition trim (s : string) : string := trimEnd (trimStart s).

End JsText.

(** ** The sanitizer of worksheet names ([lib/security.js]) *)

Module Security.
Import Js JsText.

(** The characters of the class in the pattern of [sanitizeSheetName]:
    the angle brackets, the colon, the double quote, the two slashes, the
    bar, the question mark and the star. *)
Definition unsafeChars : list ascii :=
  ["<"; ">"; ":"; dquote; "/"; "\"; "|"; "?"; "*"]%char.

Definition isUnsafe (c : ascii) : bool := existsb (Ascii.eqb c) unsafeChars.

(** The global [replace] of that class by the empty text. *)
Fixpoint removeUnsafe (s : string) : string :=
  match s with
  | EmptyString => EmptyString
  | String a rest =>
      if isUnsafe a then removeUnsafe rest else String a (removeUnsafe rest)
  end.

(** [sanitizeSheetName(sheetName)]. *)
Definition sanitizeSheetName (sheetName : JsVal) : Result string :=
  if negb (truthy sheetName) || negb (isString sheetName)
  then Err "Invalid sheet name"
  else
    let sanitized := trim (removeUnsafe (String_ sheetName)) in
    if isEmptyString sanitized
    then Err "Sheet name cannot be empty after sanitization"
    else Ok sanitized.

(** The sanitizer as the conversion handler calls it, on a text. *)
Definition sanitizeText (sheetName : string) : Result string :=
  sanitizeSheetName (JStr sheetName).

End Security.

(** ** A workbook whose worksheet name the sanitizer changes *)

Module SanitizerSpec.
Import Js Worker.

Definition angleBook : XlsxWorkbook :=
  {| SheetNames := ["P<L"];
     Sheets := {[ "P<L" :=
       {| sheetRef := Some A1A1;
          sheetCells := ∅;
          sheetRows := [ [JStr "net"; JNum 12] ] |} ]} |}.

Definition angleEnv : Env :=
  {| hasXLSX := true; hasExcelJS := false; fileExists := true; isFile := true;
     extensionAllowed := true; fileSizeText := "0.01";
     xlsxReadFile := Ok angleBook; exceljsReadFile := Err "not loaded" |}.

End SanitizerSpec.

(** ** The converters of the first main process

    [convertSheetStreamingExcelJS] and the XLSX part of
    [convertSingleWorksheet], as they stand in the main-process script that
    precedes the worker.  A file written through a stream is the list of the
    texts written to it. *)

Module Legacy.
Import Js JsText Csv Writer.

(** The value of an ExcelJS cell: a plain value, a [Date] with the text
    [toISOString] gives for it, or another object with its [text] property
    and the text [String] gives for it. *)
Inductive CellValue : Type :=
| Plain (value : JsVal)
| DateValue (iso : string)
| ObjectValue (text : JsVal) (str : string).

(** The value pushed on [rowValues] for a cell. *)
Definition valueOf (cell : CellValue) : JsVal :=
  match cell with
  | Plain JNull | Plain JUndefined => JStr EmptyString
  | Plain value => JStr (String_ value)
  | DateValue iso => JStr iso
  | ObjectValue text str => or text (JStr str)
  end.

(** The test on a cell inside [hasContent]. *)
Definition cellHasContent (cell : JsVal) : bool :=
  let cellStr := trim (String_ (or cell (JStr EmptyString))) in
  negb (String.eqb cellStr EmptyString)
  && negb (String.eqb cellStr "null")
  && negb (String.eqb cellStr "undefined").

Definition hasContent (rowValues : list JsVal) : bool :=
  existsb cellHasContent rowValues.

(** [rowValues.map(escapeCSVCell).join(',')]. *)
Definition csvText (rowValues : list JsVal) : string :=
  join "," (map escapeCSVCell rowValues).

(** The variables of [convertSheetStreamingExcelJS] that the row callback
    updates; [streams] are the files created, each with the texts written
    to it, and [writeStream] is the path of the open one. *)
Record StreamState : Type := MkStream {
  nonEmptyRowCount : Z;
  fileIndex : Z;
  currentFileRows : Z;
  writeStream : option Path;
  filesCreated : list FileRecord;
  streams : list (Path * list string)
}.

Definition streamInit : StreamState :=
  {| nonEmptyRowCount := 0; fileIndex := 1; currentFileRows := 0;
     writeStream := None; filesCreated := []; streams := [] |}.

Section Streaming.

Variables (output finalBaseName sheetName : string) (maxRows : option Z).

(** [maxRows && currentFileRows >= maxRows]. *)
Definition fileIsFull (st : StreamState) : bool :=
  match maxRows with
  | Some limit => truthyNum limit && (limit <=? currentFileRows st)
  | None => false
  end.

(** The path of the file of a given index, [path.join(output, fileName)],
    in its three parts: the name carries [_part] and the index when
    [maxRows && fileIndex > 1]. *)
Definition filePath (index : Z) : Path :=
  if truthyOpt maxRows && (1 <? index)
  then {| dir := output;
          name := finalBaseName +:+ "_" +:+ sheetName +:+ "_part" +:+ pretty index;
          ext := ".csv" |}
  else {| dir := output; name := finalBaseName +:+ "_" +:+ sheetName; ext := ".csv" |}.

(** [getWriteStream()]. *)
Definition getWriteStream (st : StreamState) : StreamState :=
  if negb (bool_decide (is_Some (writeStream st))) || fileIsFull st
  then
    let index := match writeStream st with
                 | Some _ => fileIndex st + 1
                 | None => fileIndex st
                 end in
    let rowsInFile := match writeStream st with
                      | Some _ => 0
                      | None => currentFileRows st
                      end in
    {| nonEmptyRowCount := nonEmptyRowCount st;
       fileIndex := index;
       currentFileRows := rowsInFile;
       writeStream := Some (filePath index);
       filesCreated := filesCreated st ++ [ {| path := filePath index; rows := 0 |} ];
       streams := streams st ++ [ (filePath index, []) ] |}
  else st.

(** [stream.write(text)] on the open stream, the one created last. *)
Definition write (text : string) (files : list (Path * list string))
    : list (Path * list string) :=
  match reverse files with
  | [] => []
  | (p, texts) :: earlier => reverse earlier ++ [ (p, texts ++ [text]) ]
  end.

(** [filesCreated[filesCreated.length - 1].rows = n]. *)
Definition setLastRows (n : Z) (files : list FileRecord) : list FileRecord :=
  match reverse files with
  | [] => []
  | f :: earlier => reverse earlier ++ [ {| path := path f; rows := n |} ]
  end.

(** The callback of [eachRow]. *)
Definition rowStep (st : StreamState) (cells : list CellValue) : StreamState :=
  let rowValues := map valueOf cells in
  if negb (hasContent rowValues) then st
  else
    let counted :=
      {| nonEmptyRowCount := nonEmptyRowCount st + 1;
         fileIndex := fileIndex st;
         currentFileRows := currentFileRows st + 1;
         writeStream := writeStream st;
         filesCreated := filesCreated st;
         streams := streams st |} in
    let csvRow := csvText rowValues +:+ lf in
    let opened := getWriteStream counted in
    {| nonEmptyRowCount := nonEmptyRowCount opened;
       fileIndex := fileIndex opened;
       currentFileRows := currentFileRows opened;
       writeStream := writeStream opened;
       filesCreated := setLastRows (currentFileRows opened) (filesCreated opened);
       streams := write csvRow (streams opened) |}.

(** The rows of the worksheet, streamed. *)
Definition streamRows (sheet : list (list CellValue)) : StreamState :=
  foldl rowStep streamInit sheet.

(** [convertSheetStreamingExcelJS]; [output] and [finalBaseName] are the
    output directory and the base name after their defaults, [readFile] is
    what ExcelJS makes of the input file: for each worksheet name the rows
    that [eachRow] visits, each with the values of its cells. *)
Definition convertSheetStreamingExcelJS (hasExcelJS : bool)
    (readFile : Result (gmap string (list (list CellValue))))
    : Result (ConversionResult * list (Path * list string)) :=
  if negb hasExcelJS then Err "ExcelJS not available"
  else
    match readFile with
    | Err e => Err e
    | Ok workbook =>
        match workbook !! sheetName with
        | None => Err ("Sheet " +:+ quoted sheetName +:+ " not found in workbook")
        | Some sheet =>
            let st := streamRows sheet in
            Ok ({| totalRows := nonEmptyRowCount st; files := filesCreated st |},
                streams st)
        end
    end.

End Streaming.

(** [Math.ceil(a / b)] on integers. *)
Definition ceilDiv (a b : Z) : Z := - ((- a) / b).

(** [rows.slice(startIdx, endIdx)] for indices that are not negative. *)
Definition slice {A} (startIdx endIdx : Z) (l : list A) : list A :=
  take (Z.to_nat endIdx - Z.to_nat startIdx) (drop (Z.to_nat startIdx) l).

Section Slicing.

Variables (output baseName sheetName : string).

(** One round of the [for] loop of [convertSingleWorksheet]. *)
Definition writePart (nonEmptyRows : list (list JsVal)) (limit : Z) (i : Z)
    : FileRecord * (Path * string) :=
  let startIdx := i * limit in
  let endIdx := Z.min ((i + 1) * limit) (len nonEmptyRows) in
  let chunk := slice startIdx endIdx nonEmptyRows in
  let outputFile :=
    {| dir := output;
       name := baseName +:+ "_" +:+ sheetName +:+ "_part" +:+ pretty (i + 1);
       ext := ".csv" |} in
  let csv := join lf (map csvText chunk) in
  ({| path := outputFile; rows := len chunk |}, (outputFile, csv)).

(** The writing part of [convertSingleWorksheet]. *)
Definition writeWorksheet (nonEmptyRows : list (list JsVal)) (maxRows : option Z)
    : ConversionResult * Disk :=
  let totalRows := len nonEmptyRows in
  let single :=
    match maxRows with
    | Some limit => negb (truthyNum limit) || (totalRows <=? limit)
    | None => true
    end in
  if single then
    let outputFile :=
      {| dir := output; name := baseName +:+ "_" +:+ sheetName; ext := ".csv" |} in
    let csv := join lf (map csvText nonEmptyRows) in
    ({| totalRows := totalRows;
        files := [ {| path := outputFile; rows := totalRows |} ] |},
     [ (outputFile, csv) ])
  else
    let limit := default 0 maxRows in
    let numFiles := ceilDiv totalRows limit in
    let parts := map (writePart nonEmptyRows limit) (seqZ 0 numFiles) in
    ({| totalRows := totalRows; files := map fst parts |}, map snd parts).

(** The conversion of [convertSingleWorksheet] through the XLSX library,
    for a worksheet that the library materializes. *)
Definition convertWithXLSX (workbook : Worker.XlsxWorkbook) (maxRows : option Z)
    : Result (ConversionResult * Disk) :=
  match Worker.Sheets workbook !! sheetName with
  | None => Err ("Worksheet " +:+ quoted sheetName +:+ " not found")
  | Some worksheet =>
      let data := Worker.sheetRows worksheet in
      let nonEmptyRows := filter (fun row => Is_true (hasContent row)) data in
      if len nonEmptyRows =? 0
      then Err ("Worksheet " +:+ quoted sheetName +:+ " is empty")
      else Ok (writeWorksheet nonEmptyRows maxRows)
  end.

End Slicing.

End Legacy.

(** ** The vocabulary of the first converters *)

Module LegacySpec.
Import Js Csv Writer Legacy.

(** The rows of a worksheet that the streaming converter writes, as the
    values of their cells, and the texts it writes for them. *)
Definition keptValues (sheet : list (list CellValue)) : list (list JsVal) :=
  filter (fun row => Is_true (hasContent row)) (map (map valueOf) sheet).

Definition linesOf (sheet : list (list CellValue)) : list string :=
  map (fun row => csvText row +:+ lf) (keptValues sheet).

(** The number of texts written to each file. *)
Definition textCounts (files : list (Path * list string)) : list Z :=
  map (fun file => len file.2) files.

(** The counts of a list, each but the first lowered by one. *)
Definition shortBy (counts : list Z) : list Z :=
  match counts with
  | [] => []
  | first :: later => first :: map (fun n => n - 1) later
  end.

(** What holds of the variables of the streaming converter once a row
    with content was seen; [lines] are the texts written so far. *)
Record Running (output finalBaseName sheetName : string) (R : Z)
    (lines : list string) (st : StreamState) : Prop := MkRunning {
  run_open : is_Some (writeStream st);
  run_count : nonEmptyRowCount st = len lines;
  run_concat : concat (map snd (streams st)) = lines;
  run_paths : map fst (streams st) = map path (filesCreated st);
  run_names :
    map path (filesCreated st)
    = map (filePath output finalBaseName sheetName (Some R)) (seqZ 1 (fileIndex st));
  run_index : fileIndex st = len (filesCreated st);
  run_recorded : rowCounts (filesCreated st) = shortBy (textCounts (streams st));
  run_current : last (rowCounts (filesCreated st)) = Some (currentFileRows st);
  run_bounds : Forall (fun n => 1 <= n <= R) (textCounts (streams st))
}.

(** A worksheet of seven rows, one of them blank. *)
Definition sevenRows : list (list CellValue) :=
  map (fun text => [Plain (JStr text)]) ["a"; "b"; "  "; "c"; "d"; "e"; "f"].

End LegacySpec.

(** ** The vocabulary of the sliced files *)

Module SliceSpec.
Import Js Writer Legacy LegacySpec.

(** The rows of round [i] of the loop of [convertSingleWorksheet]. *)
Definition chunkAt {A} (rows : list A) (limit : Z) (i : Z) : list A :=
  slice (i * limit) (Z.min ((i + 1) * limit) (len rows)) rows.

(** A workbook for the streaming converter. *)
Definition sevenBook : gmap string (list (list CellValue)) :=
  {[ "S" := sevenRows ]}.

(** Seven rows of one cell. *)
Definition sevenValues : list (list JsVal) :=
  map (fun text => [JStr text]) ["a"; "b"; "c"; "d"; "e"; "f"; "g"].

End SliceSpec.

(** ** The viewer ([viewer.js]) and its page handler

    The renderer asks the main process for one page at a time and computes
    what its navigation bar shows from the row count of the file
    information. *)

Module Viewer.
Import Js Reader.

Definition pageSize : Z := 100.






Definition prevDisabled (currentPageNum : Z) : bool := currentPageNum <=? 1.



End Viewer.

(** * Properties *)

Import WriterSpec WorkerSpec IpcSpec ReaderSpec.

(** ** The writer under a row limit *)

Section RowLimit.
Import Js Writer.

Lemma len_nil {A} : len (@nil A) = 0.
Proof. reflexivity. Qed.

Lemma len_snoc {A} (l : list A) (x : A) : len (l ++ [x]) = len l + 1.
Proof. unfold len. rewrite length_app. simpl. lia. Qed.

Lemma len_nonneg {A} (l : list A) : 0 <= len l.
Proof. unfold len. lia. Qed.

Lemma sumZ_snoc (l : list Z) (x : Z) : sumZ (l ++ [x]) = sumZ l + x.
Proof. unfold sumZ. induction l as [|y l IH]; simpl; lia. Qed.

Variable outputPath : Path.
Variable R : Z.
Hypothesis R_pos : 0 < R.




End RowLimit.

Section RowLimitResult.
Import Js Writer.



Lemma rowCounts_snoc (fs : list FileRecord) (f : FileRecord) :
  rowCounts (fs ++ [f]) = rowCounts fs ++ [rows f].
Proof. unfold rowCounts. apply map_app. Qed.



End RowLimitResult.

(** ** The names of the files of a split worksheet *)

Section ChunkNames.
Import Js Writer.

Variable outputPath : Path.
Variables maxRows maxSizeBytes : option Z.




End ChunkNames.


(** C4. Three rows under a row limit of two are split across two files; the
    first is named with the suffix [_part1], not with the bare name
    [Book_Sheet1], and the second with [_part2]. *)
Theorem writeCSVWithSplitting_first_part_suffix :
  let outputPath := Writer.MkPath "out" "Book_Sheet1" ".csv" in
  let row := [Js.JStr "a"; Js.JNum 1] in
  map (fun f => (Writer.path f, Writer.rows f))
      (Writer.files (Writer.writeCSVWithSplitting [row; row; row] outputPath (Some 2) None).1)
  = [ (Writer.MkPath "out" "Book_Sheet1_part1" ".csv", 2);
      (Writer.MkPath "out" "Book_Sheet1_part2" ".csv", 1) ].
Proof. vm_compute. reflexivity. Qed.

(** ** The progress messages of an analysis job *)

Section Progress.
Import Worker.

(** C6. An analysis job on a file that passes validation and that the XLSX
    library reads posts the progress values 0, 5, 10, 20, 30, 60, 80, 100
    and then 85: the message of [analyzeWorksheets] follows the 100 of
    [processWorksheets], so the values of the job do decrease. *)
Theorem analysis_progress_drops (env : Env) (workbook : XlsxWorkbook) :
  checkFile env = Ok tt ->
  hasXLSX env = true ->
  xlsxReadFile env = Ok workbook ->
  progressValues (analysisJob env) = [0; 5; 10; 20; 30; 60; 80; 100; 85]
  /\ nonDecreasing (progressValues (analysisJob env)) = false.
Proof.
  intros Hcheck Hxlsx Hread.
  assert (progressValues (analysisJob env) = [0; 5; 10; 20; 30; 60; 80; 100; 85]) as Heq.
  { unfold analysisJob, processGetWorksheets, validateFile, processWorksheets,
      analyzeWorksheets, tryCatch, bind, call, sendProgress, sendWorksheets,
      post, ret.
    simpl. rewrite Hcheck. simpl. rewrite Hxlsx. simpl. rewrite Hread. simpl.
    destruct (forEach (describeXlsx workbook) (SheetNames workbook)); reflexivity. }
  split; [exact Heq|]. rewrite Heq. reflexivity.
Qed.

Lemma analysis_progress_drops_witness :
  progressValues (analysisJob (oneSheetEnv 50)) = [0; 5; 10; 20; 30; 60; 80; 100; 85]
  /\ nonDecreasing (progressValues (analysisJob (oneSheetEnv 50))) = false.
Proof.
  apply (analysis_progress_drops (oneSheetEnv 50)
           {| SheetNames := ["Data"];
              Sheets := {[ "Data" :=
                {| sheetRef := Some {| s_r := 0; s_c := 0; e_r := 50 - 1; e_c := 2 |};
                   sheetCells := ∅; sheetRows := [] |} ]} |});
    reflexivity.
Defined.

End Progress.

(** ** The complexity class of a worksheet descriptor *)

Section ComplexityClass.
Import Worker.

Lemma analyzed_describe (info : WorksheetInfo) :
  analyzed info ->
  exists r, estimatedRows info = Some r /\ complexity info = Some (complexityOf r).
Proof.
  intros [workbook sheetName info' Hdesc | worksheet].
  - unfold describeXlsx in Hdesc.
    destruct (Sheets workbook !! sheetName) as [ws|]; [|discriminate].
    injection Hdesc as <-. eexists. split; reflexivity.
  - eexists. split; reflexivity.
Qed.

(** C8, as amended. Every descriptor built by [analyzeWorksheets] carries an
    estimated row count, and its complexity class is small exactly when that
    count is at most 1,000, medium exactly when it is above 1,000 and at
    most 10,000, and large exactly when it is above 10,000. *)
Theorem complexity_ladder (info : WorksheetInfo) :
  analyzed info ->
  exists r,
    estimatedRows info = Some r
    /\ (complexity info = Some small <-> r <= 1000)
    /\ (complexity info = Some medium <-> 1000 < r <= 10000)
    /\ (complexity info = Some large <-> 10000 < r).
Proof.
  intros Hinfo. destruct (analyzed_describe info Hinfo) as (r & Hr & Hc).
  exists r. split; [exact Hr|]. rewrite Hc. unfold complexityOf.
  destruct (10000 <? r) eqn:H1; destruct (1000 <? r) eqn:H2;
    (split; [|split]); split; intros ?; try discriminate; try reflexivity; lia.
Qed.

Lemma complexity_ladder_witness :
  exists r,
    estimatedRows (describeExcelJs (MkExcelJsSheet "Data" (Some 1000) (Some 3) [])) = Some r
    /\ (complexity (describeExcelJs (MkExcelJsSheet "Data" (Some 1000) (Some 3) []))
          = Some small <-> r <= 1000)
    /\ (complexity (describeExcelJs (MkExcelJsSheet "Data" (Some 1000) (Some 3) []))
          = Some medium <-> 1000 < r <= 10000)
    /\ (complexity (describeExcelJs (MkExcelJsSheet "Data" (Some 1000) (Some 3) []))
          = Some large <-> 10000 < r).
Proof.
  apply (complexity_ladder (describeExcelJs (MkExcelJsSheet "Data" (Some 1000) (Some 3) []))).
  apply analyzed_exceljs.
Defined.

(** C8 fails as worded: a sheet whose range spans exactly 1,000 rows is
    described, in the last [worksheets] message of its analysis job, with
    the class small, where the ladder of the design document gives medium
    (and one of exactly 10,000 rows with medium instead of large). *)
Lemma complexity_at_threshold :
  (exists info,
      lastWorksheets (analysisJob (oneSheetEnv 1000)) = Some [info]
      /\ estimatedRows info = Some 1000
      /\ complexity info = Some small
      /\ spec_complexity 1000 = medium)
  /\ complexityOf 10000 = medium /\ spec_complexity 10000 = large.
Proof.
  split; [|split; reflexivity].
  eexists. vm_compute. repeat split; reflexivity.
Qed.

End ComplexityClass.

(** ** Escaping a row and parsing it back *)

Section RoundTrip.
Import Js Csv.

Lemma append_cons (a : ascii) (s t : string) : String a s +:+ t = String a (s +:+ t).
Proof. reflexivity. Qed.

Lemma append_empty_l (s : string) : EmptyString +:+ s = s.
Proof. reflexivity. Qed.

Lemma append_empty_r (s : string) : s +:+ EmptyString = s.
Proof.
  induction s as [|a s IH]; [reflexivity|].
  rewrite append_cons, IH. reflexivity.
Qed.

Lemma append_assoc (s t u : string) : (s +:+ t) +:+ u = s +:+ (t +:+ u).
Proof.
  induction s as [|a s IH]; [reflexivity|].
  rewrite !append_cons, IH. reflexivity.
Qed.


Lemma escapeCSVCell_text (cell : JsVal) : escapeCSVCell cell = escapeText (cellText cell).
Proof. reflexivity. Qed.






End RoundTrip.

Section RoundTripClaim.
Import Js Csv.




End RoundTripClaim.

(** ** The pages of the streaming reader *)

Section CsvPages.
Import Js Csv Reader.

Variable cols : list Column.
Variables startRow pageSize : Z.

Lemma seqZ_one (m : Z) : seqZ m 1 = [m].
Proof. unfold seqZ. simpl. f_equal. Qed.




End CsvPages.

Section Pages.
Import Js Csv Reader.




(** A session whose sheet [setExcelSheet] selected through the XLSX library
    is initialized. *)
Lemma setExcelSheetXLSX_initialized (file : FileView) (path sheetName : string)
    (r0 r : StreamingFileReader) :
  currentFile r0 = Some path ->
  fileType r0 = Some excel ->
  setExcelSheetXLSX (viewWorkbook file) sheetName r0 = Ok r ->
  Initialized file r.
Proof.
  intros Hfile Htype. unfold setExcelSheetXLSX.
  destruct (viewWorkbook file) as [wb|e] eqn:Hwb; [|discriminate].
  destruct (Worker.Sheets wb !! sheetName) as [ws|] eqn:Hlook; [|discriminate].
  intros Heq. injection Heq as <-.
  eapply (Initialized_sheet file _ path sheetName wb ws); simpl;
    first [assumption | reflexivity].
Qed.


End Pages.

Section PageClaims.
Import Js Csv Reader.







End PageClaims.

(** ** What the writer puts on disk *)

Section WrittenRows.
Import Js Writer.

Lemma join_cons2 (sep p : string) (q : string) (rest : list string) :
  join sep (p :: q :: rest) = p +:+ sep +:+ join sep (q :: rest).
Proof. reflexivity. Qed.

Lemma join_app (sep : string) (l1 l2 : list string) :
  l1 <> [] -> l2 <> [] ->
  join sep (l1 ++ l2) = join sep l1 +:+ sep +:+ join sep l2.
Proof.
  intros H1 H2. induction l1 as [|p l1 IH]; [congruence|].
  destruct l1 as [|q l1].
  - destruct l2 as [|q l2]; [congruence|]. reflexivity.
  - change ((p :: q :: l1) ++ l2) with (p :: q :: (l1 ++ l2)).
    rewrite !join_cons2.
    change (q :: l1 ++ l2) with ((q :: l1) ++ l2).
    rewrite IH by discriminate. rewrite !append_assoc. reflexivity.
Qed.

(** Joining chunks that were joined one by one is joining all their rows. *)
Lemma join_concat (sep : string) (chunks : list (list string)) :
  Forall (fun chunk => chunk <> []) chunks ->
  join sep (map (join sep) chunks) = join sep (concat chunks).
Proof.
  induction 1 as [|chunk chunks Hne Hall IH]; [reflexivity|].
  destruct chunks as [|chunk' chunks].
  - simpl. rewrite app_nil_r. reflexivity.
  - change (map (join sep) (chunk :: chunk' :: chunks))
      with (join sep chunk :: join sep chunk' :: map (join sep) chunks).
    rewrite join_cons2.
    change (join sep chunk' :: map (join sep) chunks)
      with (map (join sep) (chunk' :: chunks)).
    rewrite IH.
    change (concat (chunk :: chunk' :: chunks))
      with (chunk ++ concat (chunk' :: chunks)).
    rewrite join_app; [reflexivity | exact Hne |].
    inversion Hall as [|? ? Hne' _]; subst.
    destruct chunk'; [congruence | discriminate].
Qed.

Lemma sumZ_lens (chunks : list (list string)) :
  sumZ (map len chunks) = len (concat chunks).
Proof.
  unfold sumZ, len. induction chunks as [|chunk chunks IH]; [reflexivity|].
  simpl. rewrite length_app. lia.
Qed.

Lemma Chunked_snoc (fs : list FileRecord) (disk : Disk)
    (chunks : list (list string)) (p : Path) (chunk : list string) :
  Chunked fs disk chunks -> chunk <> [] ->
  Chunked (fs ++ [ {| path := p; rows := len chunk |} ])
          (disk ++ [ (p, join lf chunk) ]) (chunks ++ [chunk]).
Proof.
  intros [Hc Ht Hp Hn] Hne. split.
  - rewrite rowCounts_snoc, Hc, map_app. reflexivity.
  - rewrite !map_app, Ht. reflexivity.
  - rewrite !map_app, Hp. reflexivity.
  - apply Forall_app. split; [exact Hn|]. constructor; [exact Hne | constructor].
Qed.

Variable outputPath : Path.
Variables maxRows maxSizeBytes : option Z.

Lemma len_zero_nil {A} (l : list A) : (0 <? len l) = false -> l = [].
Proof.
  destruct l; [reflexivity|]. intros H. apply Z.ltb_ge in H.
  unfold len in H. simpl in H. lia.
Qed.

Lemma len_pos_nonnil {A} (l : list A) : (0 <? len l) = true -> l <> [].
Proof. destruct l; [|discriminate]. intros H. discriminate H. Qed.

Lemma splitLoop_chunked (rws : list (list JsVal)) :
  let st := splitLoop rws outputPath maxRows maxSizeBytes in
  exists chunks,
    Chunked (st_files st) (st_disk st) chunks
    /\ concat chunks ++ st_currentRows st = map csvRow rws.
Proof.
  unfold splitLoop. induction rws as [|row rws IH] using rev_ind.
  - exists []. split; [split; try reflexivity; constructor | reflexivity].
  - rewrite foldl_app. simpl.
    destruct IH as (chunks & Hch & Hrows).
    set (st := foldl (splitStep outputPath maxRows maxSizeBytes) splitInit rws) in *.
    unfold splitStep.
    match goal with |- context [if ?c then _ else _] => destruct c eqn:Hflush end.
    + apply andb_true_iff in Hflush as [Hpos _].
      exists (chunks ++ [st_currentRows st]). simpl. split.
      * apply Chunked_snoc; [exact Hch | apply len_pos_nonnil, Hpos].
      * rewrite map_app, <- Hrows, concat_app. simpl.
        rewrite app_nil_r, <- app_assoc. reflexivity.
    + exists chunks. simpl. split; [exact Hch|].
      rewrite map_app, <- Hrows, <- app_assoc. reflexivity.
Qed.

End WrittenRows.

Lemma writeCSVWithSplitting_written (rws : list (list Js.JsVal))
    (outputPath : Writer.Path) (maxRows maxFileSize : option Z) :
  Written (Writer.writeCSVWithSplitting rws outputPath maxRows maxFileSize) rws.
Proof.
  unfold Written, Writer.writeCSVWithSplitting.
  match goal with |- context [Writer.splitLoop rws outputPath maxRows ?b] =>
    destruct (splitLoop_chunked outputPath maxRows b rws) as (chunks & Hch & Hrows);
    set (st := Writer.splitLoop rws outputPath maxRows b) in * end.
  simpl in Hch, Hrows.
  assert (Writer.len (map Writer.csvRow rws) = Writer.len rws) as Hlen
    by (unfold Writer.len; rewrite length_map; reflexivity).
  destruct (0 <? Writer.len (Writer.st_currentRows st)) eqn:Hpos; simpl.
  - pose proof (Chunked_snoc _ _ _
        (if Writer.st_fileIndex st =? 1 then outputPath
         else Writer.getChunkFilePath outputPath (Writer.st_fileIndex st))
        _ Hch (len_pos_nonnil _ Hpos)) as [Hc Ht Hp Hn].
    assert (concat (chunks ++ [Writer.st_currentRows st]) = map Writer.csvRow rws) as Hall
      by (rewrite concat_app; simpl; rewrite app_nil_r; exact Hrows).
    repeat split.
    + rewrite Hc, sumZ_lens, Hall. exact Hlen.
    + exact Hp.
    + rewrite Ht, join_concat by exact Hn. rewrite Hall. reflexivity.
  - apply len_zero_nil in Hpos. rewrite Hpos, app_nil_r in Hrows.
    destruct Hch as [Hc Ht Hp Hn]. repeat split.
    + rewrite Hc, sumZ_lens, Hrows. exact Hlen.
    + exact Hp.
    + rewrite Ht, join_concat by exact Hn. rewrite Hrows. reflexivity.
Qed.

Lemma writeCSVSingle_written (rws : list (list Js.JsVal)) (outputPath : Writer.Path) :
  Written (Writer.writeCSVSingle rws outputPath) rws.
Proof. unfold Written, Writer.writeCSVSingle, Writer.sumZ. simpl. repeat split. lia. Qed.

Lemma writeRows_written (rws : list (list Js.JsVal)) (outputPath : Writer.Path)
    (maxRows maxFileSize : option Z) :
  Written (Worker.writeRows rws outputPath maxRows maxFileSize) rws.
Proof.
  unfold Worker.writeRows.
  destruct (Js.truthyOpt maxRows || Js.truthyOpt maxFileSize).
  - apply writeCSVWithSplitting_written.
  - apply writeCSVSingle_written.
Qed.

(** ** Empty rows and empty worksheets *)

Section EmptyRows.
Import Js Writer Worker.








End EmptyRows.

(** ** The result of a conversion request *)

Section ConversionRequest.
Import Js Writer Ipc.

Variable convertWorksheet : string -> Result ConversionResult.

(** Every worksheet is processed, whatever happened to those before it: the
    errors are the entries of the worksheets that failed and the files those
    of the worksheets that were converted, both in the order of the request. *)
Lemma convertAll_collects (sheets : list string) :
  errors (convertAll convertWorksheet sheets) = omap (errorOf convertWorksheet) sheets
  /\ allFilesCreated (convertAll convertWorksheet sheets) = concat (map (filesOf convertWorksheet) sheets).
Proof.
  unfold convertAll. induction sheets as [|sheet sheets IH] using rev_ind.
  - split; reflexivity.
  - rewrite foldl_app. simpl. destruct IH as [IHe IHf].
    unfold convertOne, errorOf, filesOf in *.
    rewrite omap_app, map_app, concat_app. simpl.
    destruct (convertWorksheet sheet) as [result|message]; simpl;
      rewrite ?IHe, ?IHf, ?app_nil_r; split; reflexivity.
Qed.

Lemma respond_failure (acc : Acc) :
  isSuccess (respond acc) = false <-> errors acc <> [] /\ allFilesCreated acc = [].
Proof.
  unfold respond.
  destruct (errors acc) as [|e es]; destruct (allFilesCreated acc) as [|f fs];
    simpl; split; try discriminate; try (intros [H1 H2]; congruence).
  intros _. split; [discriminate | reflexivity].
Qed.

Lemma failed_no_files (sheets : list string) :
  Forall (failed convertWorksheet) sheets -> concat (map (filesOf convertWorksheet) sheets) = [].
Proof.
  induction 1 as [|sheet sheets [message Hm] _ IH]; [reflexivity|].
  simpl. unfold filesOf at 1. rewrite Hm. exact IH.
Qed.

Lemma no_files_failed (sheets : list string) :
  (forall sheet result,
      sheet ∈ sheets -> convertWorksheet sheet = Ok result -> files result <> []) ->
  concat (map (filesOf convertWorksheet) sheets) = [] -> Forall (failed convertWorksheet) sheets.
Proof.
  induction sheets as [|sheet sheets IH]; intros Hfiles Hcat; [constructor|].
  simpl in Hcat. apply app_eq_nil in Hcat as [Hhead Htail].
  constructor.
  - unfold failed. unfold filesOf in Hhead.
    destruct (convertWorksheet sheet) as [result|message] eqn:Hconv; [|eexists; reflexivity].
    exfalso. apply (Hfiles sheet result); [left | exact Hconv | exact Hhead].
  - apply IH; [|exact Htail].
    intros s r Hs. apply Hfiles. right. exact Hs.
Qed.

Lemma failed_some_error (sheets : list string) :
  sheets <> [] -> Forall (failed convertWorksheet) sheets -> omap (errorOf convertWorksheet) sheets <> [].
Proof.
  intros Hne Hall. destruct Hall as [|sheet sheets [message Hm] _]; [congruence|].
  simpl. unfold errorOf at 1. rewrite Hm. discriminate.
Qed.

(** When every converted worksheet yields at least one file, the request is
    reported as failed exactly when some worksheet was requested and every
    worksheet failed. *)
Lemma respond_failure_iff (sheets : list string) :
  (forall sheet result,
      sheet ∈ sheets -> convertWorksheet sheet = Ok result -> files result <> []) ->
  isSuccess (respond (convertAll convertWorksheet sheets)) = false
  <-> sheets <> [] /\ Forall (failed convertWorksheet) sheets.
Proof.
  intros Hfiles. rewrite respond_failure.
  destruct (convertAll_collects sheets) as [-> ->].
  split.
  - intros [Herr Hcat]. split.
    + intros ->. apply Herr. reflexivity.
    + apply no_files_failed; assumption.
  - intros [Hne Hall]. split.
    + apply failed_some_error; assumption.
    + apply failed_no_files, Hall.
Qed.

End ConversionRequest.

Section ConversionRequestBug.
Import Js Writer Ipc.

(** C2. A request for the worksheets [Blank] and [Missing] with a row limit
    of 1000: the conversion of [Blank] succeeds, with no row and no file
    (its rows are all empty and [convertWithExcelJS] passes none to
    [writeCSVWithSplitting]); the conversion of [Missing] fails; and the
    handler answers [success: false], saying that all worksheets failed to
    convert, although one of the two did not fail. *)
Theorem convertFile_fails_after_a_success :
  let convert := convertWorksheetToCSV (fun _ => blankEnv) "out" "Book" (Some 1000) None in
  convert "Blank" = Ok {| totalRows := 0; files := [] |}
  /\ convert "Missing"
     = Err ("Failed to convert Missing: Worksheet " +:+ quoted "Missing" +:+ " not found")
  /\ convertFile (Ok tt) Ok convert (Some [ByName "Blank"; ByName "Missing"])
     = Failure ("All worksheets failed to convert:\nMissing: Failed to convert Missing: Worksheet "
                +:+ quoted "Missing" +:+ " not found").
Proof. vm_compute. repeat split; reflexivity. Qed.

End ConversionRequestBug.

(** * Further properties *)

(** ** The writer under both limits *)

Section WriterLimitsProofs.
Import Js Writer WriterLimits.

Lemma string_length_append (s t : string) :
  String.length (s +:+ t) = (String.length s + String.length t)%nat.
Proof.
  induction s as [|a s IH]; [reflexivity|].
  rewrite append_cons. simpl. rewrite IH. reflexivity.
Qed.

Lemma chunkBytes_snoc (chunk : list string) (row : string) :
  chunkBytes (chunk ++ [row]) = chunkBytes chunk + rowBytes row.
Proof.
  unfold chunkBytes. rewrite map_app.
  change (map rowBytes [row]) with [rowBytes row]. apply sumZ_snoc.
Qed.

(** The text written for a chunk is one byte shorter than the size counted
    for it: the last row is written without line feed. *)
Lemma byteLength_join (chunk : list string) :
  chunk <> [] -> byteLength (join lf chunk) + 1 = chunkBytes chunk.
Proof.
  induction chunk as [|row chunk IH]; [congruence|]. intros _.
  destruct chunk as [|row' chunk].
  - unfold chunkBytes, rowBytes, byteLength, sumZ. simpl.
    rewrite string_length_append. simpl. lia.
  - rewrite join_cons2.
    change (chunkBytes (row :: row' :: chunk))
      with (rowBytes row + chunkBytes (row' :: chunk)).
    rewrite <- IH by discriminate.
    unfold rowBytes, byteLength. rewrite !string_length_append. simpl. lia.
Qed.

Variable outputPath : Path.
Variables maxRows maxSizeBytes : option Z.

Lemma withinLimits_one (row : string) :
  withinLimits maxRows maxSizeBytes [row].
Proof.
  split.
  - intros R _ HR. unfold len. simpl. lia.
  - intros B _ _. left. reflexivity.
Qed.

Lemma splitLoop_limits (rws : list (list JsVal)) :
  let st := splitLoop rws outputPath maxRows maxSizeBytes in
  exists chunks,
    Chunked (st_files st) (st_disk st) chunks
    /\ Forall (withinLimits maxRows maxSizeBytes) chunks
    /\ st_currentSize st = chunkBytes (st_currentRows st)
    /\ (st_currentRows st <> [] -> withinLimits maxRows maxSizeBytes (st_currentRows st)).
Proof.
  unfold splitLoop. induction rws as [|row rws IH] using rev_ind.
  - exists []. split; [split; try reflexivity; constructor|].
    split; [constructor|]. split; [reflexivity|]. intros H. exfalso. apply H. reflexivity.
  - rewrite foldl_app. simpl.
    destruct IH as (chunks & Hch & Hall & Hsize & Hcur).
    set (st := foldl (splitStep outputPath maxRows maxSizeBytes) splitInit rws) in *.
    unfold splitStep.
    match goal with |- context [if ?c then _ else _] => destruct c eqn:Hflush end.
    + apply andb_true_iff in Hflush as [Hpos _].
      pose proof (len_pos_nonnil _ Hpos) as Hne.
      exists (chunks ++ [st_currentRows st]). simpl. split; [|split; [|split]].
      * apply Chunked_snoc; assumption.
      * apply Forall_app. split; [exact Hall|]. constructor; [auto | constructor].
      * unfold chunkBytes, sumZ, rowBytes. simpl. lia.
      * intros _. apply withinLimits_one.
    + exists chunks. simpl. split; [exact Hch|]. split; [exact Hall|].
      split; [rewrite chunkBytes_snoc, Hsize; reflexivity|]. intros _.
      destruct (st_currentRows st) as [|r0 rest] eqn:Hrows.
      { apply withinLimits_one. }
      assert ((0 <? len (r0 :: rest)) = true) as Hpos
        by (apply Z.ltb_lt; unfold len; simpl; lia).
      rewrite Hpos, andb_true_l in Hflush.
      apply orb_false_iff in Hflush as [Hrowlimit Hsizelimit].
      destruct (Hcur ltac:(discriminate)) as [HR HB].
      split.
      * intros R HmR HposR. subst maxRows.
        unfold truthyNum in Hrowlimit.
        assert ((R =? 0) = false) as HR0 by lia.
        rewrite HR0 in Hrowlimit. simpl in Hrowlimit.
        apply Z.leb_gt in Hrowlimit. rewrite len_snoc. lia.
      * intros B HmB HB0. subst maxSizeBytes. right.
        unfold truthyNum in Hsizelimit.
        assert ((B =? 0) = false) as HB0' by lia.
        rewrite HB0' in Hsizelimit. simpl in Hsizelimit.
        apply Z.ltb_ge in Hsizelimit.
        rewrite chunkBytes_snoc. fold (rowBytes (csvRow row)) in Hsizelimit.
        rewrite Hsize in Hsizelimit. exact Hsizelimit.
Qed.

End WriterLimitsProofs.

Section WriterFiles.
Import Js Writer WriterLimits.

(** File by file: each recorded file and the text written for it come from
    one chunk of serialized rows. *)
Lemma Chunked_Forall2 (P : list string -> Prop) (chunks : list (list string)) :
  forall (fs : list FileRecord) (disk : Disk),
  Chunked fs disk chunks -> Forall P chunks ->
  Forall2 (fun f w =>
             w.1 = path f
             /\ exists chunk, chunk <> [] /\ P chunk
                  /\ rows f = len chunk /\ w.2 = join lf chunk)
          fs disk.
Proof.
  induction chunks as [|chunk chunks IH]; intros fs disk [Hc Ht Hp Hn] HP.
  - destruct fs; [|discriminate Hc]. destruct disk; [|discriminate Ht]. constructor.
  - destruct fs as [|f fs]; [discriminate Hc|].
    destruct disk as [|w disk]; [discriminate Ht|].
    simpl in Hc, Ht, Hp.
    injection Hc as Hc1 Hc2. injection Ht as Ht1 Ht2. injection Hp as Hp1 Hp2.
    inversion Hn as [|? ? Hne Hn']; subst.
    inversion HP as [|? ? HPc HP']; subst.
    constructor.
    + split; [exact Hp1|]. exists chunk. repeat split; assumption.
    + apply IH; [split; assumption | assumption].
Qed.

(** X1. Every file written by [writeCSVWithSplitting] holds at least one row;
    under a positive row limit it holds no more rows than the limit; and
    under a size limit the text written for it, with its closing line feed
    counted, is within the limit in bytes, unless the file holds a single
    row.  Each file is written once, at the path recorded for it. *)
Theorem writeCSVWithSplitting_within_limits
    (rws : list (list JsVal)) (outputPath : Path) (maxRows maxFileSize : option Z) :
  Forall2 (fun f w =>
             w.1 = path f
             /\ 1 <= rows f
             /\ (forall R, maxRows = Some R -> 0 < R -> rows f <= R)
             /\ (forall B, sizeLimit maxFileSize = Some B ->
                   rows f = 1 \/ byteLength w.2 + 1 <= B))
    (files (writeCSVWithSplitting rws outputPath maxRows maxFileSize).1)
    (writeCSVWithSplitting rws outputPath maxRows maxFileSize).2.
Proof.
  unfold writeCSVWithSplitting. fold (sizeLimit maxFileSize).
  destruct (splitLoop_limits outputPath maxRows (sizeLimit maxFileSize) rws)
    as (chunks & Hch & Hall & _ & Hcur).
  set (st := splitLoop rws outputPath maxRows (sizeLimit maxFileSize)) in *.
  assert (forall m B, sizeLimit m = Some B -> B <> 0) as Hnonzero.
  { intros [m|] B; simpl; [|discriminate].
    unfold truthyNum. destruct (m =? 0) eqn:Hm; simpl; [discriminate|].
    intros Heq. injection Heq as <-. lia. }
  assert (exists chunks',
            Chunked (st_files (if 0 <? len (st_currentRows st)
                               then writeChunk (if st_fileIndex st =? 1 then outputPath
                                                else getChunkFilePath outputPath (st_fileIndex st)) st
                               else st))
                    (st_disk (if 0 <? len (st_currentRows st)
                              then writeChunk (if st_fileIndex st =? 1 then outputPath
                                               else getChunkFilePath outputPath (st_fileIndex st)) st
                              else st))
                    chunks'
            /\ Forall (withinLimits maxRows (sizeLimit maxFileSize)) chunks')
    as (chunks' & Hch' & Hall').
  { destruct (0 <? len (st_currentRows st)) eqn:Hpos.
    - exists (chunks ++ [st_currentRows st]). split.
      + apply Chunked_snoc; [exact Hch | apply len_pos_nonnil, Hpos].
      + apply Forall_app. split; [exact Hall|].
        constructor; [apply Hcur, len_pos_nonnil, Hpos | constructor].
    - exists chunks. split; assumption. }
  simpl.
  eapply Forall2_impl; [apply (Chunked_Forall2 _ _ _ _ Hch' Hall')|].
  intros f w (Hpath & chunk & Hne & [HR HB] & Hrows & Htext).
  split; [exact Hpath|]. rewrite Hrows.
  assert (1 <= len chunk) as Hone
    by (destruct chunk; [congruence | unfold len; simpl; lia]).
  split; [exact Hone|]. split; [exact HR|].
  intros B HsB. rewrite Htext, byteLength_join by exact Hne.
  apply (HB B HsB). eapply Hnonzero, HsB.
Qed.

(** X2. Whatever the limits, [writeCSVWithSplitting] loses no row and writes
    none twice: the total and the sum of the recorded counts are the number
    of rows, and the texts of the files, put together with line feeds, are
    the text that [writeCSVSingle] writes for the same rows. *)
Theorem writeCSVWithSplitting_same_text_as_single
    (rws : list (list JsVal)) (outputPath : Path) (maxRows maxFileSize : option Z) :
  let split := writeCSVWithSplitting rws outputPath maxRows maxFileSize in
  let single := writeCSVSingle rws outputPath in
  totalRows split.1 = totalRows single.1
  /\ sumZ (rowCounts (files split.1)) = len rws
  /\ length split.2 = length (files split.1)
  /\ join lf (map snd split.2) = join lf (map snd single.2).
Proof.
  intros split single. subst split single.
  destruct (writeCSVWithSplitting_written rws outputPath maxRows maxFileSize)
    as (Htotal & Hsum & Hpaths & Htext).
  split; [exact Htotal|]. split; [exact Hsum|]. split.
  - apply (f_equal length) in Hpaths. rewrite !length_map in Hpaths. exact Hpaths.
  - rewrite Htext. reflexivity.
Qed.

End WriterFiles.

(** ** The fields of a parsed line *)

Section ParsedFields.
Import Js Csv PageSpec.

Lemma join_snoc (sep : string) (l : list string) (x : string) :
  l <> [] -> join sep (l ++ [x]) = join sep l +:+ sep +:+ x.
Proof. intros Hne. rewrite join_app by (assumption || discriminate). reflexivity. Qed.

Lemma join_last_append (sep : string) (l : list string) (x y : string) :
  join sep (l ++ [x +:+ y]) = join sep (l ++ [x]) +:+ y.
Proof.
  destruct l as [|a l]; [reflexivity|].
  rewrite !join_snoc by discriminate. rewrite !append_assoc. reflexivity.
Qed.

(** A line without double quote is cut at its commas. *)
Lemma parseLoop_unquoted (line : string) :
  includes dquote line = false ->
  forall (result : list string) (current : string),
    join "," (parseLoop line result current false)
    = join "," (result ++ [current]) +:+ line
    /\ length (parseLoop line result current false)
       = (length result + 1 + commaCount line)%nat.
Proof.
  induction line as [|c line IH]; intros Hq result current.
  - simpl. rewrite append_empty_r, length_app. simpl. split; [reflexivity | lia].
  - simpl in Hq. apply orb_false_iff in Hq as [Hc Hq].
    specialize (IH Hq). simpl. rewrite Hc.
    destruct (Ascii.eqb c comma) eqn:Hcomma; simpl.
    + apply Ascii.eqb_eq in Hcomma. subst c.
      destruct (IH (result ++ [current]) EmptyString) as [Hjoin Hlen].
      rewrite Hjoin, Hlen. split.
      * rewrite join_snoc by (destruct result; discriminate).
        rewrite !append_assoc. reflexivity.
      * rewrite length_app. simpl. lia.
    + destruct (IH result (current +:+ String c EmptyString)) as [Hjoin Hlen].
      rewrite Hjoin, Hlen. split; [|lia].
      rewrite join_last_append, append_assoc. reflexivity.
Qed.

(** Whatever the line, the parser returns at least one field and never more
    fields than the line has commas, plus one. *)
Lemma parseLoop_bounds (n : nat) :
  forall (line : string) (result : list string) (current : string) (inQuotes : bool),
    (String.length line <= n)%nat ->
    (length result + 1 <= length (parseLoop line result current inQuotes)
     <= length result + 1 + commaCount line)%nat.
Proof.
  induction n as [|n IH]; intros line result current inQuotes Hlen.
  - destruct line; [|simpl in Hlen; lia]. simpl. rewrite length_app. simpl. lia.
  - destruct line as [|c line]; [simpl; rewrite length_app; simpl; lia|].
    simpl in Hlen. simpl.
    destruct (Ascii.eqb c dquote) eqn:Hq.
    + assert (Ascii.eqb c comma = false) as Hnc.
      { apply Ascii.eqb_eq in Hq. subst c. reflexivity. }
      rewrite Hnc. simpl.
      destruct inQuotes.
      * destruct line as [|c' line'].
        -- specialize (IH EmptyString result current false ltac:(simpl; lia)).
           simpl in *. lia.
        -- destruct (Ascii.eqb c' dquote) eqn:Hq'.
           ++ assert (Ascii.eqb c' comma = false) as Hnc'.
              { apply Ascii.eqb_eq in Hq'. subst c'. reflexivity. }
              specialize (IH line' result (current +:+ String dquote EmptyString) true
                            ltac:(simpl in Hlen; lia)).
              simpl. rewrite Hnc'. simpl. lia.
           ++ specialize (IH (String c' line') result current false ltac:(lia)).
              simpl in *. lia.
      * specialize (IH line result current true ltac:(lia)). simpl in *. lia.
    + destruct (Ascii.eqb c comma && negb inQuotes) eqn:Hsep.
      * apply andb_true_iff in Hsep as [Hcomma _]. rewrite Hcomma.
        specialize (IH line (result ++ [current]) EmptyString inQuotes ltac:(lia)).
        rewrite length_app in IH. simpl in *. lia.
      * specialize (IH line result (current +:+ String c EmptyString) inQuotes ltac:(lia)).
        destruct (Ascii.eqb c comma); simpl in *; lia.
Qed.

(** X3. [parseCsvLine] always returns at least one field, and at most one more
    than the line has commas: the fallback header of [analyzeCsvFile], one
    column per comma plus one, is never shorter than a parsed header. *)
Theorem parseCsvLine_field_count (line : string) :
  (1 <= length (parseCsvLine line) <= commaCount line + 1)%nat.
Proof.
  unfold parseCsvLine.
  pose proof (parseLoop_bounds (String.length line) line [] EmptyString false
                ltac:(lia)) as H.
  simpl in H. lia.
Qed.

(** X4. On a line without double quote [parseCsvLine] is the split at the
    commas: the fields number one more than the commas, and joined with
    commas they give the line back. *)
Theorem parseCsvLine_unquoted (line : string) :
  includes dquote line = false ->
  length (parseCsvLine line) = (commaCount line + 1)%nat
  /\ join "," (parseCsvLine line) = line.
Proof.
  intros Hq. unfold parseCsvLine.
  destruct (parseLoop_unquoted line Hq [] EmptyString) as [Hjoin Hlen].
  split; [rewrite Hlen; simpl; lia | rewrite Hjoin; reflexivity].
Qed.

Lemma parseCsvLine_unquoted_witness :
  length (parseCsvLine "7,Ann,,Oslo") = (commaCount "7,Ann,,Oslo" + 1)%nat
  /\ join "," (parseCsvLine "7,Ann,,Oslo") = "7,Ann,,Oslo".
Proof. apply (parseCsvLine_unquoted "7,Ann,,Oslo"). reflexivity. Defined.

End ParsedFields.

(** ** A page is a window of the file *)

Section PageWindows.
Import Js Csv Reader PageSpec.

Variable cols : list Column.
Variables startRow pageSize : Z.

Lemma dataRows_snoc (seen : list string) (line : string) :
  seen <> [] ->
  dataRows cols (seen ++ [line])
  = dataRows cols seen
    ++ [ {| rowNumber := Reader.len seen;
            data := csvRowData cols (parseCsvLine line) |} ].
Proof.
  intros Hne. unfold dataRows. destruct seen as [|h seen]; [congruence|].
  simpl tail. rewrite imap_app. simpl. do 3 f_equal.
  unfold Reader.len. simpl. lia.
Qed.

Lemma dataRows_length (seen : list string) :
  length (dataRows cols seen) = (length seen - 1)%nat.
Proof.
  unfold dataRows. rewrite length_imap. destruct seen; simpl; lia.
Qed.

Lemma window_snoc_before {A} (l : list A) (x : A) :
  (length l < Z.to_nat startRow)%nat ->
  window startRow pageSize (l ++ [x]) = window startRow pageSize l.
Proof.
  intros Hlt. unfold window.
  rewrite (drop_ge (l ++ [x])) by (rewrite length_app; simpl; lia).
  rewrite (drop_ge l) by lia. reflexivity.
Qed.

Lemma window_snoc_full {A} (l : list A) (x : A) :
  (Z.to_nat startRow <= length l)%nat ->
  (Z.to_nat pageSize <= length l - Z.to_nat startRow)%nat ->
  window startRow pageSize (l ++ [x]) = window startRow pageSize l.
Proof.
  intros Hle Hfull. unfold window.
  rewrite drop_app_le by lia.
  rewrite take_app_le by (rewrite length_drop; lia). reflexivity.
Qed.

Lemma window_snoc_room {A} (l : list A) (x : A) :
  (Z.to_nat startRow <= length l)%nat ->
  (length l - Z.to_nat startRow < Z.to_nat pageSize)%nat ->
  window startRow pageSize (l ++ [x]) = window startRow pageSize l ++ [x].
Proof.
  intros Hle Hroom. unfold window.
  rewrite drop_app_le by lia.
  rewrite take_app_ge by (rewrite length_drop; lia).
  rewrite (take_ge (drop _ l)) by (rewrite length_drop; lia).
  f_equal. rewrite length_drop.
  destruct (Z.to_nat pageSize - (length l - Z.to_nat startRow))%nat eqn:Hd; [lia|].
  simpl. rewrite take_nil. reflexivity.
Qed.

Lemma window_length {A} (l : list A) :
  length (window startRow pageSize l)
  = Nat.min (Z.to_nat pageSize) (length l - Z.to_nat startRow).
Proof. unfold window. rewrite length_take, length_drop. reflexivity. Qed.

Lemma WindowInv_step (seen : list string) (st : CsvScan) (line : string) :
  WindowInv cols startRow pageSize seen st ->
  WindowInv cols startRow pageSize (seen ++ [line])
    (onLine cols startRow pageSize st line).
Proof.
  intros [Hrows Hcur Hfound]. unfold onLine. rewrite Hcur.
  replace (Reader.len seen - 1 + 1) with (Reader.len seen) by lia.
  assert (Reader.len (seen ++ [line]) - 1 = Reader.len seen) as Hlen
    by (unfold Reader.len; rewrite length_app; simpl; lia).
  destruct (Reader.len seen =? 0) eqn:Hzero.
  - (* the header line *)
    assert (seen = []) as -> by (destruct seen; [reflexivity | unfold Reader.len in Hzero; simpl in Hzero; lia]).
    split; simpl; [|reflexivity | exact Hfound].
    rewrite Hrows. reflexivity.
  - assert (seen <> []) as Hne by (intros ->; discriminate Hzero).
    pose proof (dataRows_length seen) as HD.
    assert (Reader.len seen - 1 = Z.of_nat (length (dataRows cols seen))) as Hdata.
    { rewrite HD. unfold Reader.len. destruct seen; [congruence | simpl; lia]. }
    rewrite Hdata.
    assert (foundRows st
            = Z.of_nat (Nat.min (Z.to_nat pageSize)
                          (length (dataRows cols seen) - Z.to_nat startRow))) as Hf.
    { rewrite Hfound, Hrows. unfold Reader.len. rewrite window_length. reflexivity. }
    destruct ((startRow <=? Z.of_nat (length (dataRows cols seen)))
              && (foundRows st <? pageSize)) eqn:Hin.
    + apply andb_true_iff in Hin as [Hge Hlt].
      apply Z.leb_le in Hge. apply Z.ltb_lt in Hlt.
      unfold tryParseCsvLine. split; simpl.
      * rewrite dataRows_snoc by exact Hne.
        rewrite window_snoc_room by lia.
        rewrite Hrows. do 2 f_equal.
        unfold Reader.len in *. f_equal. lia.
      * lia.
      * rewrite Hfound. unfold Reader.len. rewrite length_app. simpl. lia.
    + apply andb_false_iff in Hin.
      split; simpl; [|lia | exact Hfound].
      rewrite dataRows_snoc by exact Hne. rewrite Hrows.
      destruct (decide (length (dataRows cols seen) < Z.to_nat startRow)%nat) as [Hbefore|Hafter].
      * rewrite window_snoc_before by exact Hbefore. reflexivity.
      * rewrite window_snoc_full; [reflexivity | lia |].
        destruct Hin as [Hin|Hin]; [apply Z.leb_gt in Hin; lia|].
        apply Z.ltb_ge in Hin. lia.
Qed.

Lemma WindowInv_lines (lines : list string) (r : StreamingFileReader) :
  columns r = cols ->
  WindowInv cols startRow pageSize lines (scanCsv r lines startRow pageSize).
Proof.
  intros Hcols. unfold scanCsv. rewrite Hcols.
  induction lines as [|line lines IH] using rev_ind.
  - split; [|reflexivity|reflexivity].
    unfold window, dataRows. simpl. rewrite drop_nil, take_nil. reflexivity.
  - rewrite foldl_app. simpl. apply WindowInv_step, IH.
Qed.

End PageWindows.

Section PageWindowTheorems.
Import Js Csv Reader PageSpec.

Lemma readCsvPage_window_eq (r : StreamingFileReader) (lines : list string)
    (startRow pageSize : Z) :
  rows (readCsvPage r lines startRow pageSize)
  = window startRow pageSize (dataRows (columns r) lines).
Proof.
  destruct (WindowInv_lines (columns r) startRow pageSize lines r eq_refl)
    as [Hrows _ _].
  exact Hrows.
Qed.

(** X5. The page that [readCsvPage] returns is the window of the data rows of
    the file that starts at [startRow] and holds at most [pageSize] rows: a
    negative [startRow] reads from the first row, a page size that is not
    positive gives no row, and a window that reaches past the end of the
    file is cut there. *)
Theorem readCsvPage_window (r : StreamingFileReader) (lines : list string)
    (startRow pageSize : Z) :
  rows (readCsvPage r lines startRow pageSize)
  = window startRow pageSize (dataRows (columns r) lines).
Proof. apply readCsvPage_window_eq. Qed.

Lemma take_add_drop {A} (p q : nat) (l : list A) :
  take p l ++ take q (drop p l) = take (p + q) l.
Proof.
  revert l. induction p as [|p IH]; intros l.
  - rewrite drop_0. reflexivity.
  - destruct l as [|x l]; [rewrite !take_nil, drop_nil, take_nil; reflexivity|].
    simpl. f_equal. apply IH.
Qed.



End PageWindowTheorems.

Section PageComposition.
Import Js Csv Reader PageSpec.








End PageComposition.

(** ** The messages of an analysis job *)

Section AnalysisJob.
Import Js Worker JobSpec.

Ltac run_job :=
  unfold analysisJob, processGetWorksheets, validateFile, processWorksheets,
    tryExcelJS, analyzeWorksheets, checkFile, tryCatch, bind, call,
    sendProgress, sendWorksheets, post, ret, throw; simpl.

(** X9. Whatever the worker finds, an analysis job posts exactly one terminal
    message, [success] or [error], and posts it last; and every percent
    value it posts lies between 0 and 100. *)
Theorem analysisJob_single_terminal (env : Env) :
  (exists final,
      last (analysisJob env) = Some final /\ isTerminal final = true)
  /\ terminalCount (analysisJob env) = 1%nat
  /\ Forall (fun p => 0 <= p <= 100) (progressValues (analysisJob env)).
Proof.
  destruct env as [hx hj fe isf ext txt xr jr]. run_job.
  destruct fe, isf, ext; simpl;
    try (split; [eexists; split; reflexivity | split; [reflexivity | repeat constructor; lia]]).
  destruct hx; simpl.
  - destruct xr as [wb|e]; simpl.
    + destruct (forEach (describeXlsx wb) (SheetNames wb)); simpl;
        (split; [eexists; split; reflexivity | split; [reflexivity | repeat constructor; lia]]).
    + destruct hj; simpl; [destruct jr; simpl|];
        (split; [eexists; split; reflexivity | split; [reflexivity | repeat constructor; lia]]).
  - destruct hj; simpl; [destruct jr; simpl|];
      (split; [eexists; split; reflexivity | split; [reflexivity | repeat constructor; lia]]).
Qed.

(** X10. An analysis job ends in [success] exactly when the file passes the
    checks of [validateFile] and one of the two libraries is loaded and
    reads it; in every other case it ends in [error]. *)
Theorem analysisJob_success_iff (env : Env) :
  (exists sheets infos, last (analysisJob env) = Some (MSuccess sheets infos))
  <-> checkFile env = Ok tt /\ readable env = true.
Proof.
  destruct env as [hx hj fe isf ext txt xr jr]. unfold readable. run_job.
  destruct fe, isf, ext; simpl;
    try (split; [intros (s & i & H); discriminate H | intros [H _]; discriminate H]).
  destruct hx; simpl.
  - destruct xr as [wb|e]; simpl.
    + destruct (forEach (describeXlsx wb) (SheetNames wb)); simpl;
        (split; [intros _; split; reflexivity | intros _; do 2 eexists; reflexivity]).
    + destruct hj; simpl; [destruct jr; simpl|].
      * split; [intros _; split; reflexivity | intros _; do 2 eexists; reflexivity].
      * split; [intros (s & i & H); discriminate H | intros [_ H]; discriminate H].
      * split; [intros (s & i & H); discriminate H | intros [_ H]; discriminate H].
  - destruct hj; simpl; [destruct jr; simpl|].
    + split; [intros _; split; reflexivity | intros _; do 2 eexists; reflexivity].
    + split; [intros (s & i & H); discriminate H | intros [_ H]; discriminate H].
    + split; [intros (s & i & H); discriminate H | intros [_ H]; discriminate H].
Qed.

Lemma forEach_describeXlsx (workbook : XlsxWorkbook) (names : list string) :
  match forEach (describeXlsx workbook) names with
  | Ok infos =>
      Forall (fun sheetName => is_Some (Sheets workbook !! sheetName)) names
      /\ map infoName infos = names
  | Err _ =>
      ~ Forall (fun sheetName => is_Some (Sheets workbook !! sheetName)) names
  end.
Proof.
  induction names as [|sheetName names IH]; simpl.
  - split; [constructor | reflexivity].
  - unfold describeXlsx at 1.
    destruct (Sheets workbook !! sheetName) as [ws|] eqn:Hlook.
    + destruct (forEach (describeXlsx workbook) names) as [infos|e].
      * destruct IH as [Hall Hnames]. split.
        -- constructor; [rewrite Hlook; eexists; reflexivity | exact Hall].
        -- simpl. rewrite Hnames. reflexivity.
      * intros Hall. inversion Hall; subst. contradiction.
    + intros Hall. inversion Hall as [|? ? [x Hx] _]; subst.
      rewrite Hlook in Hx. discriminate.
Qed.

(** X11. A sheet that the workbook declares and that the XLSX library did not
    materialize does not fail the analysis job: when the file passes the
    checks and the library reads it, the job ends in [success] with the
    declared sheet names, and it carries the descriptors with estimated
    sizes, one per name in the same order, exactly when every declared
    sheet is materialized. *)
Theorem analysisJob_survives_missing_sheet (env : Env) (workbook : XlsxWorkbook) :
  checkFile env = Ok tt ->
  hasXLSX env = true ->
  xlsxReadFile env = Ok workbook ->
  exists infos,
    last (analysisJob env) = Some (MSuccess (SheetNames workbook) infos)
    /\ (is_Some infos <-> allMaterialized workbook)
    /\ (forall descriptors, infos = Some descriptors ->
          map infoName descriptors = SheetNames workbook).
Proof.
  intros Hcheck Hxlsx Hread.
  unfold analysisJob, processGetWorksheets, validateFile, processWorksheets,
    analyzeWorksheets, tryCatch, bind, call, sendProgress, sendWorksheets,
    post, ret. simpl.
  rewrite Hcheck. simpl. rewrite Hxlsx. simpl. rewrite Hread. simpl.
  pose proof (forEach_describeXlsx workbook (SheetNames workbook)) as Hdesc.
  unfold allMaterialized.
  destruct (forEach (describeXlsx workbook) (SheetNames workbook)) as [infos|e]; simpl.
  - destruct Hdesc as [Hall Hnames]. eexists. split; [reflexivity|]. split.
    + split; [intros _; exact Hall | intros _; eexists; reflexivity].
    + intros d Hd. injection Hd as <-. exact Hnames.
  - eexists. split; [reflexivity|]. split.
    + split; [intros [x Hx]; discriminate | intros Hall; contradiction].
    + intros d Hd. discriminate.
Qed.

Lemma analysisJob_survives_missing_sheet_witness :
  exists infos,
    last (analysisJob (oneSheetEnv 50))
    = Some (MSuccess
              (SheetNames {| SheetNames := ["Data"];
                  Sheets := {[ "Data" :=
                    {| sheetRef := Some {| s_r := 0; s_c := 0; e_r := 50 - 1; e_c := 2 |};
                       sheetCells := ∅; sheetRows := [] |} ]} |}) infos)
    /\ (is_Some infos
        <-> allMaterialized {| SheetNames := ["Data"];
              Sheets := {[ "Data" :=
                {| sheetRef := Some {| s_r := 0; s_c := 0; e_r := 50 - 1; e_c := 2 |};
                   sheetCells := ∅; sheetRows := [] |} ]} |})
    /\ (forall descriptors, infos = Some descriptors ->
          map infoName descriptors
          = SheetNames {| SheetNames := ["Data"];
              Sheets := {[ "Data" :=
                {| sheetRef := Some {| s_r := 0; s_c := 0; e_r := 50 - 1; e_c := 2 |};
                   sheetCells := ∅; sheetRows := [] |} ]} |}).
Proof.
  apply (analysisJob_survives_missing_sheet (oneSheetEnv 50)); reflexivity.
Defined.

Lemma analysisJob_success_iff_witness :
  exists sheets infos, last (analysisJob (oneSheetEnv 50)) = Some (MSuccess sheets infos).
Proof.
  apply (proj2 (analysisJob_success_iff (oneSheetEnv 50))). split; reflexivity.
Defined.

End AnalysisJob.

(** ** Conversions through the XLSX library *)

Section XlsxConversion.
Import Js Writer Worker.

Lemma written_nonempty (out : ConversionResult * Disk) (rws : list (list JsVal)) :
  Written out rws -> rws <> [] ->
  1 <= totalRows out.1 /\ files out.1 <> [] /\ out.2 <> [].
Proof.
  intros (Htotal & Hsum & Hpaths & _) Hne.
  assert (1 <= len rws) as Hlen by (destruct rws; [congruence | unfold len; simpl; lia]).
  split; [lia|].
  assert (files out.1 <> []) as Hfiles.
  { intros Hnil. rewrite Hnil in Hsum. unfold sumZ in Hsum. simpl in Hsum. lia. }
  split; [exact Hfiles|].
  intros Hnil. rewrite Hnil in Hpaths. simpl in Hpaths.
  destruct (files out.1); [congruence | discriminate].
Qed.

(** X12. A conversion job whose workbook the XLSX library reads never succeeds
    empty-handed: when it succeeds, it reports at least one row, records at
    least one file and has written at least one file, and the recorded row
    counts sum to the reported total. *)
Theorem processConvertToCSV_xlsx_never_empty (env : Env) (workbook : XlsxWorkbook)
    (sheetName : string) (outputPath : Path) (maxRows maxFileSize : option Z)
    (out : ConversionResult * Disk) :
  hasXLSX env = true ->
  xlsxReadFile env = Ok workbook ->
  processConvertToCSV env sheetName outputPath maxRows maxFileSize = Ok out ->
  1 <= totalRows out.1
  /\ files out.1 <> []
  /\ out.2 <> []
  /\ sumZ (rowCounts (files out.1)) = totalRows out.1.
Proof.
  intros Hxlsx Hread. unfold processConvertToCSV, convertToCSV, loadWorkbook.
  destruct (checkFile env); [|discriminate].
  rewrite Hxlsx, Hread. unfold convertWithXLSX.
  destruct (Sheets workbook !! sheetName) as [worksheet|]; [|discriminate].
  destruct (len (sheetRows worksheet) =? 0); [discriminate|].
  destruct (len (nonEmptyRowsOf (sheetRows worksheet)) =? 0) eqn:Hkept; [discriminate|].
  intros Hout. injection Hout as <-.
  pose proof (writeRows_written (nonEmptyRowsOf (sheetRows worksheet))
                outputPath maxRows maxFileSize) as Hw.
  assert (nonEmptyRowsOf (sheetRows worksheet) <> []) as Hne
    by (intros Hnil; rewrite Hnil in Hkept; discriminate Hkept).
  destruct (written_nonempty _ _ Hw Hne) as (H1 & H2 & H3).
  destruct Hw as (Htotal & Hsum & _).
  repeat split; try assumption. rewrite Hsum, Htotal. reflexivity.
Qed.

Lemma processConvertToCSV_xlsx_never_empty_witness :
  1 <= totalRows (writeCSVSingle [ [JStr "  "; JStr EmptyString]; [JStr "total"; JNum 7] ]
                    (MkPath "out" "Book_Notes" ".csv")).1.
Proof.
  apply (processConvertToCSV_xlsx_never_empty
           {| hasXLSX := true; hasExcelJS := false; fileExists := true; isFile := true;
              extensionAllowed := true; fileSizeText := "0.01";
              xlsxReadFile := Ok notesBook; exceljsReadFile := Err "not loaded" |}
           notesBook "Notes" (MkPath "out" "Book_Notes" ".csv") None None);
    vm_compute; reflexivity.
Defined.

End XlsxConversion.

(** ** The totals of a conversion request *)

Section RequestTotals.
Import Js Writer Ipc RequestSpec.

Variable sanitizeSheetName : string -> Result string.
Variable convertWorksheet : string -> Result ConversionResult.

Lemma convertAll_total (sheets : list string) :
  totalRowsAll (convertAll convertWorksheet sheets)
  = sumZ (map (rowsOf convertWorksheet) sheets).
Proof.
  unfold convertAll. induction sheets as [|sheet sheets IH] using rev_ind.
  - reflexivity.
  - rewrite foldl_app, map_app. simpl.
    change (map (rowsOf convertWorksheet) [sheet]) with [rowsOf convertWorksheet sheet].
    rewrite sumZ_snoc, <- IH.
    unfold convertOne, rowsOf.
    destruct (convertWorksheet sheet); simpl; lia.
Qed.

Lemma forEach_length {A B} (body : A -> Result B) (l : list A) (bs : list B) :
  Worker.forEach body l = Ok bs -> length bs = length l.
Proof.
  revert bs. induction l as [|a l IH]; intros bs; simpl.
  - intros H. injection H as <-. reflexivity.
  - destruct (body a); [|discriminate].
    destruct (Worker.forEach body l) as [bs'|]; [|discriminate].
    intros H. injection H as <-. simpl. f_equal. apply IH. reflexivity.
Qed.

(** X13. What a successful answer of the handler holds.  The worksheet names
    were all validated, every one of them was converted or failed on its
    own, and: the files are those of the converted worksheets in the order
    of the request, the total is the sum of their rows, and [errors] lists
    the worksheets that failed, in order, or is [null] when none failed; it
    is never an empty list.  If some worksheet failed, at least one file was
    created. *)
Theorem convertFile_success (validatePaths : Result unit)
    (worksheets : option (list WorksheetArg))
    (total : Z) (created : list FileRecord) (errs : option (list string)) :
  convertFile validatePaths sanitizeSheetName convertWorksheet worksheets
  = Success total created errs ->
  exists sheets,
    (worksheets ≫= fun args =>
       match Worker.forEach (validateWorksheet sanitizeSheetName) args with
       | Ok names => Some names
       | Err _ => None
       end) = Some sheets
    /\ sheets <> []
    /\ created = concat (map (filesOf convertWorksheet) sheets)
    /\ total = sumZ (map (rowsOf convertWorksheet) sheets)
    /\ errs = (match omap (errorOf convertWorksheet) sheets with
               | [] => None
               | e :: es => Some (e :: es)
               end)
    /\ errs <> Some []
    /\ (errs = None \/ created <> []).
Proof.
  unfold convertFile. destruct validatePaths; [|discriminate].
  destruct worksheets as [[|arg args]|]; [discriminate | | discriminate].
  change (Some (arg :: args) ≫= ?f) with (f (arg :: args)). cbv beta.
  destruct (Worker.forEach _ (arg :: args)) as [sheets|] eqn:Hvalid; [|discriminate].
  pose proof (forEach_length _ _ _ Hvalid) as Hlen.
  destruct (convertAll_collects convertWorksheet sheets) as [Herr Hfiles].
  pose proof (convertAll_total sheets) as Htotal.
  unfold respond. rewrite Herr, Hfiles, Htotal.
  intros Hresp. exists sheets.
  split; [reflexivity|].
  split; [intros ->; simpl in Hlen; discriminate|].
  destruct (omap (errorOf convertWorksheet) sheets) as [|e es].
  - simpl in Hresp. injection Hresp as <- <- <-.
    repeat split; try reflexivity; [discriminate | left; reflexivity].
  - assert ((0 <? len (e :: es)) = true) as Hpos
      by (apply Z.ltb_lt; unfold len; simpl; lia).
    rewrite Hpos in Hresp. simpl in Hresp.
    destruct (len (concat (map (filesOf convertWorksheet) sheets)) =? 0) eqn:Hnone;
      [discriminate|].
    injection Hresp as <- <- <-.
    repeat split; try reflexivity; [discriminate|].
    right. intros Hnil. rewrite Hnil in Hnone. discriminate Hnone.
Qed.

End RequestTotals.

Section RequestTotalsWitness.
Import Js Writer Ipc RequestSpec.

Lemma convertFile_success_witness :
  exists sheets,
    (Some [ByName "Sales"; ByObject "Costs"] ≫= fun args =>
       match Worker.forEach (validateWorksheet Ok) args with
       | Ok names => Some names
       | Err _ => None
       end) = Some sheets
    /\ sheets <> []
    /\ [ {| path := MkPath "out" "Book_Sales" ".csv"; rows := 3 |} ]
       = concat (map (filesOf onlySales) sheets)
    /\ 3 = sumZ (map (rowsOf onlySales) sheets)
    /\ Some ["Costs: not found"]
       = (match omap (errorOf onlySales) sheets with
          | [] => None
          | e :: es => Some (e :: es)
          end)
    /\ Some ["Costs: not found"] <> Some []
    /\ (Some ["Costs: not found"] = None
        \/ [ {| path := MkPath "out" "Book_Sales" ".csv"; rows := 3 |} ] <> []).
Proof.
  apply (convertFile_success Ok onlySales (Ok tt)
           (Some [ByName "Sales"; ByObject "Costs"])).
  vm_compute. reflexivity.
Defined.

End RequestTotalsWitness.

(** ** The worker manager *)

Section ManagerProofs.
Import Manager ManagerSpec.

Context {Job Data : Type}.

Implicit Types (m : ExcelWorkerManager Job Data) (entries : list (Z * Job)).

Lemma Forall_filter_keep {A} (P Q : A -> Prop) `{!forall x, Decision (P x)} (l : list A) :
  Forall Q l -> Forall Q (filter P l).
Proof.
  rewrite !Forall_forall. intros Hall x Hx.
  apply list_elem_of_filter in Hx as [_ Hx]. apply Hall, Hx.
Qed.

Lemma filter_all {A} (P : A -> Prop) `{!forall x, Decision (P x)} (l : list A) :
  (forall x, x ∈ l -> P x) -> filter P l = l.
Proof.
  induction l as [|x l IH]; intros Hall; [reflexivity|].
  rewrite filter_cons_True by (apply Hall; left).
  f_equal. apply IH. intros y Hy. apply Hall. right. exact Hy.
Qed.

Lemma filter_none {A} (P : A -> Prop) `{!forall x, Decision (P x)} (l : list A) :
  (forall x, x ∈ l -> ~ P x) -> filter P l = [].
Proof.
  induction l as [|x l IH]; intros Hall; [reflexivity|].
  rewrite filter_cons_False by (apply Hall; left).
  apply IH. intros y Hy. apply Hall. right. exact Hy.
Qed.

Lemma get_None_keys (workerId : Z) entries :
  get workerId entries = None <-> workerId ∉ keys entries.
Proof.
  induction entries as [|[key worker] entries IH]; simpl.
  - split; [intros _; apply not_elem_of_nil | reflexivity].
  - rewrite not_elem_of_cons. destruct (key =? workerId) eqn:Hkey.
    + apply Z.eqb_eq in Hkey. split; [discriminate|]. intros [Hne _]. congruence.
    + apply Z.eqb_neq in Hkey. rewrite IH. split; [intros H; split; [congruence | exact H] | intros [_ H]; exact H].
Qed.

Lemma get_Some_keys (workerId : Z) entries :
  is_Some (get workerId entries) <-> workerId ∈ keys entries.
Proof.
  destruct (get workerId entries) as [worker|] eqn:Hget.
  - split; [intros _ | intros _; eexists; reflexivity].
    destruct (decide (workerId ∈ keys entries)) as [Hin|Hout]; [exact Hin|].
    apply get_None_keys in Hout. congruence.
  - apply get_None_keys in Hget. split; [intros [? ?]; discriminate | contradiction].
Qed.

Lemma keys_delete (workerId : Z) entries :
  keys (delete workerId entries) = filter (fun key => key <> workerId) (keys entries).
Proof.
  unfold delete, keys. induction entries as [|[key worker] entries IH]; [reflexivity|].
  simpl. rewrite !filter_cons. simpl.
  destruct (decide (key <> workerId)); simpl; rewrite IH; reflexivity.
Qed.

Lemma get_delete_eq (workerId : Z) entries :
  get workerId (delete workerId entries) = None.
Proof.
  apply get_None_keys. rewrite keys_delete, list_elem_of_filter. tauto.
Qed.

Lemma get_delete_ne (workerId key : Z) entries :
  key <> workerId -> get key (delete workerId entries) = get key entries.
Proof.
  intros Hne. unfold delete. induction entries as [|[key' worker] entries IH]; [reflexivity|].
  rewrite filter_cons. simpl.
  destruct (decide (key' <> workerId)) as [Hkeep|Hdrop]; simpl.
  - rewrite IH. reflexivity.
  - assert (key' = workerId) as -> by lia.
    assert ((workerId =? key) = false) as -> by (apply Z.eqb_neq; congruence).
    exact IH.
Qed.

Lemma keys_delete_subset (workerId key : Z) entries :
  key ∉ keys entries -> key ∉ keys (delete workerId entries).
Proof. rewrite keys_delete, list_elem_of_filter. tauto. Qed.

Lemma cancelledIds_snoc (events : list (Event Data)) (event : Event Data) :
  cancelledIds (events ++ [event])
  = cancelledIds events ++ match event with
                           | EvCancelled workerId => [workerId]
                           | _ => []
                           end.
Proof.
  unfold cancelledIds. rewrite omap_app. simpl. destruct event; reflexivity.
Qed.

Lemma inv_newManager : ManagerInv (@newManager Job Data).
Proof.
  split; simpl; try (by constructor); lia.
Qed.

(** A manager that differs from an invariant one in that one entry is
    deleted keeps the invariant. *)
Lemma inv_delete (workerId : Z) m :
  ManagerInv m ->
  ManagerInv (MkManager (delete workerId (workers m)) (currentWorkerId m) (emitted m)
                        (terminated m) (promises m)).
Proof.
  intros [Hdistinct Hkeys Hcounter Hterm Honce Hcancelled Hsettled].
  split; simpl; try assumption.
  - rewrite keys_delete. apply NoDup_filter. exact Hdistinct.
  - rewrite keys_delete. apply Forall_filter_keep. exact Hkeys.
  - eapply Forall_impl; [exact Hcancelled|]. simpl. intros key [Hrange Hout].
    split; [exact Hrange | apply keys_delete_subset; exact Hout].
  - intros key outcome Hlook. destruct (Hsettled key outcome Hlook) as [Hrange Hout].
    split; [exact Hrange | apply keys_delete_subset; exact Hout].
Qed.

Lemma inv_cleanup (workerId : Z) m :
  ManagerInv m -> ManagerInv (cleanup workerId m).
Proof.
  intros Hinv. unfold cleanup. destruct (get workerId (workers m)); [|exact Hinv].
  apply inv_delete. exact Hinv.
Qed.

Lemma cleanup_not_running (workerId : Z) m :
  workerId ∉ keys (workers (cleanup workerId m)).
Proof.
  unfold cleanup. destruct (get workerId (workers m)) eqn:Hget; simpl.
  - apply get_None_keys, get_delete_eq.
  - apply get_None_keys. exact Hget.
Qed.

Lemma cleanup_counter (workerId : Z) m :
  currentWorkerId (cleanup workerId m) = currentWorkerId m.
Proof. unfold cleanup. destruct (get workerId (workers m)); reflexivity. Qed.

Lemma inv_settle (workerId : Z) (outcome : Outcome Data) m :
  ManagerInv m ->
  1 <= workerId <= currentWorkerId m ->
  workerId ∉ keys (workers m) ->
  ManagerInv (settle workerId outcome m).
Proof.
  intros [Hdistinct Hkeys Hcounter Hterm Honce Hcancelled Hsettled] Hrange Hout.
  split; simpl; try assumption.
  intros key result. destruct (promises m !! workerId) eqn:Hlook; [apply Hsettled|].
  destruct (decide (key = workerId)) as [->|Hne].
  - intros _. split; assumption.
  - rewrite lookup_insert_ne by congruence. apply Hsettled.
Qed.

Lemma inv_finish (workerId : Z) (outcome : Outcome Data) m :
  ManagerInv m ->
  created workerId m = true ->
  ManagerInv (settle workerId outcome (cleanup workerId m)).
Proof.
  intros Hinv Hcreated. unfold created in Hcreated.
  apply andb_true_iff in Hcreated as [Hlow Hhigh].
  apply Z.leb_le in Hlow, Hhigh.
  apply inv_settle.
  - apply inv_cleanup. exact Hinv.
  - rewrite cleanup_counter. lia.
  - apply cleanup_not_running.
Qed.

Lemma inv_emit (event : Event Data) m :
  ManagerInv m ->
  match event with EvCancelled _ => False | _ => True end ->
  ManagerInv (emit event m).
Proof.
  intros [Hdistinct Hkeys Hcounter Hterm Honce Hcancelled Hsettled] Hother.
  assert (cancelledIds (emitted m ++ [event]) = cancelledIds (emitted m)) as Hsame.
  { rewrite cancelledIds_snoc. destruct event; [| |contradiction]; apply app_nil_r. }
  split; simpl; try assumption; rewrite Hsame; assumption.
Qed.

Lemma cancelWorker_running (workerId : Z) (worker : Job) m :
  get workerId (workers m) = Some worker ->
  cancelWorker workerId m
  = MkManager (delete workerId (workers m)) (currentWorkerId m)
              (emitted m ++ [EvCancelled workerId]) (terminated m ++ [workerId])
              (promises m).
Proof.
  intros Hget. unfold cancelWorker, cleanup, terminate, emit. simpl.
  rewrite Hget. reflexivity.
Qed.

Lemma inv_cancelWorker (workerId : Z) m :
  ManagerInv m -> ManagerInv (cancelWorker workerId m).
Proof.
  intros Hinv. destruct (get workerId (workers m)) as [worker|] eqn:Hget.
  2: { unfold cancelWorker. rewrite Hget. exact Hinv. }
  rewrite (cancelWorker_running _ _ _ Hget).
  assert (workerId ∈ keys (workers m)) as Hin
    by (apply get_Some_keys; eexists; exact Hget).
  pose proof (inv_delete workerId m Hinv) as [Hdistinct Hkeys Hcounter _ _ Hcancelled Hsettled].
  destruct Hinv as [_ Hkeys0 _ Hterm Honce Hcancelled0 _]. simpl in *.
  split; simpl; try assumption; rewrite cancelledIds_snoc.
  - rewrite Hterm. reflexivity.
  - apply NoDup_app. split; [exact Honce|]. split; [|apply NoDup_singleton].
    intros key Hkey Hkey'. apply list_elem_of_singleton in Hkey'. subst key.
    rewrite Forall_forall in Hcancelled0. destruct (Hcancelled0 _ Hkey) as [_ Hout].
    contradiction.
  - apply Forall_app. split; [exact Hcancelled|].
    apply Forall_singleton. split.
    + rewrite Forall_forall in Hkeys0. apply Hkeys0. exact Hin.
    + apply get_None_keys, get_delete_eq.
Qed.

Lemma inv_cancel_list (ids : list Z) m :
  ManagerInv m ->
  ManagerInv (foldl (fun m workerId => cancelWorker workerId m) m ids).
Proof.
  revert m. induction ids as [|workerId ids IH]; intros m Hinv; simpl; [exact Hinv|].
  apply IH, inv_cancelWorker, Hinv.
Qed.

Lemma inv_processExcelFile (job : Job) m :
  ManagerInv m -> ManagerInv (processExcelFile job m).2.
Proof.
  intros [Hdistinct Hkeys Hcounter Hterm Honce Hcancelled Hsettled].
  assert (currentWorkerId m + 1 ∉ keys (workers m)) as Hfresh.
  { intros Hin. rewrite Forall_forall in Hkeys. specialize (Hkeys _ Hin). lia. }
  assert (set (currentWorkerId m + 1) job (workers m)
          = workers m ++ [(currentWorkerId m + 1, job)]) as Hset.
  { unfold set. apply get_None_keys in Hfresh. rewrite Hfresh. reflexivity. }
  assert (keys (workers m ++ [(currentWorkerId m + 1, job)])
          = keys (workers m) ++ [currentWorkerId m + 1]) as Hkeys'.
  { unfold keys. rewrite map_app. reflexivity. }
  split; simpl; try assumption; rewrite ?Hset, ?Hkeys'.
  - apply NoDup_app. split; [exact Hdistinct|]. split; [|apply NoDup_singleton].
    intros key Hkey Hkey'. apply list_elem_of_singleton in Hkey'. subst key. contradiction.
  - apply Forall_app. split.
    + eapply Forall_impl; [exact Hkeys|]. simpl. intros; lia.
    + apply Forall_singleton. lia.
  - lia.
  - eapply Forall_impl; [exact Hcancelled|]. simpl. intros key [Hrange Hout].
    split; [lia|]. rewrite not_elem_of_app, not_elem_of_cons.
    split; [exact Hout|]. split; [lia | apply not_elem_of_nil].
  - intros key outcome Hlook. destruct (Hsettled key outcome Hlook) as [Hrange Hout].
    split; [lia|]. rewrite not_elem_of_app, not_elem_of_cons.
    split; [exact Hout|]. split; [lia | apply not_elem_of_nil].
Qed.

Lemma inv_step (input : Input Job Data) m :
  ManagerInv m -> ManagerInv (step m input).
Proof.
  intros Hinv. destruct input as [job|workerId message|workerId error|workerId code|workerId| |];
    simpl.
  - apply inv_processExcelFile, Hinv.
  - destruct (created workerId m) eqn:Hcreated; [|exact Hinv].
    destruct message; simpl;
      first [ apply inv_emit; [exact Hinv | exact I]
            | apply inv_finish; assumption
            | exact Hinv ].
  - destruct (created workerId m) eqn:Hcreated; [|exact Hinv].
    apply inv_finish; assumption.
  - destruct (created workerId m) eqn:Hcreated; [|exact Hinv].
    unfold onExit. destruct (code =? 0); [exact Hinv|]. apply inv_finish; assumption.
  - apply inv_cancelWorker, Hinv.
  - apply inv_cancel_list, Hinv.
  - apply inv_cancel_list, Hinv.
Qed.

Lemma inv_from (inputs : list (Input Job Data)) m :
  ManagerInv m -> ManagerInv (foldl step m inputs).
Proof.
  revert m. induction inputs as [|input inputs IH]; intros m Hinv; simpl; [exact Hinv|].
  apply IH, inv_step, Hinv.
Qed.

Lemma inv_run (inputs : list (Input Job Data)) : ManagerInv (run inputs).
Proof. apply inv_from, inv_newManager. Qed.

(** The counter counts the submitted jobs. *)

Lemma counter_cancelWorker (workerId : Z) m :
  currentWorkerId (cancelWorker workerId m) = currentWorkerId m.
Proof.
  unfold cancelWorker, cleanup. simpl. destruct (get workerId (workers m)); reflexivity.
Qed.

Lemma counter_cancel_list (ids : list Z) m :
  currentWorkerId (foldl (fun m workerId => cancelWorker workerId m) m ids)
  = currentWorkerId m.
Proof.
  revert m. induction ids as [|workerId ids IH]; intros m; simpl; [reflexivity|].
  rewrite IH. apply counter_cancelWorker.
Qed.

Lemma counter_step (input : Input Job Data) m :
  currentWorkerId (step m input)
  = currentWorkerId m + submitted [input].
Proof.
  destruct input as [job|workerId message|workerId error|workerId code|workerId| |];
    simpl; rewrite ?Z.add_0_r; try reflexivity.
  - destruct (created workerId m); [|reflexivity].
    destruct message; simpl; rewrite ?cleanup_counter; reflexivity.
  - destruct (created workerId m); [|reflexivity]. simpl. apply cleanup_counter.
  - destruct (created workerId m); [|reflexivity]. unfold onExit.
    destruct (code =? 0); [reflexivity|]. simpl. apply cleanup_counter.
  - apply counter_cancelWorker.
  - apply counter_cancel_list.
  - apply counter_cancel_list.
Qed.

Lemma counter_from (inputs : list (Input Job Data)) m :
  currentWorkerId (foldl step m inputs) = currentWorkerId m + submitted inputs.
Proof.
  revert m. induction inputs as [|input inputs IH]; intros m; simpl; [lia|].
  rewrite IH, counter_step. simpl. destruct input; lia.
Qed.

Lemma counter_run (inputs : list (Input Job Data)) :
  currentWorkerId (run inputs) = submitted inputs.
Proof. unfold run. rewrite counter_from. reflexivity. Qed.

(** X14. The jobs are numbered 1, 2, 3, ... in the order of their submission,
    whatever happened in between: after any history, [processExcelFile]
    takes as id the number of jobs submitted so far plus one.  No worker is
    running under that id, no promise is settled for it and no [cancelled]
    event names it: the new worker is appended to the running ones and
    replaces none. *)
Theorem processExcelFile_fresh_id (inputs : list (Input Job Data)) (job : Job) :
  let m := run inputs in
  let workerId := (processExcelFile job m).1 in
  workerId = submitted inputs + 1
  /\ workers (processExcelFile job m).2 = workers m ++ [(workerId, job)]
  /\ get workerId (workers m) = None
  /\ promises m !! workerId = None
  /\ workerId ∉ cancelledIds (emitted m).
Proof.
  intros m workerId. subst workerId. simpl.
  pose proof (inv_run inputs) as [Hdistinct Hkeys Hcounter Hterm Honce Hcancelled Hsettled].
  pose proof (counter_run inputs) as Hcount. fold m in Hkeys, Hcancelled, Hsettled, Hcount.
  assert (get (currentWorkerId m + 1) (workers m) = None) as Hfresh.
  { apply get_None_keys. intros Hin. rewrite Forall_forall in Hkeys.
    specialize (Hkeys _ Hin). lia. }
  split; [lia|].
  split; [unfold set; rewrite Hfresh; reflexivity|].
  split; [exact Hfresh|].
  split.
  - destruct (promises m !! (currentWorkerId m + 1)) as [outcome|] eqn:Hlook; [|reflexivity].
    destruct (Hsettled _ _ Hlook). lia.
  - intros Hin. rewrite Forall_forall in Hcancelled.
    destruct (Hcancelled _ Hin). lia.
Qed.

(** X15. Cancelling.  For a job that is not running [cancelWorker] changes
    nothing and emits nothing.  For a running job it terminates the
    worker, removes it and emits one [cancelled] event for it; every other
    job is left as it was, the promise of the cancelled job is neither
    resolved nor rejected by the cancellation, and cancelling again changes
    nothing. *)
Theorem cancelWorker_effect (workerId : Z) (m : ExcelWorkerManager Job Data) :
  let m' := cancelWorker workerId m in
  match get workerId (workers m) with
  | None => m' = m
  | Some _ =>
      get workerId (workers m') = None
      /\ (forall key, key <> workerId -> get key (workers m') = get key (workers m))
      /\ emitted m' = emitted m ++ [EvCancelled workerId]
      /\ terminated m' = terminated m ++ [workerId]
      /\ promises m' = promises m
      /\ currentWorkerId m' = currentWorkerId m
      /\ cancelWorker workerId m' = m'
  end.
Proof.
  intros m'. subst m'. destruct (get workerId (workers m)) as [worker|] eqn:Hget.
  - rewrite (cancelWorker_running _ _ _ Hget). simpl.
    split; [apply get_delete_eq|].
    split; [intros key Hne; apply get_delete_ne; exact Hne|].
    repeat (split; [reflexivity|]).
    unfold cancelWorker at 1. simpl. rewrite get_delete_eq. reflexivity.
  - unfold cancelWorker. rewrite Hget. reflexivity.
Qed.

Lemma cancel_list_effect (ids : list Z) m :
  NoDup ids ->
  Forall (fun workerId => workerId ∈ keys (workers m)) ids ->
  let m' := foldl (fun m workerId => cancelWorker workerId m) m ids in
  keys (workers m') = filter (fun key => key ∉ ids) (keys (workers m))
  /\ emitted m' = emitted m ++ map EvCancelled ids
  /\ terminated m' = terminated m ++ ids
  /\ promises m' = promises m.
Proof.
  revert m. induction ids as [|workerId ids IH]; intros m Hnodup Hlive; simpl.
  - rewrite !app_nil_r. split; [|repeat split].
    symmetry. apply filter_all. intros key _. apply not_elem_of_nil.
  - apply NoDup_cons in Hnodup as [Hnotin Hnodup].
    apply Forall_cons in Hlive as [Hin Hlive].
    apply get_Some_keys in Hin as [worker Hget].
    rewrite (cancelWorker_running _ _ _ Hget).
    edestruct (IH (MkManager (delete workerId (workers m)) (currentWorkerId m)
                     (emitted m ++ [EvCancelled workerId]) (terminated m ++ [workerId])
                     (promises m)) Hnodup) as (Hkeys & Hemitted & Hterm & Hpromises).
    { simpl. rewrite Forall_forall in Hlive |- *. intros key Hkey.
      rewrite keys_delete, list_elem_of_filter. split; [|apply Hlive, Hkey].
      intros ->. contradiction. }
    simpl in *. rewrite Hkeys, Hemitted, Hterm, Hpromises, <- !app_assoc. simpl.
    split; [|repeat split].
    rewrite keys_delete, list_filter_filter. apply list_filter_iff.
    intros key. rewrite not_elem_of_cons. tauto.
Qed.

(** X16. After any history, [cancelAllWorkers] (and so [shutdown]) leaves no
    worker running: it terminates every running worker and emits one
    [cancelled] event for each, in the order in which the jobs were
    submitted; no promise is settled by it and [getWorkersStatus] is empty
    afterwards. *)
Theorem cancelAllWorkers_stops_everything (inputs : list (Input Job Data)) :
  let m := run inputs in
  let m' := cancelAllWorkers m in
  workers m' = []
  /\ getWorkersStatus m' = []
  /\ emitted m' = emitted m ++ map EvCancelled (keys (workers m))
  /\ terminated m' = terminated m ++ keys (workers m)
  /\ promises m' = promises m
  /\ shutdown m = m'.
Proof.
  intros m m'. subst m'.
  pose proof (inv_run inputs) as [Hdistinct _ _ _ _ _ _]. fold m in Hdistinct.
  destruct (cancel_list_effect (keys (workers m)) m Hdistinct) as (Hkeys & Hemitted & Hterm & Hpromises).
  { apply Forall_forall. intros key Hkey. exact Hkey. }
  fold (cancelAllWorkers m) in Hkeys, Hemitted, Hterm, Hpromises.
  assert (keys (workers (cancelAllWorkers m)) = []) as Hnone.
  { rewrite Hkeys. apply filter_none. intros key Hkey Hout. contradiction. }
  assert (workers (cancelAllWorkers m) = []) as Hempty.
  { destruct (workers (cancelAllWorkers m)); [reflexivity | discriminate Hnone]. }
  split; [exact Hempty|].
  split; [unfold getWorkersStatus; rewrite Hempty; reflexivity|].
  repeat split; assumption.
Qed.

(** X17. After any history: the running jobs have distinct ids, each the
    number of a submitted job; a running job has not been cancelled and its
    promise is not settled; no job is reported cancelled twice; and the
    workers terminated are those reported cancelled. *)
Theorem manager_history (inputs : list (Input Job Data)) :
  let m := run inputs in
  NoDup (keys (workers m))
  /\ NoDup (cancelledIds (emitted m))
  /\ terminated m = cancelledIds (emitted m)
  /\ Forall (fun workerId =>
               1 <= workerId <= submitted inputs
               /\ (workerId ∉ cancelledIds (emitted m))
               /\ promises m !! workerId = None)
            (keys (workers m)).
Proof.
  intros m.
  pose proof (inv_run inputs) as [Hdistinct Hkeys Hcounter Hterm Honce Hcancelled Hsettled].
  pose proof (counter_run inputs) as Hcount.
  fold m in Hdistinct, Hkeys, Hterm, Honce, Hcancelled, Hsettled, Hcount.
  repeat (split; [assumption|]).
  rewrite Forall_forall in Hkeys, Hcancelled |- *. intros workerId Hin.
  split; [rewrite <- Hcount; apply Hkeys, Hin|].
  split.
  - intros Hc. destruct (Hcancelled _ Hc) as [_ Hout]. contradiction.
  - destruct (promises m !! workerId) as [outcome|] eqn:Hlook; [|reflexivity].
    destruct (Hsettled _ _ Hlook) as [_ Hout]. contradiction.
Qed.

End ManagerProofs.

Section ManagerWitness.
Import Manager ManagerSpec.

Lemma cancelWorker_effect_witness :
  get 3 (workers (cancelWorker 3 (run threeJobs))) = None
  /\ (forall key, key <> 3 ->
        get key (workers (cancelWorker 3 (run threeJobs)))
        = get key (workers (run threeJobs)))
  /\ emitted (cancelWorker 3 (run threeJobs)) = emitted (run threeJobs) ++ [EvCancelled 3]
  /\ terminated (cancelWorker 3 (run threeJobs)) = terminated (run threeJobs) ++ [3]
  /\ promises (cancelWorker 3 (run threeJobs)) = promises (run threeJobs)
  /\ currentWorkerId (cancelWorker 3 (run threeJobs)) = currentWorkerId (run threeJobs)
  /\ cancelWorker 3 (cancelWorker 3 (run threeJobs)) = cancelWorker 3 (run threeJobs).
Proof.
  exact (cancelWorker_effect 3 (run threeJobs)).
Defined.

End ManagerWitness.

(** ** The sanitizer of worksheet names *)

Section Sanitizer.
Import Js JsText Security.

Lemma trimEnd_cons (a : ascii) (rest : string) :
  trimEnd (String a rest)
  = if blank (String a rest) then EmptyString else String a (trimEnd rest).
Proof. reflexivity. Qed.

Lemma includes_trimEnd (c : ascii) (s : string) :
  includes c (trimEnd s) = true -> includes c s = true.
Proof.
  induction s as [|a rest IH]; [discriminate|].
  rewrite trimEnd_cons. destruct (blank (String a rest)); [discriminate|].
  simpl. intros H. apply orb_true_iff in H as [H|H]; apply orb_true_iff.
  - left. exact H.
  - right. apply IH, H.
Qed.

Lemma includes_trimStart_upto (c : ascii) (n : nat) (s : string) :
  (String.length s <= n)%nat ->
  includes c (trimStart s) = true -> includes c s = true.
Proof.
  revert s. induction n as [|n IH]; intros s Hlen.
  - destruct s; [discriminate | simpl in Hlen; lia].
  - destruct s as [|a rest]; [discriminate|]. simpl in Hlen.
    assert (forall t, (String.length t <= String.length rest)%nat ->
              includes c (trimStart t) = true -> includes c t = true) as Hrec
      by (intros t Ht; apply IH; lia).
    simpl. destruct (isWs1 a).
    { intros H. apply orb_true_iff. right. apply Hrec; [lia | exact H]. }
    destruct rest as [|b rest2]; [exact (fun H => H)|].
    destruct (isWs2 a b).
    { intros H. simpl. rewrite (Hrec rest2); [apply orb_true_iff; right; apply orb_true_r | simpl; lia | exact H]. }
    destruct rest2 as [|c' rest3]; [exact (fun H => H)|].
    destruct (isWs3 a b c'); [|exact (fun H => H)].
    intros H. simpl. rewrite (Hrec rest3); [| simpl; lia | exact H].
    rewrite !orb_true_r. reflexivity.
Qed.

Lemma includes_trim (c : ascii) (s : string) :
  includes c (trim s) = true -> includes c s = true.
Proof.
  intros H. apply (includes_trimStart_upto c (String.length s)); [lia|].
  apply includes_trimEnd, H.
Qed.

Lemma includes_removeUnsafe (c : ascii) (s : string) :
  includes c (removeUnsafe s) = true -> isUnsafe c = false /\ includes c s = true.
Proof.
  induction s as [|a rest IH]; [discriminate|]. simpl.
  destruct (isUnsafe a) eqn:Ha.
  - intros H. destruct (IH H) as [Hc Hin]. split; [exact Hc|].
    apply orb_true_iff. right. exact Hin.
  - simpl. intros H. apply orb_true_iff in H as [H|H].
    + apply Ascii.eqb_eq in H. subst c. split; [exact Ha|].
      rewrite Ascii.eqb_refl. reflexivity.
    + destruct (IH H) as [Hc Hin]. split; [exact Hc|].
      apply orb_true_iff. right. exact Hin.
Qed.

Lemma length_removeUnsafe (s : string) :
  (String.length (removeUnsafe s) <= String.length s)%nat.
Proof.
  induction s as [|a rest IH]; [reflexivity|]. simpl.
  destruct (isUnsafe a); simpl; lia.
Qed.

Lemma sanitized_clean (sheetName : JsVal) (name : string) (c : ascii) :
  sanitizeSheetName sheetName = Ok name ->
  isUnsafe c = true -> includes c name = false.
Proof.
  unfold sanitizeSheetName.
  destruct (negb (truthy sheetName) || negb (isString sheetName)); [discriminate|].
  destruct (isEmptyString (trim (removeUnsafe (String_ sheetName)))); [discriminate|].
  intros H Hc. injection H as <-.
  destruct (includes c (trim (removeUnsafe (String_ sheetName)))) eqn:Hin; [|reflexivity].
  apply includes_trim, includes_removeUnsafe in Hin as [Hsafe _]. congruence.
Qed.

(** X18. A name that [sanitizeSheetName] returns is a text, is not empty, and
    holds none of the characters of the class: neither angle bracket, no
    colon, double quote, slash, backslash, bar, question mark or star.  A
    value that is not a text, and the empty text, are refused. *)
Theorem sanitizeSheetName_safe (sheetName : JsVal) (name : string) :
  sanitizeSheetName sheetName = Ok name ->
  isString sheetName = true
  /\ sheetName <> JStr EmptyString
  /\ name <> EmptyString
  /\ Forall (fun c => includes c name = false) unsafeChars.
Proof.
  intros Hok. pose proof (sanitized_clean sheetName name) as Hclean.
  specialize (fun c => Hclean c Hok).
  unfold sanitizeSheetName in Hok.
  destruct (negb (truthy sheetName) || negb (isString sheetName)) eqn:Hvalid;
    [discriminate|].
  apply orb_false_iff in Hvalid as [Htruthy Htext].
  apply negb_false_iff in Htruthy, Htext.
  destruct (isEmptyString (trim (removeUnsafe (String_ sheetName)))) eqn:Hempty;
    [discriminate|].
  injection Hok as <-.
  split; [exact Htext|].
  split; [intros ->; discriminate Htruthy|].
  split; [intros Hnil; rewrite Hnil in Hempty; discriminate Hempty|].
  apply Forall_forall. intros c Hc. apply Hclean.
  unfold isUnsafe. apply existsb_exists. exists c.
  split; [apply list_elem_of_In; exact Hc | apply Ascii.eqb_refl].
Qed.

Lemma sanitizeSheetName_safe_witness :
  isString (JStr " Q1: <net> ") = true
  /\ JStr " Q1: <net> " <> JStr EmptyString
  /\ "Q1 net" <> EmptyString
  /\ Forall (fun c => includes c "Q1 net" = false) unsafeChars.
Proof.
  apply (sanitizeSheetName_safe (JStr " Q1: <net> ") "Q1 net").
  vm_compute. reflexivity.
Defined.

End Sanitizer.

(** ** Worksheet names in the conversion handler *)

Section SanitizedLookup.
Import Js Writer Worker Ipc Security.

(** X19. The handler converts the worksheet named by the sanitized text, not by
    the text of the request.  So a worksheet whose name the sanitizer
    changes (one holding a character of the class, or beginning or ending
    with white space) cannot be converted: when the XLSX library reads the
    workbook and that worksheet is the only one, the request for it fails. *)
Theorem convertFile_changed_name_fails (env : Env) (workbook : XlsxWorkbook)
    (validatePaths : Result unit) (outputDir baseName : string)
    (maxRows maxFileSize : option Z) (sheetName : string) :
  sanitizeText sheetName <> Ok sheetName ->
  hasXLSX env = true ->
  xlsxReadFile env = Ok workbook ->
  (forall other, is_Some (Sheets workbook !! other) -> other = sheetName) ->
  exists error,
    convertFile validatePaths sanitizeText
      (convertWorksheetToCSV (fun _ => env) outputDir baseName maxRows maxFileSize)
      (Some [ByName sheetName])
    = Failure error.
Proof.
  intros Hchanged Hxlsx Hread Honly. unfold convertFile.
  destruct validatePaths; [|eexists; reflexivity].
  simpl. destruct (sanitizeText sheetName) as [sanitized|e] eqn:Hsan;
    [|eexists; reflexivity].
  assert (Sheets workbook !! sanitized = None) as Hnone.
  { destruct (Sheets workbook !! sanitized) as [sheet|] eqn:Hlook; [|reflexivity].
    exfalso. apply Hchanged. f_equal. apply Honly. eexists. exact Hlook. }
  unfold convertAll. simpl. unfold convertOne, convertWorksheetToCSV,
    processConvertToCSV, convertToCSV, loadWorkbook, convertWithXLSX.
  rewrite Hxlsx, Hread, Hnone.
  destruct (checkFile env); eexists; reflexivity.
Qed.

End SanitizedLookup.

Section SanitizedLookupWitness.
Import Js Writer Worker Ipc Security SanitizerSpec.

Lemma convertFile_changed_name_fails_witness :
  exists error,
    convertFile (Ok tt) sanitizeText
      (convertWorksheetToCSV (fun _ => angleEnv) "out" "Book" (Some 1000) None)
      (Some [ByName "P<L"])
    = Failure error.
Proof.
  apply (convertFile_changed_name_fails angleEnv angleBook).
  - vm_compute. discriminate.
  - reflexivity.
  - reflexivity.
  - intros other [sheet Hlook]. unfold angleBook in Hlook. simpl in Hlook.
    apply lookup_singleton_Some in Hlook as [<- _]. reflexivity.
Defined.

End SanitizedLookupWitness.

(** ** The streaming converter of the first main process *)

Section StreamingProofs.
Import Js Csv Writer Legacy LegacySpec.

Variables (output finalBaseName sheetName : string) (R : Z).
Hypothesis R_positive : 1 <= R.

Lemma write_snoc (text : string) (files : list (Path * list string))
    (p : Path) (texts : list string) :
  write text (files ++ [(p, texts)]) = files ++ [(p, texts ++ [text])].
Proof. unfold write. rewrite reverse_snoc, reverse_involutive. reflexivity. Qed.

Lemma setLastRows_snoc (n : Z) (files : list FileRecord) (f : FileRecord) :
  setLastRows n (files ++ [f]) = files ++ [ {| path := path f; rows := n |} ].
Proof. unfold setLastRows. rewrite reverse_snoc, reverse_involutive. reflexivity. Qed.

Lemma shortBy_snoc (counts : list Z) (n : Z) :
  counts <> [] -> shortBy (counts ++ [n]) = shortBy counts ++ [n - 1].
Proof.
  destruct counts as [|first later]; [congruence|]. intros _. simpl.
  rewrite map_app. reflexivity.
Qed.

Lemma shortBy_bump (recorded counts : list Z) (r n : Z) :
  recorded ++ [r] = shortBy (counts ++ [n]) ->
  recorded ++ [r + 1] = shortBy (counts ++ [n + 1]) /\ n <= r + 1.
Proof.
  destruct counts as [|first later]; simpl.
  - intros H. destruct recorded as [|x recorded]; simpl in H.
    + injection H as ->. split; [reflexivity | lia].
    + destruct recorded; discriminate.
  - rewrite !map_app. simpl. intros H.
    change (first :: map (fun n => n - 1) later ++ [n - 1])
      with ((first :: map (fun n => n - 1) later) ++ [n - 1]) in H.
    apply app_inj_tail in H as [-> ->].
    split; [|lia]. simpl. do 2 f_equal. f_equal. lia.
Qed.

Lemma rowStep_content (st : StreamState) (cells : list CellValue) :
  hasContent (map valueOf cells) = true ->
  rowStep output finalBaseName sheetName (Some R) st cells
  = let opened :=
      getWriteStream output finalBaseName sheetName (Some R)
        {| nonEmptyRowCount := nonEmptyRowCount st + 1;
           fileIndex := fileIndex st;
           currentFileRows := currentFileRows st + 1;
           writeStream := writeStream st;
           filesCreated := filesCreated st;
           streams := streams st |} in
    {| nonEmptyRowCount := nonEmptyRowCount opened;
       fileIndex := fileIndex opened;
       currentFileRows := currentFileRows opened;
       writeStream := writeStream opened;
       filesCreated := setLastRows (currentFileRows opened) (filesCreated opened);
       streams := write (csvText (map valueOf cells) +:+ lf) (streams opened) |}.
Proof. intros H. unfold rowStep. rewrite H. reflexivity. Qed.

Lemma rowStep_skip (st : StreamState) (cells : list CellValue) :
  hasContent (map valueOf cells) = false ->
  rowStep output finalBaseName sheetName (Some R) st cells = st.
Proof. intros H. unfold rowStep. rewrite H. reflexivity. Qed.

Lemma Running_first (cells : list CellValue) :
  hasContent (map valueOf cells) = true ->
  Running output finalBaseName sheetName R [csvText (map valueOf cells) +:+ lf]
    (rowStep output finalBaseName sheetName (Some R) streamInit cells).
Proof.
  intros H. rewrite (rowStep_content _ _ H). unfold getWriteStream. simpl.
  split; simpl; try reflexivity.
  - eexists. reflexivity.
  - constructor; [unfold len; simpl; lia | constructor].
Qed.

Lemma Running_step (lines : list string) (st : StreamState) (cells : list CellValue) :
  Running output finalBaseName sheetName R lines st ->
  hasContent (map valueOf cells) = true ->
  Running output finalBaseName sheetName R
    (lines ++ [csvText (map valueOf cells) +:+ lf])
    (rowStep output finalBaseName sheetName (Some R) st cells).
Proof.
  intros [Hopen Hcount Hconcat Hpaths Hnames Hindex Hrec Hcur Hbounds] Hcontent.
  rewrite (rowStep_content _ _ Hcontent).
  destruct st as [count index current stream files written]. simpl in *.
  destruct Hopen as [p ->].
  assert (truthyNum R = true) as Htruthy
    by (unfold truthyNum; apply negb_true_iff, Z.eqb_neq; lia).
  apply last_Some in Hcur as [recorded Hrecorded].
  assert (exists fs f, files = fs ++ [f] /\ rows f = current) as (fs & f & -> & Hf).
  { destruct files as [|f0 files0] using rev_ind.
    - destruct recorded; discriminate.
    - exists files0, f0. split; [reflexivity|].
      unfold rowCounts in Hrecorded. rewrite map_app in Hrecorded.
      apply app_inj_tail in Hrecorded as [_ H]. exact H. }
  assert (exists ss s, written = ss ++ [s]) as (ss & s & ->).
  { destruct written as [|s0 written0] using rev_ind.
    - rewrite map_app in Hpaths. destruct (map path fs); discriminate.
    - exists written0, s0. reflexivity. }
  destruct s as [q texts].
  unfold rowCounts, textCounts in *.
  repeat rewrite map_app in Hconcat. repeat rewrite map_app in Hpaths.
  repeat rewrite map_app in Hnames. repeat rewrite map_app in Hrec.
  repeat rewrite map_app in Hbounds.
  rewrite concat_app in Hconcat.
  simpl in Hconcat, Hpaths, Hnames, Hrec, Hbounds. rewrite app_nil_r in Hconcat.
  pose proof (len_nonneg (fs ++ [f])) as Hlen.
  assert (map (fun file : Path * list string => len file.2) ss ++ [len texts] <> [])
    as Hsome by (destruct (map (fun file : Path * list string => len file.2) ss);
                 discriminate).
  unfold getWriteStream, fileIsFull. simpl. rewrite Htruthy. simpl.
  destruct (R <=? current + 1) eqn:Hfull; simpl.
  - (* a new file *)
    apply Z.leb_le in Hfull.
    rewrite setLastRows_snoc, write_snoc. simpl.
    split; simpl; unfold rowCounts, textCounts;
      repeat rewrite map_app; rewrite ?concat_app; simpl; rewrite ?app_nil_r.
    + eexists. reflexivity.
    + rewrite len_snoc. lia.
    + rewrite <- Hconcat, <- !app_assoc. reflexivity.
    + rewrite Hpaths. reflexivity.
    + rewrite seqZ_app by lia. rewrite map_app, <- Hnames. simpl.
      replace (Z.of_nat 0 + (1 + index)) with (index + 1) by lia. reflexivity.
    + rewrite len_snoc. lia.
    + rewrite shortBy_snoc by exact Hsome. rewrite <- Hrec. reflexivity.
    + apply last_snoc.
    + apply Forall_app. split; [exact Hbounds|].
      apply Forall_singleton. unfold len. simpl. lia.
  - (* the open file *)
    apply Z.leb_gt in Hfull.
    rewrite setLastRows_snoc, write_snoc. simpl.
    rewrite Hf in Hrec. destruct (shortBy_bump _ _ _ _ Hrec) as [Hrec' Hle].
    split; simpl; unfold rowCounts, textCounts;
      repeat rewrite map_app; rewrite ?concat_app; simpl; rewrite ?app_nil_r.
    + eexists. reflexivity.
    + rewrite len_snoc. lia.
    + rewrite <- Hconcat, <- !app_assoc. reflexivity.
    + exact Hpaths.
    + exact Hnames.
    + rewrite len_snoc in *. exact Hindex.
    + rewrite len_snoc. exact Hrec'.
    + apply last_snoc.
    + apply Forall_app in Hbounds as [Hss Hs].
      apply Forall_app. split; [exact Hss|].
      apply Forall_inv in Hs. apply Forall_singleton.
      rewrite len_snoc. lia.
Qed.

Lemma linesOf_snoc (sheet : list (list CellValue)) (cells : list CellValue) :
  linesOf (sheet ++ [cells])
  = linesOf sheet
    ++ (if hasContent (map valueOf cells)
        then [csvText (map valueOf cells) +:+ lf] else []).
Proof.
  unfold linesOf, keptValues. rewrite map_app, filter_app, map_app. f_equal.
  change (map (map valueOf) [cells]) with [map valueOf cells].
  destruct (hasContent (map valueOf cells)) eqn:Hcontent.
  - rewrite filter_cons_True by (rewrite Hcontent; exact I). reflexivity.
  - rewrite filter_cons_False by (rewrite Hcontent; exact (fun H => H)). reflexivity.
Qed.

Lemma streamRows_running (sheet : list (list CellValue)) :
  let st := streamRows output finalBaseName sheetName (Some R) sheet in
  (linesOf sheet = [] /\ st = streamInit)
  \/ Running output finalBaseName sheetName R (linesOf sheet) st.
Proof.
  unfold streamRows. induction sheet as [|cells sheet IH] using rev_ind.
  - left. split; reflexivity.
  - rewrite foldl_app, linesOf_snoc. simpl.
    destruct (hasContent (map valueOf cells)) eqn:Hcontent.
    + right. destruct IH as [[-> ->]|IH].
      * apply Running_first. exact Hcontent.
      * apply Running_step; assumption.
    + rewrite app_nil_r, rowStep_skip by exact Hcontent. exact IH.
Qed.

End StreamingProofs.

Section StreamingTheorems.
Import Js Csv Writer Legacy LegacySpec.

Variables (output finalBaseName sheetName : string).

Lemma filePath_first (R : Z) :
  filePath output finalBaseName sheetName (Some R) 1
  = {| dir := output; name := finalBaseName +:+ "_" +:+ sheetName; ext := ".csv" |}.
Proof. unfold filePath. rewrite andb_false_r. reflexivity. Qed.

Lemma filePath_later (R index : Z) :
  1 <= R -> 2 <= index ->
  filePath output finalBaseName sheetName (Some R) index
  = getChunkFilePath
      {| dir := output; name := finalBaseName +:+ "_" +:+ sheetName; ext := ".csv" |}
      index.
Proof.
  intros HR Hindex. unfold filePath, getChunkFilePath, truthyOpt, truthyNum. simpl.
  assert ((R =? 0) = false) as -> by (apply Z.eqb_neq; lia).
  assert ((1 <? index) = true) as -> by (apply Z.ltb_lt; lia).
  simpl. f_equal. rewrite !append_assoc. reflexivity.
Qed.

Lemma filePaths_numbered (R count : Z) :
  1 <= R -> 1 <= count ->
  map (filePath output finalBaseName sheetName (Some R)) (seqZ 1 count)
  = {| dir := output; name := finalBaseName +:+ "_" +:+ sheetName; ext := ".csv" |}
    :: map (getChunkFilePath
              {| dir := output; name := finalBaseName +:+ "_" +:+ sheetName;
                 ext := ".csv" |})
           (seqZ 2 (count - 1)).
Proof.
  intros HR Hcount. rewrite seqZ_cons by lia. simpl. rewrite filePath_first. f_equal.
  replace (Z.succ 1) with 2 by lia. replace (Z.pred count) with (count - 1) by lia.
  apply map_ext_in. intros index Hin. apply list_elem_of_In, elem_of_seqZ in Hin.
  apply filePath_later; lia.
Qed.

Lemma sumZ_shortBy (counts : list Z) :
  counts <> [] -> sumZ (shortBy counts) = sumZ counts - (len counts - 1).
Proof.
  destruct counts as [|first later]; [congruence|]. intros _.
  unfold sumZ, len. simpl.
  induction later as [|n later IH]; simpl in *; lia.
Qed.

Lemma sumZ_textCounts (written : list (Path * list string)) :
  sumZ (textCounts written) = len (concat (map snd written)).
Proof.
  unfold textCounts. rewrite <- sumZ_lens. f_equal.
  rewrite <- list_fmap_compose. reflexivity.
Qed.

(** X20. The streaming converter under a row limit [R >= 1].  It writes the
    rows that have content, in their order, each as one line: the texts of
    its files, put together, are those lines, and [totalRows] is their
    number.  Every file gets at least one and at most [R] lines.  The first
    file carries the plain name [base_sheet.csv] and the later ones the
    suffixes [_part2], [_part3], ... in order. *)
Theorem convertSheetStreamingExcelJS_files
    (workbook : gmap string (list (list CellValue))) (sheet : list (list CellValue))
    (R : Z) :
  1 <= R ->
  workbook !! sheetName = Some sheet ->
  exists result written,
    convertSheetStreamingExcelJS output finalBaseName sheetName (Some R) true
      (Ok workbook) = Ok (result, written)
    /\ totalRows result = len (linesOf sheet)
    /\ concat (map snd written) = linesOf sheet
    /\ map fst written = map path (files result)
    /\ (linesOf sheet = [] -> files result = [])
    /\ (linesOf sheet <> [] ->
        map path (files result)
        = {| dir := output; name := finalBaseName +:+ "_" +:+ sheetName;
             ext := ".csv" |}
          :: map (getChunkFilePath
                    {| dir := output; name := finalBaseName +:+ "_" +:+ sheetName;
                       ext := ".csv" |})
                 (seqZ 2 (len (files result) - 1)))
    /\ Forall (fun n => 1 <= n <= R) (textCounts written).
Proof.
  intros HR Hsheet. unfold convertSheetStreamingExcelJS. simpl. rewrite Hsheet.
  eexists _, _. split; [reflexivity|]. simpl.
  destruct (streamRows_running output finalBaseName sheetName R HR sheet)
    as [[Hnone ->]|[Hopen Hcount Hconcat Hpaths Hnames Hindex Hrec Hcur Hbounds]].
  - rewrite Hnone. simpl. repeat split; try reflexivity; try congruence. constructor.
  - repeat (split; [assumption|]).
    split.
    + intros Hnone. rewrite Hnone in Hconcat, Hcount.
      apply last_Some in Hcur as [recorded Hcur].
      pose proof (f_equal sumZ Hrec) as Hsum.
      assert (textCounts (streams (streamRows output finalBaseName sheetName (Some R) sheet)) <> [])
        as Hsome.
      { intros Hnil. rewrite Hnil in Hrec. simpl in Hrec. rewrite Hrec in Hcur.
        destruct recorded; discriminate. }
      pose proof (sumZ_textCounts (streams (streamRows output finalBaseName sheetName (Some R) sheet)))
        as Htotal.
      rewrite Hconcat in Htotal.
      exfalso. apply Hsome.
      destruct (textCounts (streams (streamRows output finalBaseName sheetName (Some R) sheet)))
        as [|n counts] eqn:Hcounts; [reflexivity|].
      apply Forall_cons in Hbounds as [Hn Hall].
      assert (0 <= sumZ counts) as Hpos.
      { clear -Hall. induction Hall as [|m counts Hm _ IH]; unfold sumZ in *; simpl; lia. }
      unfold sumZ, len in *. simpl in Htotal. lia.
    + split; [|exact Hbounds].
      intros _. rewrite Hnames, Hindex. apply filePaths_numbered; [exact HR|].
      apply last_Some in Hcur as [recorded Hcur].
      destruct (filesCreated (streamRows output finalBaseName sheetName (Some R) sheet)).
      * destruct recorded; discriminate.
      * unfold len. simpl. lia.
Qed.

(** X21. The row counts that the streaming converter records are short: under a
    row limit [R >= 1] the count recorded for the first file is the number
    of its lines, and the count recorded for every later file is one less
    than the number of its lines.  So the recorded counts sum to the total
    less the number of files after the first. *)
Theorem convertSheetStreamingExcelJS_recorded_rows
    (workbook : gmap string (list (list CellValue))) (sheet : list (list CellValue))
    (R : Z) :
  1 <= R ->
  workbook !! sheetName = Some sheet ->
  exists result written,
    convertSheetStreamingExcelJS output finalBaseName sheetName (Some R) true
      (Ok workbook) = Ok (result, written)
    /\ rowCounts (files result) = shortBy (textCounts written)
    /\ (files result <> [] ->
        sumZ (rowCounts (files result))
        = totalRows result - (len (files result) - 1)).
Proof.
  intros HR Hsheet. unfold convertSheetStreamingExcelJS. simpl. rewrite Hsheet.
  eexists _, _. split; [reflexivity|]. simpl.
  destruct (streamRows_running output finalBaseName sheetName R HR sheet)
    as [[Hnone ->]|[Hopen Hcount Hconcat Hpaths Hnames Hindex Hrec Hcur Hbounds]].
  - simpl. split; [reflexivity | congruence].
  - split; [exact Hrec|]. intros Hfiles.
    assert (textCounts (streams (streamRows output finalBaseName sheetName (Some R) sheet)) <> [])
      as Hsome.
    { intros Hnil. rewrite Hnil in Hrec. simpl in Hrec.
      apply Hfiles. unfold rowCounts in Hrec.
      destruct (filesCreated (streamRows output finalBaseName sheetName (Some R) sheet));
        [reflexivity | discriminate]. }
    rewrite Hrec, (sumZ_shortBy _ Hsome), sumZ_textCounts, Hconcat, Hcount.
    f_equal. f_equal. unfold len, textCounts.
    rewrite length_map. f_equal.
    rewrite <- (length_map fst), Hpaths, length_map. reflexivity.
Qed.

End StreamingTheorems.

Section StreamingWitnesses.
Import Js Csv Writer Legacy LegacySpec SliceSpec.

Lemma convertSheetStreamingExcelJS_files_witness :
  exists result written,
    convertSheetStreamingExcelJS "out" "Book" "S" (Some 3) true (Ok sevenBook)
    = Ok (result, written)
    /\ totalRows result = len (linesOf sevenRows)
    /\ concat (map snd written) = linesOf sevenRows
    /\ map fst written = map path (files result)
    /\ (linesOf sevenRows = [] -> files result = [])
    /\ (linesOf sevenRows <> [] ->
        map path (files result)
        = {| dir := "out"; name := "Book" +:+ "_" +:+ "S"; ext := ".csv" |}
          :: map (getChunkFilePath
                    {| dir := "out"; name := "Book" +:+ "_" +:+ "S"; ext := ".csv" |})
                 (seqZ 2 (len (files result) - 1)))
    /\ Forall (fun n => 1 <= n <= 3) (textCounts written).
Proof.
  apply (convertSheetStreamingExcelJS_files "out" "Book" "S" sevenBook sevenRows 3).
  - lia.
  - reflexivity.
Defined.

Lemma convertSheetStreamingExcelJS_recorded_rows_witness :
  exists result written,
    convertSheetStreamingExcelJS "out" "Book" "S" (Some 3) true (Ok sevenBook)
    = Ok (result, written)
    /\ rowCounts (files result) = shortBy (textCounts written)
    /\ (files result <> [] ->
        sumZ (rowCounts (files result))
        = totalRows result - (len (files result) - 1)).
Proof.
  apply (convertSheetStreamingExcelJS_recorded_rows "out" "Book" "S" sevenBook
           sevenRows 3).
  - lia.
  - reflexivity.
Defined.

End StreamingWitnesses.

(** ** The sliced files of the first main process *)

Section Slices.
Import Js Csv Writer Legacy LegacySpec SliceSpec WriterSpec.

Variables (output baseName sheetName : string).

Lemma ceilDiv_positive (n limit : Z) :
  0 < limit -> ceilDiv n limit = (n + limit - 1) / limit.
Proof.
  intros Hlimit. unfold ceilDiv.
  pose proof (Z.div_mod (n + limit - 1) limit ltac:(lia)) as Hdiv.
  pose proof (Z.mod_pos_bound (n + limit - 1) limit Hlimit) as Hmod.
  assert ((- n) / limit = - ((n + limit - 1) / limit)) as ->; [|lia].
  symmetry.
  apply (Z.div_unique _ _ _ (limit - 1 - (n + limit - 1) mod limit)); lia.
Qed.

Lemma chunks_concat {A} (rows : list A) (limit : Z) (k : nat) :
  0 < limit ->
  concat (map (chunkAt rows limit) (seqZ 0 (Z.of_nat k)))
  = take (Z.to_nat (Z.min (Z.of_nat k * limit) (len rows))) rows.
Proof.
  intros Hlimit. induction k as [|k IH].
  - simpl. pose proof (len_nonneg rows).
    replace (Z.min (Z.of_nat 0 * limit) (len rows)) with 0 by lia. reflexivity.
  - rewrite Nat2Z.inj_succ. unfold Z.succ. rewrite seqZ_app by lia.
    rewrite map_app, concat_app, IH. rewrite seqZ_one. simpl. rewrite app_nil_r.
    unfold chunkAt, slice. rewrite Z.add_0_l.
    destruct (Z_le_gt_dec (Z.of_nat k * limit) (len rows)) as [Hle|Hgt].
    + replace (Z.min (Z.of_nat k * limit) (len rows)) with (Z.of_nat k * limit) by lia.
      rewrite take_add_drop. f_equal. lia.
    + replace (Z.min (Z.of_nat k * limit) (len rows)) with (len rows) by lia.
      replace (Z.min ((Z.of_nat k + 1) * limit) (len rows)) with (len rows) by lia.
      rewrite drop_ge by (unfold len in *; lia).
      rewrite take_nil, app_nil_r. reflexivity.
Qed.

Lemma len_chunkAt {A} (rows : list A) (limit i : Z) :
  0 < limit -> 0 <= i -> i * limit <= len rows ->
  len (chunkAt rows limit i) = Z.min ((i + 1) * limit) (len rows) - i * limit.
Proof.
  intros Hlimit Hi Hle. unfold chunkAt, slice, len in *.
  rewrite length_take, length_drop. lia.
Qed.

Lemma map_constant {A B} (f : A -> B) (b : B) (l : list A) :
  Forall (fun a => f a = b) l -> map f l = replicate (length l) b.
Proof.
  induction 1 as [|a l Ha _ IH]; [reflexivity|]. simpl. rewrite Ha, IH. reflexivity.
Qed.

(** X22. The XLSX conversion of the first main process under a row limit [R]
    that the rows exceed.  The rows go to [K] files, [K] the number of rows
    divided by [R] and rounded up, named [_part1] to [_partK], the first
    file included.  Every file but the last holds [R] rows and the last one
    the remaining rows, at least one; the recorded counts are the rows of
    the files; and the texts, put together line after line, are the rows in
    their order. *)
Theorem writeWorksheet_split (nonEmptyRows : list (list JsVal)) (R : Z) :
  1 <= R ->
  R < len nonEmptyRows ->
  let out := writeWorksheet output baseName sheetName nonEmptyRows (Some R) in
  let K := (len nonEmptyRows + R - 1) / R in
  let plain :=
    {| dir := output; name := baseName +:+ "_" +:+ sheetName; ext := ".csv" |} in
  totalRows out.1 = len nonEmptyRows
  /\ 2 <= K
  /\ map path (files out.1) = partPaths plain K
  /\ rowCounts (files out.1)
     = replicate (Z.to_nat (K - 1)) R ++ [len nonEmptyRows - (K - 1) * R]
  /\ 1 <= len nonEmptyRows - (K - 1) * R <= R
  /\ map fst out.2 = map path (files out.1)
  /\ map snd out.2
     = map (fun i => join lf (map csvText (chunkAt nonEmptyRows R i))) (seqZ 0 K)
  /\ join lf (map snd out.2) = join lf (map csvText nonEmptyRows).
Proof.
  intros HR Hmore out K plain.
  set (N := len nonEmptyRows) in *.
  assert (truthyNum R = true) as Htruthy
    by (unfold truthyNum; apply negb_true_iff, Z.eqb_neq; lia).
  assert ((N <=? R) = false) as Hsplit by (apply Z.leb_gt; lia).
  pose proof (Z.div_mod (N + R - 1) R ltac:(lia)) as Hdiv.
  pose proof (Z.mod_pos_bound (N + R - 1) R ltac:(lia)) as Hmod.
  fold K in Hdiv.
  assert (2 <= K) as HK by nia.
  assert ((K - 1) * R < N) as Hlow by nia.
  assert (N <= K * R) as Hhigh by nia.
  assert (out = (let parts := map (writePart output baseName sheetName nonEmptyRows R)
                                  (seqZ 0 K) in
                 ({| totalRows := N; files := map fst parts |}, map snd parts)))
    as Hout.
  { subst out. unfold writeWorksheet. fold N. rewrite Htruthy, Hsplit. simpl.
    rewrite ceilDiv_positive by lia. reflexivity. }
  rewrite Hout. simpl. clear Hout out.
  rewrite <- !list_fmap_compose.
  split; [reflexivity|]. split; [exact HK|].
  split.
  { unfold partPaths. change (seqZ 1 K) with (seqZ (1 + 0) K).
    rewrite <- (fmap_add_seqZ 1 0 K), <- list_fmap_compose.
    apply map_ext. intros i. unfold compose, writePart, getChunkFilePath. simpl.
    f_equal. rewrite !append_assoc. replace (1 + i) with (i + 1) by lia. reflexivity. }
  split.
  { replace K with ((K - 1) + 1) at 1 by lia. rewrite seqZ_app by lia.
    unfold rowCounts. rewrite !map_app, !map_map. f_equal.
    - rewrite (map_constant _ R).
      + rewrite length_seqZ. reflexivity.
      + apply Forall_forall. intros i Hi. apply elem_of_seqZ in Hi.
        unfold compose, writePart. simpl.
        change (slice (i * R) (Z.min ((i + 1) * R) (len nonEmptyRows)) nonEmptyRows)
          with (chunkAt nonEmptyRows R i).
        rewrite len_chunkAt by (fold N; nia). fold N. nia.
    - rewrite seqZ_one. simpl. unfold compose, writePart. simpl.
      change (slice ((0 + (K - 1)) * R)
                (Z.min ((0 + (K - 1) + 1) * R) (len nonEmptyRows)) nonEmptyRows)
        with (chunkAt nonEmptyRows R (0 + (K - 1))).
      rewrite len_chunkAt by (fold N; nia). fold N. f_equal. nia. }
  split; [lia|].
  split; [apply map_ext; intros i; reflexivity|].
  split; [apply map_ext; intros i; reflexivity|].
  transitivity (join lf (map (join lf)
                  (map (fun i => map csvText (chunkAt nonEmptyRows R i)) (seqZ 0 K)))).
  { f_equal. rewrite <- list_fmap_compose. apply map_ext. intros i. reflexivity. }
  rewrite join_concat.
  - f_equal.
    rewrite <- (map_map (chunkAt nonEmptyRows R) (map csvText)).
    rewrite <- concat_map. f_equal.
    rewrite <- (Z2Nat.id K) by lia. rewrite chunks_concat by lia.
    rewrite Z2Nat.id by lia. fold N.
    replace (Z.min (K * R) N) with N by lia.
    apply take_ge. unfold N, len. lia.
  - apply Forall_forall. intros chunk Hchunk.
    apply list_elem_of_fmap in Hchunk as (i & -> & Hi). apply elem_of_seqZ in Hi.
    intros Hnil. apply (f_equal length) in Hnil. rewrite length_map in Hnil.
    pose proof (len_chunkAt nonEmptyRows R i ltac:(lia) ltac:(lia)) as Hlen.
    fold N in Hlen. unfold len at 1 in Hlen. rewrite Hnil in Hlen. simpl in Hlen.
    assert (i * R <= N) by nia. specialize (Hlen ltac:(assumption)). nia.
Qed.

End Slices.

Section SlicesWitness.
Import Js Csv Writer Legacy LegacySpec SliceSpec WriterSpec.

Lemma writeWorksheet_split_witness :
  map path (files (writeWorksheet "out" "Book" "S" sevenValues (Some 3)).1)
  = partPaths {| dir := "out"; name := "Book" +:+ "_" +:+ "S"; ext := ".csv" |}
      ((len sevenValues + 3 - 1) / 3).
Proof.
  apply (writeWorksheet_split "out" "Book" "S" sevenValues 3); vm_compute; congruence.
Defined.

End SlicesWitness.

Section RequestOutcome.
Import Js Writer Worker Ipc IpcSpec RequestSpec WriterSpec.

(** X23. A request that passes validation fails exactly when every worksheet
    failed, provided that each converted worksheet yields at least one
    file: with the paths accepted, at least one worksheet requested and
    every name accepted by the sanitizer, the handler answers
    [success: false] if and only if the conversion of every worksheet
    failed. *)
Theorem convertFile_failure_iff (sanitizeSheetName : string -> Result string)
    (convertWorksheet : string -> Result ConversionResult)
    (worksheets : list WorksheetArg) (sheets : list string) :
  worksheets <> [] ->
  forEach (validateWorksheet sanitizeSheetName) worksheets = Ok sheets ->
  (forall sheet result,
      sheet ∈ sheets -> convertWorksheet sheet = Ok result -> files result <> []) ->
  isSuccess (convertFile (Ok tt) sanitizeSheetName convertWorksheet (Some worksheets))
  = false
  <-> Forall (failed convertWorksheet) sheets.
Proof.
  intros Hsome Hvalid Hfiles. unfold convertFile.
  destruct worksheets as [|arg args]; [congruence|].
  rewrite Hvalid. rewrite (respond_failure_iff convertWorksheet sheets Hfiles).
  pose proof (forEach_length _ _ _ Hvalid) as Hlen.
  split; [intros [_ H]; exact H|]. intros H. split; [|exact H].
  intros ->. simpl in Hlen. discriminate.
Qed.

Lemma convertFile_failure_iff_witness :
  isSuccess (convertFile (Ok tt) Ok onlySales (Some [ByName "Costs"; ByObject "Taxes"]))
  = false
  <-> Forall (failed onlySales) ["Costs"; "Taxes"].
Proof.
  apply (convertFile_failure_iff Ok onlySales [ByName "Costs"; ByObject "Taxes"]).
  - discriminate.
  - reflexivity.
  - intros sheet result _. unfold onlySales.
    destruct (bool_decide (sheet = "Sales")); [|discriminate].
    intros Hok. injection Hok as <-. discriminate.
Defined.



End RequestOutcome.

(** ** The navigation of the viewer *)

Section ViewerNavigation.
Import Js Reader ReaderSpec Viewer.



End ViewerNavigation.

Section ViewerNavigationWitness.
Import Js Reader ReaderSpec Viewer.


End ViewerNavigationWitness.

(** ** The streaming converter without a row limit *)

Section StreamingUnlimited.
Import Js Csv Writer Legacy LegacySpec.

Variables (output finalBaseName sheetName : string) (maxRows : option Z).
Hypothesis no_limit : truthyOpt maxRows = false.

Lemma fileIsFull_never (st : StreamState) : fileIsFull maxRows st = false.
Proof.
  unfold fileIsFull. destruct maxRows as [limit|]; [|reflexivity].
  simpl in no_limit. rewrite no_limit. reflexivity.
Qed.

Lemma filePath_plain (index : Z) :
  filePath output finalBaseName sheetName maxRows index
  = {| dir := output; name := finalBaseName +:+ "_" +:+ sheetName; ext := ".csv" |}.
Proof. unfold filePath. rewrite no_limit. reflexivity. Qed.

Lemma streamRows_unlimited (sheet : list (list CellValue)) :
  streamRows output finalBaseName sheetName maxRows sheet
  = match linesOf sheet with
    | [] => streamInit
    | line :: lines =>
        let plain :=
          {| dir := output; name := finalBaseName +:+ "_" +:+ sheetName;
             ext := ".csv" |} in
        {| nonEmptyRowCount := len (line :: lines);
           fileIndex := 1;
           currentFileRows := len (line :: lines);
           writeStream := Some plain;
           filesCreated := [ {| path := plain; rows := len (line :: lines) |} ];
           streams := [ (plain, line :: lines) ] |}
    end.
Proof.
  unfold streamRows. induction sheet as [|cells sheet IH] using rev_ind; [reflexivity|].
  rewrite foldl_app, linesOf_snoc, IH. simpl. unfold rowStep.
  destruct (hasContent (map valueOf cells)); simpl; [|rewrite app_nil_r; reflexivity].
  destruct (linesOf sheet) as [|line lines]; simpl.
  - unfold getWriteStream. simpl. rewrite filePath_plain. reflexivity.
  - unfold getWriteStream. simpl. rewrite fileIsFull_never. simpl.
    unfold setLastRows, write. simpl.
    change (line :: lines ++ [csvText (map valueOf cells) +:+ lf])
      with ((line :: lines) ++ [csvText (map valueOf cells) +:+ lf]).
    rewrite len_snoc. reflexivity.
Qed.

End StreamingUnlimited.

Section StreamingUnlimitedTheorem.
Import Js Csv Writer Legacy LegacySpec.

(** X26. The streaming converter without a row limit ([maxRows] null,
    undefined or 0) on a worksheet that ExcelJS finds: when no row has
    content it creates no file and reports no row; otherwise it creates one
    file, under the plain name [base_sheet.csv], writes to it the lines of
    the rows with content in their order, and records for it their number,
    which is also [totalRows]. *)
Theorem convertSheetStreamingExcelJS_unlimited
    (output finalBaseName sheetName : string) (maxRows : option Z)
    (workbook : gmap string (list (list CellValue))) (sheet : list (list CellValue)) :
  truthyOpt maxRows = false ->
  workbook !! sheetName = Some sheet ->
  convertSheetStreamingExcelJS output finalBaseName sheetName maxRows true (Ok workbook)
  = Ok (match linesOf sheet with
        | [] => ({| totalRows := 0; files := [] |}, [])
        | line :: lines =>
            let plain :=
              {| dir := output; name := finalBaseName +:+ "_" +:+ sheetName;
                 ext := ".csv" |} in
            ({| totalRows := len (line :: lines);
                files := [ {| path := plain; rows := len (line :: lines) |} ] |},
             [ (plain, line :: lines) ])
        end).
Proof.
  intros Hlimit Hsheet. unfold convertSheetStreamingExcelJS. simpl. rewrite Hsheet.
  rewrite (streamRows_unlimited _ _ _ _ Hlimit). destruct (linesOf sheet); reflexivity.
Qed.

Lemma convertSheetStreamingExcelJS_unlimited_witness :
  convertSheetStreamingExcelJS "out" "Book" "S" (Some 0) true (Ok SliceSpec.sevenBook)
  = Ok (match linesOf sevenRows with
        | [] => ({| totalRows := 0; files := [] |}, [])
        | line :: lines =>
            let plain :=
              {| dir := "out"; name := "Book" +:+ "_" +:+ "S"; ext := ".csv" |} in
            ({| totalRows := len (line :: lines);
                files := [ {| path := plain; rows := len (line :: lines) |} ] |},
             [ (plain, line :: lines) ])
        end).
Proof.
  apply (convertSheetStreamingExcelJS_unlimited "out" "Book" "S" (Some 0)
           SliceSpec.sevenBook sevenRows).
  - reflexivity.
  - reflexivity.
Defined.

End StreamingUnlimitedTheorem.

(** ** The row filters of the two generations *)

Section RowFilters.
Import Js JsText Writer.

Lemma legacy_cell_has_content (cell : JsVal) :
  Legacy.cellHasContent cell = true -> Worker.cellHasContent cell = true.
Proof.
  destruct cell as [| |b|n|s]; try reflexivity; try discriminate.
  destruct s; [discriminate | reflexivity].
Qed.

Lemma legacy_row_has_content (row : list JsVal) :
  Legacy.hasContent row = true -> existsb Worker.cellHasContent row = true.
Proof.
  unfold Legacy.hasContent. rewrite !existsb_exists.
  intros (cell & Hin & Hcell). exists cell.
  split; [exact Hin | apply legacy_cell_has_content, Hcell].
Qed.

(** X27. Every row that the first converter keeps, the worker keeps.  The
    filter of the first converter (a cell has content when its text,
    trimmed, is neither empty nor [null] nor [undefined]) is the stricter
    one: applying it after the filter of the worker (a cell has content
    unless it is null, undefined or the empty string) gives what it gives
    alone, for every list of rows. *)
Theorem legacy_filter_within_worker_filter (data : list (list JsVal)) :
  filter (fun row => Is_true (Legacy.hasContent row)) (Worker.nonEmptyRowsOf data)
  = filter (fun row => Is_true (Legacy.hasContent row)) data.
Proof.
  unfold Worker.nonEmptyRowsOf. rewrite list_filter_filter.
  apply list_filter_iff. intros row. split; [intros [H _]; exact H|].
  intros H. split; [exact H|].
  apply Is_true_true, legacy_row_has_content, Is_true_true, H.
Qed.

End RowFilters.
